(** * Meeting-brief pipeline: the assembler's merges, the context gatherer
      and the orchestrator, embedded from the Python sources under
      [backend/app/agents] and [backend/app/models].

    Conventions of the embedding.
    - A [str] is a [string], one character per code point; [s[:n]] is
      [str_take n s]. Lower-casing is the runtime's ([lower]).
    - A [Dict[str, Any]] is a [gmap string value]; [value] is what a parsed
      JSON document holds. The pydantic models are records, and building
      one from values goes through the model's field validation.
    - A function that can raise returns a [result]; statements are
      sequenced with [x ← r; k]. A [try/except Exception] that prints and
      goes on is a match on the result that keeps the state reached.
    - The integrations, the three chains, the clock and the identifier
      source are the fields of a [World], one per run.
    - A loop that appends to a list is a recursive function with the list
      (and the [seen] set) as accumulator. *)

From Stdlib Require Import ZArith String List Floats.PrimFloat.
From stdpp Require Import base option list strings gmap.

Local Open Scope string_scope.
Local Set Warnings "-register-all".

(** ** Python values and exceptions *)

(** What a parsed JSON document (and so a [Dict[str, Any]]) can hold. *)
Inductive value : Type :=
| VNone
| VBool (b : bool)
| VInt (n : Z)
| VFloat (x : float)
| VStr (s : string)
| VList (l : list value)
| VDict (d : gmap string value).

(** The exceptions the modelled code can raise or let through. *)
Inductive exn : Type :=
| TypeError
| AttributeError
| KeyError
| ValidationError
| OutputParserException
| ExternalError (msg : string).

Inductive result (A : Type) : Type :=
| Ok (a : A)
| Raise (e : exn).
Arguments Ok {A} a.
Arguments Raise {A} e.

(** A statement that raises aborts everything sequenced after it. *)
#[global] Instance result_bind : MBind result := fun A B k r =>
  match r with
  | Ok a => k a
  | Raise e => Raise e
  end.
#[global] Instance result_ret : MRet result := fun A a => Ok a.

(** [d.get(k, dflt)] *)
Definition dict_get (d : gmap string value) (k : string) (dflt : value) : value :=
  default dflt (d !! k).

(** [s[:n]] on a [str]. *)
Fixpoint str_take (n : nat) (s : string) : string :=
  match n, s with
  | O, _ => ""
  | S _, EmptyString => ""
  | S n', String c s' => String c (str_take n' s')
  end.
Arguments str_take : simpl never.

(** [v[:n]]: a [str] and a [list] take a slice, the other values raise. *)
Definition py_slice (n : nat) (v : value) : result value :=
  match v with
  | VStr s => Ok (VStr (str_take n s))
  | VList l => Ok (VList (take n l))
  | _ => Raise TypeError
  end.

(** [bool(v)] *)
Definition truthy (v : value) : bool :=
  match v with
  | VNone => false
  | VBool b => b
  | VInt n => negb (n =? 0)%Z
  | VFloat x => negb (PrimFloat.eqb x 0%float)
  | VStr s => negb (String.eqb s "")
  | VList l => negb (bool_decide (l = []))
  | VDict d => negb (bool_decide (d = ∅))
  end.

Fixpoint str_chars (s : string) : list value :=
  match s with
  | EmptyString => []
  | String c s' => VStr (String c "") :: str_chars s'
  end.

(** [for x in v]: the elements of a list, the characters of a [str], the
    keys of a dict; the other values are not iterable. *)
Definition py_iter (v : value) : result (list value) :=
  match v with
  | VList l => Ok l
  | VStr s => Ok (str_chars s)
  | VDict d => Ok ((fun kv => VStr kv.1) <$> map_to_list d)
  | _ => Raise TypeError
  end.

(** [v.get]: only a dict has the method. *)
Definition py_dict (v : value) : result (gmap string value) :=
  match v with
  | VDict d => Ok d
  | _ => Raise AttributeError
  end.

(** [v[k]] with a [str] key. *)
Definition py_getitem (v : value) (k : string) : result value :=
  match v with
  | VDict d => match d !! k with
               | Some x => Ok x
               | None => Raise KeyError
               end
  | _ => Raise TypeError
  end.

(** [sep.join(parts)] *)
Fixpoint str_join (sep : string) (parts : list string) : string :=
  match parts with
  | [] => ""
  | [p] => p
  | p :: rest => p ++ sep ++ str_join sep rest
  end.

Definition nl : string := String (Ascii.ascii_of_nat 10) "".

(** [datetime]: microseconds since the epoch. *)
Definition datetime : Type := Z.

(** The three chains [prompt | llm | parser], one per agent. *)
Inductive Agent : Type := ContextGatherer | InsightExtractor | BriefGenerator.

(** What the code takes from the Python runtime and from pydantic and
    langchain without defining it: Unicode lower-casing, the lax
    conversions pydantic applies to a value that is not already of the
    field's type, and text rendering for prompts. *)
Class Builtins : Type := {
  lower : string -> string;                    (* str.lower *)
  lax_datetime : value -> option datetime;     (* datetime field, non-None input *)
  lax_float : value -> option float;           (* float field, non-float input *)
  py_str : value -> string;                    (* format(v) inside an f-string *)
  json_dumps : option Z -> value -> string;    (* json.dumps(v, indent=..) *)
  isoformat : datetime -> string;              (* datetime.isoformat *)
  minus_days : datetime -> Z -> result datetime; (* d - timedelta(days=n) *)
  format_instructions : Agent -> string;       (* parser.get_format_instructions() *)
}.

(** ** pydantic field validation (models/brief.py, agents) *)

Definition validate_str (v : value) : result string :=
  match v with
  | VStr s => Ok s
  | _ => Raise ValidationError
  end.

Definition validate_opt_str (v : value) : result (option string) :=
  match v with
  | VNone => Ok None
  | VStr s => Ok (Some s)
  | _ => Raise ValidationError
  end.

Definition validate_opt_datetime `{Builtins} (v : value) : result (option datetime) :=
  match v with
  | VNone => Ok None
  | _ => match lax_datetime v with
         | Some d => Ok (Some d)
         | None => Raise ValidationError
         end
  end.

Definition validate_float `{Builtins} (v : value) : result float :=
  match v with
  | VFloat x => Ok x
  | _ => match lax_float v with
         | Some x => Ok x
         | None => Raise ValidationError
         end
  end.

Definition validate_dict (v : value) : result (gmap string value) :=
  match v with
  | VDict d => Ok d
  | _ => Raise ValidationError
  end.

(** [List[T]]: a list each of whose elements validates as a [T]. *)
Fixpoint validate_each {A : Type} (f : value -> result A) (l : list value)
  : result (list A) :=
  match l with
  | [] => Ok []
  | v :: l' => a ← f v; r ← validate_each f l'; Ok (a :: r)
  end.

Definition validate_list {A : Type} (f : value -> result A) (v : value)
  : result (list A) :=
  match v with
  | VList l => validate_each f l
  | _ => Raise ValidationError
  end.

(** A field with a default: the default when the keyword is absent. *)
Definition field_default {A : Type} (f : value -> result A) (dflt : A)
    (d : gmap string value) (k : string) : result A :=
  match d !! k with
  | Some v => f v
  | None => Ok dflt
  end.

(** A required field. *)
Definition field_required {A : Type} (f : value -> result A)
    (d : gmap string value) (k : string) : result A :=
  match d !! k with
  | Some v => f v
  | None => Raise ValidationError
  end.

(** ** models/brief.py *)

Module ActionItem.
Record t : Type := mk {
  description : string;
  assignee : option string;
  due_date : option datetime;
  status : string;
  source : option string;
}.
(** [ActionItem(description=.., assignee=.., due_date=.., status=.., source=..)] *)
Definition new `{Builtins} (description assignee due_date status source : value)
  : result t :=
  d ← validate_str description;
  a ← validate_opt_str assignee;
  dd ← validate_opt_datetime due_date;
  st ← validate_str status;
  src ← validate_opt_str source;
  Ok (mk d a dd st src).
End ActionItem.

Module TalkingPoint.
Record t : Type := mk {
  topic : string;
  context : string;
  priority : string;
  source : option string;
}.
(** [TalkingPoint(topic=.., context=.., priority=.., source=..)] *)
Definition new (topic context priority source : value) : result t :=
  tp ← validate_str topic;
  cx ← validate_str context;
  pr ← validate_str priority;
  src ← validate_opt_str source;
  Ok (mk tp cx pr src).
End TalkingPoint.

Module RiskOpportunity.
Record t : Type := mk {
  type : string;
  title : string;
  description : string;
  severity : string;
  recommended_action : option string;
}.
(** [RiskOpportunity(type=.., title=.., description=.., severity=..,
    recommended_action=..)] *)
Definition new (type title description severity recommended_action : value)
  : result t :=
  ty ← validate_str type;
  ti ← validate_str title;
  de ← validate_str description;
  se ← validate_str severity;
  ra ← validate_opt_str recommended_action;
  Ok (mk ty ti de se ra).
End RiskOpportunity.

Module ParticipantProfile.
Record t : Type := mk {
  email : string;
  name : option string;
  title : option string;
  company : option string;
  linkedin_url : option string;
  recent_interactions : list string;
  key_topics : list string;
  sentiment : option string;
}.
(** the model built from the dict passed as keywords: [email] is required, the rest default. *)
Definition of_dict (p : gmap string value) : result t :=
  em ← field_required validate_str p "email";
  nm ← field_default validate_opt_str None p "name";
  ti ← field_default validate_opt_str None p "title";
  co ← field_default validate_opt_str None p "company";
  li ← field_default validate_opt_str None p "linkedin_url";
  ri ← field_default (validate_list validate_str) [] p "recent_interactions";
  kt ← field_default (validate_list validate_str) [] p "key_topics";
  se ← field_default validate_opt_str None p "sentiment";
  Ok (mk em nm ti co li ri kt se).
End ParticipantProfile.

Module Brief.
Record t : Type := mk {
  id : string;
  meeting_id : string;
  title : string;
  meeting_objective : option string;
  executive_summary : string;
  participant_profiles : list ParticipantProfile.t;
  relationship_timeline : list (gmap string value);
  open_action_items : list ActionItem.t;
  talking_points : list TalkingPoint.t;
  risks_opportunities : list RiskOpportunity.t;
  email_context : option string;
  crm_context : option string;
  previous_meetings_summary : option string;
  generated_at : datetime;
}.
End Brief.

(** ** agents/insight_extractor.py: the result models *)

Module ExtractedInsight.
Record t : Type := mk {
  type : string;
  content : string;
  source : string;
  source_date : option string;
  participants : list string;
  priority : string;
  status : string;
  confidence : float;
}.
(** [confidence] defaults to the float written [0.8]. *)
Definition of_dict `{Builtins} (d : gmap string value) : result t :=
  ty ← field_required validate_str d "type";
  co ← field_required validate_str d "content";
  so ← field_required validate_str d "source";
  sd ← field_default validate_opt_str None d "source_date";
  pa ← field_default (validate_list validate_str) [] d "participants";
  pr ← field_default validate_str "medium" d "priority";
  st ← field_default validate_str "open" d "status";
  cf ← field_default validate_float 0x1.999999999999ap-1%float d "confidence";
  Ok (mk ty co so sd pa pr st cf).
Definition of_value `{Builtins} (v : value) : result t :=
  d ← validate_dict v; of_dict d.
End ExtractedInsight.

Module InsightExtractionResult.
Record t : Type := mk {
  action_items : list ExtractedInsight.t;
  commitments : list ExtractedInsight.t;
  decisions : list ExtractedInsight.t;
  concerns : list ExtractedInsight.t;
  opportunities : list ExtractedInsight.t;
  key_topics : list string;
  sentiment_summary : string;
  relationship_health : string;
}.
(** the model built from the parsed dict passed as keywords: every field has a default. *)
Definition of_dict `{Builtins} (d : gmap string value) : result t :=
  ai ← field_default (validate_list ExtractedInsight.of_value) [] d "action_items";
  cm ← field_default (validate_list ExtractedInsight.of_value) [] d "commitments";
  de ← field_default (validate_list ExtractedInsight.of_value) [] d "decisions";
  cn ← field_default (validate_list ExtractedInsight.of_value) [] d "concerns";
  op ← field_default (validate_list ExtractedInsight.of_value) [] d "opportunities";
  kt ← field_default (validate_list validate_str) [] d "key_topics";
  ss ← field_default validate_str "neutral" d "sentiment_summary";
  rh ← field_default validate_str "healthy" d "relationship_health";
  Ok (mk ai cm de cn op kt ss rh).
End InsightExtractionResult.

(** ** agents/brief_generator.py: the draft model *)

Module GeneratedBrief.
Record t : Type := mk {
  meeting_objective : string;
  executive_summary : string;
  participant_profiles : list (gmap string value);
  relationship_timeline : list (gmap string value);
  open_action_items : list (gmap string value);
  talking_points : list (gmap string value);
  risks_opportunities : list (gmap string value);
  email_summary : option string;
  previous_meetings_summary : option string;
}.
(** the model built from the parsed dict passed as keywords: the first seven fields are required. *)
Definition of_dict (d : gmap string value) : result t :=
  mo ← field_required validate_str d "meeting_objective";
  es ← field_required validate_str d "executive_summary";
  pp ← field_required (validate_list validate_dict) d "participant_profiles";
  rt ← field_required (validate_list validate_dict) d "relationship_timeline";
  ai ← field_required (validate_list validate_dict) d "open_action_items";
  tp ← field_required (validate_list validate_dict) d "talking_points";
  ro ← field_required (validate_list validate_dict) d "risks_opportunities";
  em ← field_default validate_opt_str None d "email_summary";
  pm ← field_default validate_opt_str None d "previous_meetings_summary";
  Ok (mk mo es pp rt ai tp ro em pm).
End GeneratedBrief.

(** ** agents/context_gatherer.py: the context model *)

Module GatheredContext.
Record t : Type := mk {
  email_threads : list (gmap string value);
  calendar_events : list (gmap string value);
  crm_data : gmap string value;
  past_interactions : list (gmap string value);
  participant_profiles : list (gmap string value);
  data_quality_score : float;
  sources_accessed : list string;
}.
(** the model built from the parsed dict passed as keywords: every field has a default. *)
Definition of_dict `{Builtins} (d : gmap string value) : result t :=
  et ← field_default (validate_list validate_dict) [] d "email_threads";
  ce ← field_default (validate_list validate_dict) [] d "calendar_events";
  cd ← field_default validate_dict ∅ d "crm_data";
  pi ← field_default (validate_list validate_dict) [] d "past_interactions";
  pp ← field_default (validate_list validate_dict) [] d "participant_profiles";
  dq ← field_default validate_float 0%float d "data_quality_score";
  sa ← field_default (validate_list validate_str) [] d "sources_accessed";
  Ok (mk et ce cd pi pp dq sa).
End GatheredContext.

(** ** agents/orchestrator.py: the three merges *)

(** [v.lower()]: only a [str] has the method. *)
Definition py_lower `{Builtins} (v : value) : result string :=
  match v with
  | VStr s => Ok (lower s)
  | _ => Raise AttributeError
  end.

(** [v[:50].lower()] *)
Definition slice50_lower `{Builtins} (v : value) : result string :=
  prefix ← py_slice 50 v; py_lower prefix.

(** First loop of [_merge_action_items]; the state is [(items, seen)]. *)
Fixpoint merge_brief_items `{Builtins} (brief_items : list (gmap string value))
    (items : list ActionItem.t) (seen : gset string)
  : result (list ActionItem.t * gset string) :=
  match brief_items with
  | [] => Ok (items, seen)
  | item :: rest =>
      key ← slice50_lower (dict_get item "description" (VStr ""));
      if decide (key ∈ seen) then merge_brief_items rest items seen
      else
        ai ← ActionItem.new
               (dict_get item "description" (VStr ""))
               (dict_get item "assignee" VNone)
               (dict_get item "due_date" VNone)
               (dict_get item "status" (VStr "open"))
               (dict_get item "source" VNone);
        merge_brief_items rest (items ++ [ai]) ({[key]} ∪ seen)
  end.

(** [insight.participants[0] if insight.participants else None] *)
Definition first_participant (insight : ExtractedInsight.t) : value :=
  match ExtractedInsight.participants insight with
  | [] => VNone
  | p :: _ => VStr p
  end.

(** Second loop of [_merge_action_items]. [due_date] is not passed, so it
    takes its default [None]. *)
Fixpoint merge_insight_items `{Builtins} (insight_items : list ExtractedInsight.t)
    (items : list ActionItem.t) (seen : gset string)
  : result (list ActionItem.t * gset string) :=
  match insight_items with
  | [] => Ok (items, seen)
  | insight :: rest =>
      let key := lower (str_take 50 (ExtractedInsight.content insight)) in
      if decide (key ∈ seen) then merge_insight_items rest items seen
      else
        ai ← ActionItem.new
               (VStr (ExtractedInsight.content insight))
               (first_participant insight)
               VNone
               (VStr (ExtractedInsight.status insight))
               (VStr (ExtractedInsight.source insight));
        merge_insight_items rest (items ++ [ai]) ({[key]} ∪ seen)
  end.

Definition _merge_action_items `{Builtins} (brief_items : list (gmap string value))
    (insight_items : list ExtractedInsight.t) : result (list ActionItem.t) :=
  '(items, seen) ← merge_brief_items brief_items [] ∅;
  '(items, seen) ← merge_insight_items insight_items items seen;
  Ok (take 10 items).

(** The three loops of [_enhance_talking_points], each appending to
    [enhanced]. *)
Fixpoint enhance_points (points : list (gmap string value))
    (enhanced : list TalkingPoint.t) : result (list TalkingPoint.t) :=
  match points with
  | [] => Ok enhanced
  | point :: rest =>
      tp ← TalkingPoint.new
             (dict_get point "topic" (VStr ""))
             (dict_get point "context" (VStr ""))
             (dict_get point "priority" (VStr "medium"))
             (dict_get point "source" VNone);
      enhance_points rest (enhanced ++ [tp])
  end.

Fixpoint enhance_concerns (concerns : list ExtractedInsight.t)
    (enhanced : list TalkingPoint.t) : result (list TalkingPoint.t) :=
  match concerns with
  | [] => Ok enhanced
  | concern :: rest =>
      tp ← TalkingPoint.new
             (VStr ("Address concern: " ++ str_take 50 (ExtractedInsight.content concern)))
             (VStr (ExtractedInsight.content concern))
             (VStr "high")
             (VStr (ExtractedInsight.source concern));
      enhance_concerns rest (enhanced ++ [tp])
  end.

Fixpoint enhance_opportunities (opportunities : list ExtractedInsight.t)
    (enhanced : list TalkingPoint.t) : result (list TalkingPoint.t) :=
  match opportunities with
  | [] => Ok enhanced
  | opp :: rest =>
      tp ← TalkingPoint.new
             (VStr ("Explore opportunity: " ++ str_take 50 (ExtractedInsight.content opp)))
             (VStr (ExtractedInsight.content opp))
             (VStr "medium")
             (VStr (ExtractedInsight.source opp));
      enhance_opportunities rest (enhanced ++ [tp])
  end.

Definition _enhance_talking_points (points : list (gmap string value))
    (insights : InsightExtractionResult.t) : result (list TalkingPoint.t) :=
  enhanced ← enhance_points points [];
  enhanced ← enhance_concerns (take 3 (InsightExtractionResult.concerns insights)) enhanced;
  enhanced ← enhance_opportunities
               (take 2 (InsightExtractionResult.opportunities insights)) enhanced;
  Ok (take 8 enhanced).

(** The three loops of [_merge_risks_opportunities]. *)
Fixpoint merge_existing (existing : list (gmap string value))
    (items : list RiskOpportunity.t) : result (list RiskOpportunity.t) :=
  match existing with
  | [] => Ok items
  | item :: rest =>
      ro ← RiskOpportunity.new
             (dict_get item "type" (VStr "risk"))
             (dict_get item "title" (VStr ""))
             (dict_get item "description" (VStr ""))
             (dict_get item "severity" (VStr "medium"))
             (dict_get item "recommended_action" VNone);
      merge_existing rest (items ++ [ro])
  end.

(** The concern loop and the opportunity loop differ in the [type] only. *)
Fixpoint merge_insights_as (type : string) (insights : list ExtractedInsight.t)
    (items : list RiskOpportunity.t) : result (list RiskOpportunity.t) :=
  match insights with
  | [] => Ok items
  | insight :: rest =>
      ro ← RiskOpportunity.new
             (VStr type)
             (VStr (str_take 50 (ExtractedInsight.content insight)))
             (VStr (ExtractedInsight.content insight))
             (VStr (ExtractedInsight.priority insight))
             VNone;
      merge_insights_as type rest (items ++ [ro])
  end.

Definition _merge_risks_opportunities (existing : list (gmap string value))
    (concerns opportunities : list ExtractedInsight.t)
  : result (list RiskOpportunity.t) :=
  items ← merge_existing existing [];
  items ← merge_insights_as "risk" concerns items;
  items ← merge_insights_as "opportunity" opportunities items;
  Ok (take 6 items).

(** ** The environment of one run

    The integrations handed to the orchestrator, the structured-generation
    chains, the clock and the identifier source. A client answers as a
    function of the request; every call may raise. An answer is JSON data,
    which [json.dumps] serialises: an integration that answers with another
    object makes [gather] raise TypeError when it renders the prompt,
    before the chain is called, and such runs are not modelled. *)

Record EmailClient : Type := {
  search_emails : string -> string -> result value;   (* query, since *)
}.

Record CalendarClient : Type := {
  list_events : string -> string -> result value;     (* time_min, time_max *)
}.

Record CrmClient : Type := {
  get_contact_by_email : string -> result value;
  get_contact_deals : value -> result value;
  get_account : value -> result value;
}.

(** One entry of the [mcp] dict: [{"enabled": .., "client": ..}]. *)
Record Integration (C : Type) : Type := {
  enabled : bool;
  client : C;
}.
Arguments enabled {C} _.
Arguments client {C} _.

(** The [mcp] dict: a key is present or not. *)
Record Mcp : Type := {
  mcp_email : option (Integration EmailClient);
  mcp_calendar : option (Integration CalendarClient);
  mcp_crm : option (Integration CrmClient);
}.

Record World : Type := {
  mcp : Mcp;
  (** [chain.ainvoke(inputs)]: the parsed JSON, or an exception. *)
  chain_ainvoke : Agent -> gmap string value -> result value;
  (** [datetime.utcnow()] at its four call sites. *)
  utcnow_email : datetime;
  utcnow_calendar_since : datetime;
  utcnow_calendar_until : datetime;
  utcnow_generated : datetime;
  (** [time.time()] at the start and at the end of [generate_brief]. *)
  time_start : float;
  time_end : float;
  (** [str(uuid.uuid4())] *)
  uuid4 : string;
}.

(** ** agents/context_gatherer.py *)

(** The loop of [gather_email_context] under its [try]: an exception ends
    the loop and leaves [email_threads] as it is. *)
Fixpoint fetch_emails (c : EmailClient) (since : string)
    (participants : list string) (email_threads : list value) : list value :=
  match participants with
  | [] => email_threads
  | participant :: rest =>
      match threads ← search_emails c
                        ("from:" ++ participant ++ " OR to:" ++ participant) since;
            py_iter threads with
      | Ok threads => fetch_emails c since rest (email_threads ++ threads)
      | Raise _ => email_threads
      end
  end.

Definition gather_email_context `{Builtins} (w : World)
    (participants : list string) (lookback_days : Z) : list value :=
  match mcp_email (mcp w) with
  | Some i =>
      if enabled i then
        match minus_days (utcnow_email w) lookback_days with
        | Ok since_date => fetch_emails (client i) (isoformat since_date) participants []
        | Raise _ => []
        end
      else []
  | None => []
  end.

(** [[a.get("email", "").lower() for a in event.get("attendees", [])]] *)
Fixpoint attendee_emails `{Builtins} (attendees : list value) : result (list string) :=
  match attendees with
  | [] => Ok []
  | a :: rest =>
      d ← py_dict a;
      e ← py_lower (dict_get d "email" (VStr ""));
      es ← attendee_emails rest;
      Ok (e :: es)
  end.

(** [any(p.lower() in event_attendees for p in participants)] *)
Definition any_participant `{Builtins} (participants : list string)
    (event_attendees : list string) : bool :=
  existsb (fun p => bool_decide (lower p ∈ event_attendees)) participants.

Definition event_matches `{Builtins} (participants : list string) (event : value)
  : result bool :=
  d ← py_dict event;
  attendees ← py_iter (dict_get d "attendees" (VList []));
  event_attendees ← attendee_emails attendees;
  Ok (any_participant participants event_attendees).

(** The filter loop of [gather_calendar_context] under its [try]. *)
Fixpoint filter_events `{Builtins} (participants : list string)
    (calendar_events : list value) (events : list value) : list value :=
  match calendar_events with
  | [] => events
  | event :: rest =>
      match event_matches participants event with
      | Ok true => filter_events participants rest (events ++ [event])
      | Ok false => filter_events participants rest events
      | Raise _ => events
      end
  end.

Definition gather_calendar_context `{Builtins} (w : World)
    (participants : list string) (lookback_days : Z) : list value :=
  match mcp_calendar (mcp w) with
  | Some i =>
      if enabled i then
        match since_date ← minus_days (utcnow_calendar_since w) lookback_days;
              calendar_events ← list_events (client i) (isoformat since_date)
                                  (isoformat (utcnow_calendar_until w));
              py_iter calendar_events with
        | Ok calendar_events => filter_events participants calendar_events []
        | Raise _ => []
        end
      else []
  | None => []
  end.

(** [crm_data]: the three lists under "contacts", "deals", "accounts". *)
Record CrmData : Type := {
  contacts : list value;
  deals : list value;
  accounts : list value;
}.

(** One iteration of the loop of [gather_crm_context]: the lists as the
    iteration leaves them, and whether it ran to its end ([false]: it
    raised, and what it had appended stays appended). *)
Definition crm_step (c : CrmClient) (participant : string) (crm_data : CrmData)
  : CrmData * bool :=
  match get_contact_by_email c participant with
  | Raise _ => (crm_data, false)
  | Ok contact =>
      if truthy contact then
        let crm_data := {| contacts := (contacts crm_data ++ [contact])%list;
                           deals := deals crm_data;
                           accounts := accounts crm_data |} in
        match contact_id ← py_getitem contact "id";
              ds ← get_contact_deals c contact_id;
              py_iter ds with
        | Raise _ => (crm_data, false)
        | Ok ds =>
            let crm_data := {| contacts := contacts crm_data;
                               deals := (deals crm_data ++ ds)%list;
                               accounts := accounts crm_data |} in
            match d ← py_dict contact; Ok (dict_get d "account_id" VNone) with
            | Raise _ => (crm_data, false)
            | Ok account_id =>
                if truthy account_id then
                  match get_account c account_id with
                  | Raise _ => (crm_data, false)
                  | Ok account =>
                      if truthy account then
                        ({| contacts := contacts crm_data;
                            deals := deals crm_data;
                            accounts := (accounts crm_data ++ [account])%list |},
                         true)
                      else (crm_data, true)
                  end
                else (crm_data, true)
            end
        end
      else (crm_data, true)
  end.

Fixpoint fetch_crm (c : CrmClient) (participants : list string) (crm_data : CrmData)
  : CrmData :=
  match participants with
  | [] => crm_data
  | participant :: rest =>
      match crm_step c participant crm_data with
      | (crm_data, true) => fetch_crm c rest crm_data
      | (crm_data, false) => crm_data
      end
  end.

Definition gather_crm_context (w : World) (participants : list string) : CrmData :=
  let crm_data := {| contacts := []; deals := []; accounts := [] |} in
  match mcp_crm (mcp w) with
  | Some i => if enabled i then fetch_crm (client i) participants crm_data else crm_data
  | None => crm_data
  end.

Definition crm_dict (crm_data : CrmData) : gmap string value :=
  <["contacts" := VList (contacts crm_data)]>
    (<["deals" := VList (deals crm_data)]>
       (<["accounts" := VList (accounts crm_data)]> ∅)).

(** [x or dflt] on an optional string. *)
Definition str_or (x : option string) (dflt : string) : string :=
  match x with
  | Some s => if String.eqb s "" then dflt else s
  | None => dflt
  end.

Definition str_list (l : list string) : value := VList (VStr <$> l).

(** [gather]. The three sources one after the other, each behind its
    toggle, then the chain; the returned context is the chain's result with
    [sources_accessed] overwritten. *)
Definition gather `{Builtins} (w : World) (meeting_title : string)
    (meeting_date : datetime) (participants : list string)
    (meeting_description : option string) (lookback_days : Z)
    (include_email include_crm include_calendar : bool)
  : result GatheredContext.t :=
  let sources_accessed : list string := [] in
  let '(email_data, sources_accessed) :=
    if include_email then
      let email_data := gather_email_context w participants lookback_days in
      (email_data,
       if truthy (VList email_data)
       then (sources_accessed ++ ["email"])%list else sources_accessed)
    else ([], sources_accessed) in
  let '(calendar_data, sources_accessed) :=
    if include_calendar then
      let calendar_data := gather_calendar_context w participants lookback_days in
      (calendar_data,
       if truthy (VList calendar_data)
       then (sources_accessed ++ ["calendar"])%list else sources_accessed)
    else ([], sources_accessed) in
  let '(crm_data, sources_accessed) :=
    if include_crm then
      let crm_data := crm_dict (gather_crm_context w participants) in
      (crm_data,
       if truthy (dict_get crm_data "contacts" VNone)
       then (sources_accessed ++ ["crm"])%list else sources_accessed)
    else (∅, sources_accessed) in
  result ← chain_ainvoke w ContextGatherer
    (<["meeting_title" := VStr meeting_title]>
    (<["meeting_date" := VStr (isoformat meeting_date)]>
    (<["participants" := VStr (json_dumps None (str_list participants))]>
    (<["meeting_description" :=
         VStr (str_or meeting_description "No description provided")]>
    (<["lookback_days" := VInt lookback_days]>
    (<["email_data" :=
         VStr (if truthy (VList email_data)
               then json_dumps None (VList (take 20 email_data))
               else "No email data available")]>
    (<["calendar_data" :=
         VStr (if truthy (VList calendar_data)
               then json_dumps None (VList (take 20 calendar_data))
               else "No calendar data available")]>
    (<["crm_data" :=
         VStr (if truthy (VDict crm_data)
               then json_dumps None (VDict crm_data)
               else "No CRM data available")]>
    (<["interaction_data" := VStr "Derived from above sources"]>
    (<["format_instructions" := VStr (format_instructions ContextGatherer)]>
       ∅))))))))));
  match result with
  | VDict d =>
      GatheredContext.of_dict (<["sources_accessed" := str_list sources_accessed]> d)
  | _ => Raise AttributeError
  end.

(** ** agents/insight_extractor.py *)

(** What an agent's method returns: the model built from a parsed dict, or
    the parsed value itself when it is not a dict. *)
Inductive returned (A : Type) : Type :=
| Model (a : A)
| Passthrough (v : value).
Arguments Model {A} a.
Arguments Passthrough {A} v.

(** Reading a model's attribute off what an agent returned. *)
Definition py_model {A : Type} (r : returned A) : result A :=
  match r with
  | Model a => Ok a
  | Passthrough _ => Raise AttributeError
  end.

(** The two loops of [extract], appending to [all_interactions]. *)
Fixpoint email_interactions `{Builtins} (threads : list (gmap string value))
    (all_interactions : list string) : result (list string) :=
  match threads with
  | [] => Ok all_interactions
  | thread :: rest =>
      body ← py_slice 800 (dict_get thread "body" (VStr ""));
      email_interactions rest
        (all_interactions ++
         ["Email (" ++ py_str (dict_get thread "date" (VStr "Unknown")) ++ "):" ++ nl
          ++ "From: " ++ py_str (dict_get thread "from" (VStr "Unknown"))
          ++ " To: " ++ py_str (dict_get thread "to" (VStr "Unknown")) ++ nl
          ++ "Subject: " ++ py_str (dict_get thread "subject" (VStr "")) ++ nl
          ++ py_str body])
  end.

Fixpoint meeting_interactions `{Builtins} (notes : list (gmap string value))
    (all_interactions : list string) : result (list string) :=
  match notes with
  | [] => Ok all_interactions
  | note :: rest =>
      text ← py_slice 1000 (dict_get note "notes" (VStr ""));
      meeting_interactions rest
        (all_interactions ++
         ["Meeting (" ++ py_str (dict_get note "date" (VStr "Unknown")) ++ "):" ++ nl
          ++ "Title: " ++ py_str (dict_get note "title" (VStr "Untitled")) ++ nl
          ++ py_str text])
  end.

Definition extract `{Builtins} (w : World)
    (email_threads meeting_notes : list (gmap string value))
    (context : option string) : result (returned InsightExtractionResult.t) :=
  all_interactions ← email_interactions (take 15 email_threads) [];
  all_interactions ← meeting_interactions (take 10 meeting_notes) all_interactions;
  result ← chain_ainvoke w InsightExtractor
    (<["interactions" :=
         VStr (if bool_decide (all_interactions = [])
               then "No interaction data available"
               else str_join (nl ++ nl ++ "---" ++ nl ++ nl) all_interactions)]>
    (<["context" := VStr (str_or context "No additional context provided")]>
    (<["format_instructions" := VStr (format_instructions InsightExtractor)]>
       ∅)));
  match result with
  | VDict d => m ← InsightExtractionResult.of_dict d; Ok (Model m)
  | _ => Ok (Passthrough result)
  end.

(** ** agents/brief_generator.py *)

Definition dict_list (l : list (gmap string value)) : value := VList (VDict <$> l).

Definition generate `{Builtins} (w : World) (meeting_title : string)
    (meeting_date : datetime) (meeting_description : option string)
    (context : GatheredContext.t) : result (returned GeneratedBrief.t) :=
  result ← chain_ainvoke w BriefGenerator
    (<["meeting_title" := VStr meeting_title]>
    (<["meeting_date" := VStr (isoformat meeting_date)]>
    (<["meeting_description" :=
         VStr (str_or meeting_description "No description provided")]>
    (<["context" :=
         VStr (json_dumps (Some 2%Z) (VDict
           (<["email_threads" :=
                dict_list (take 10 (GatheredContext.email_threads context))]>
           (<["calendar_events" :=
                dict_list (take 10 (GatheredContext.calendar_events context))]>
           (<["crm_data" := VDict (GatheredContext.crm_data context)]>
           (<["past_interactions" :=
                dict_list (take 20 (GatheredContext.past_interactions context))]>
           (<["participant_profiles" :=
                dict_list (GatheredContext.participant_profiles context)]>
           (<["data_quality_score" :=
                VFloat (GatheredContext.data_quality_score context)]>
           (<["sources_accessed" :=
                str_list (GatheredContext.sources_accessed context)]>
              ∅)))))))))]>
    (<["format_instructions" := VStr (format_instructions BriefGenerator)]>
       ∅)))));
  match result with
  | VDict d => m ← GeneratedBrief.of_dict d; Ok (Model m)
  | _ => Ok (Passthrough result)
  end.

(** ** agents/orchestrator.py: [_format_crm_context] and [generate_brief] *)

Fixpoint contact_lines `{Builtins} (cs : list value) (parts : list string)
  : result (list string) :=
  match cs with
  | [] => Ok parts
  | contact :: rest =>
      d ← py_dict contact;
      contact_lines rest
        (parts ++
         ["- " ++ py_str (dict_get d "name" (VStr "Unknown")) ++ ": "
          ++ py_str (dict_get d "title" (VStr "N/A")) ++ " at "
          ++ py_str (dict_get d "company" (VStr "N/A"))])
  end.

Fixpoint deal_lines `{Builtins} (ds : list value) (parts : list string)
  : result (list string) :=
  match ds with
  | [] => Ok parts
  | deal :: rest =>
      d ← py_dict deal;
      deal_lines rest
        (parts ++
         ["- Deal: " ++ py_str (dict_get d "name" (VStr "Unknown")) ++ " - "
          ++ "Stage: " ++ py_str (dict_get d "stage" (VStr "N/A")) ++ ", Value: "
          ++ py_str (dict_get d "value" (VStr "N/A"))])
  end.

Definition _format_crm_context `{Builtins} (crm_data : gmap string value)
  : result (option string) :=
  if negb (truthy (VDict crm_data)) || negb (truthy (dict_get crm_data "contacts" VNone))
  then Ok None
  else
    cs ← py_slice 3 (dict_get crm_data "contacts" (VList []));
    cs ← py_iter cs;
    parts ← contact_lines cs [];
    ds ← py_slice 3 (dict_get crm_data "deals" (VList []));
    ds ← py_iter ds;
    parts ← deal_lines ds parts;
    Ok (if bool_decide (parts = []) then None else Some (str_join nl parts)).

(** [[a.get("email") for a in event.get("attendees", [])]] *)
Fixpoint attendee_values (attendees : list value) : result (list value) :=
  match attendees with
  | [] => Ok []
  | a :: rest =>
      d ← py_dict a;
      es ← attendee_values rest;
      Ok (dict_get d "email" VNone :: es)
  end.

(** The [meeting_notes] record built from one calendar event. *)
Definition meeting_note (event : gmap string value) : result (gmap string value) :=
  start ← py_dict (dict_get event "start" (VDict ∅));
  attendees ← py_iter (dict_get event "attendees" (VList []));
  emails ← attendee_values attendees;
  Ok (<["date" := dict_get start "dateTime" VNone]>
     (<["title" := dict_get event "summary" (VStr "")]>
     (<["notes" := dict_get event "description" (VStr "")]>
     (<["attendees" := VList emails]> ∅)))).

Fixpoint meeting_notes_of (events : list (gmap string value))
  : result (list (gmap string value)) :=
  match events with
  | [] => Ok []
  | event :: rest =>
      note ← meeting_note event;
      notes ← meeting_notes_of rest;
      Ok (note :: notes)
  end.

(** [[ParticipantProfile( **p ) for p in generated.participant_profiles]] *)
Fixpoint profiles_of (ps : list (gmap string value))
  : result (list ParticipantProfile.t) :=
  match ps with
  | [] => Ok []
  | p :: rest =>
      profile ← ParticipantProfile.of_dict p;
      profiles ← profiles_of rest;
      Ok (profile :: profiles)
  end.

(** [generate_brief]. [data_sources] and [generation_time] are computed as
    in the source; the [Brief] constructor is not given them. *)
Definition generate_brief `{Builtins} (w : World) (meeting_id meeting_title : string)
    (meeting_date : datetime) (participants : list string)
    (meeting_description : option string)
    (include_email include_crm include_calendar : bool) (lookback_days : Z)
  : result Brief.t :=
  let start_time := time_start w in
  let data_sources : list string := [] in
  context ← gather w meeting_title meeting_date participants meeting_description
              lookback_days include_email include_crm include_calendar;
  let data_sources := (data_sources ++ GatheredContext.sources_accessed context)%list in
  meeting_notes ← meeting_notes_of (GatheredContext.calendar_events context);
  insights ← extract w (GatheredContext.email_threads context) meeting_notes
               (Some ("Preparing for meeting: " ++ meeting_title));
  generated ← generate w meeting_title meeting_date meeting_description context;
  generated ← py_model generated;
  insights ← py_model insights;
  action_items ← _merge_action_items
                   (GeneratedBrief.open_action_items generated)
                   (InsightExtractionResult.action_items insights);
  talking_points ← _enhance_talking_points
                     (GeneratedBrief.talking_points generated) insights;
  risks_opportunities ← _merge_risks_opportunities
                          (GeneratedBrief.risks_opportunities generated)
                          (InsightExtractionResult.concerns insights)
                          (InsightExtractionResult.opportunities insights);
  let generation_time := PrimFloat.sub (time_end w) start_time in
  participant_profiles ← profiles_of (GeneratedBrief.participant_profiles generated);
  crm_context ← _format_crm_context (GatheredContext.crm_data context);
  Ok {| Brief.id := uuid4 w;
        Brief.meeting_id := meeting_id;
        Brief.title := "Brief: " ++ meeting_title;
        Brief.meeting_objective := Some (GeneratedBrief.meeting_objective generated);
        Brief.executive_summary := GeneratedBrief.executive_summary generated;
        Brief.participant_profiles := participant_profiles;
        Brief.relationship_timeline := GeneratedBrief.relationship_timeline generated;
        Brief.open_action_items := action_items;
        Brief.talking_points := talking_points;
        Brief.risks_opportunities := risks_opportunities;
        Brief.email_context := GeneratedBrief.email_summary generated;
        Brief.crm_context := crm_context;
        Brief.previous_meetings_summary :=
          GeneratedBrief.previous_meetings_summary generated;
        Brief.generated_at := utcnow_generated w |}.

(** ** The merges as the specification words them

    Typed counterparts of the draft records, and the reference algorithms
    the merges are compared with. *)

(** The record the first loop of [_merge_action_items] builds from a draft. *)
Definition draft_action_item `{Builtins} (item : gmap string value)
  : result ActionItem.t :=
  ActionItem.new
    (dict_get item "description" (VStr ""))
    (dict_get item "assignee" VNone)
    (dict_get item "due_date" VNone)
    (dict_get item "status" (VStr "open"))
    (dict_get item "source" VNone).

Definition draft_talking_point (point : gmap string value) : result TalkingPoint.t :=
  TalkingPoint.new
    (dict_get point "topic" (VStr ""))
    (dict_get point "context" (VStr ""))
    (dict_get point "priority" (VStr "medium"))
    (dict_get point "source" VNone).

Definition draft_risk_opportunity (item : gmap string value)
  : result RiskOpportunity.t :=
  RiskOpportunity.new
    (dict_get item "type" (VStr "risk"))
    (dict_get item "title" (VStr ""))
    (dict_get item "description" (VStr ""))
    (dict_get item "severity" (VStr "medium"))
    (dict_get item "recommended_action" VNone).

(** Every draft dict validates, to the records [drafts] in the same order. *)
Definition validated {A : Type} (f : gmap string value -> result A)
    (dicts : list (gmap string value)) (drafts : list A) : Prop :=
  Forall2 (fun d a => f d = Ok a) dicts drafts.

(** Dedup key: the lower-cased first 50 characters. *)
Definition dedup_key `{Builtins} (text : string) : string :=
  lower (str_take 50 text).

Definition action_item_key `{Builtins} (a : ActionItem.t) : string :=
  dedup_key (ActionItem.description a).

Definition talking_point_key `{Builtins} (tp : TalkingPoint.t) : string :=
  dedup_key (TalkingPoint.topic tp).

(** The ActionItem synthesized from an insight. *)
Definition insight_action_item (insight : ExtractedInsight.t) : ActionItem.t :=
  {| ActionItem.description := ExtractedInsight.content insight;
     ActionItem.assignee := head (ExtractedInsight.participants insight);
     ActionItem.due_date := None;
     ActionItem.status := ExtractedInsight.status insight;
     ActionItem.source := Some (ExtractedInsight.source insight) |}.

(** Walk [candidates] in order, inserting each item whose key is unseen and
    recording that key. *)
Fixpoint insert_unseen `{Builtins} (candidates merged : list ActionItem.t)
    (seen : list string) : list ActionItem.t * list string :=
  match candidates with
  | [] => (merged, seen)
  | a :: rest =>
      if bool_decide (action_item_key a ∈ seen)
      then insert_unseen rest merged seen
      else insert_unseen rest (merged ++ [a]) (action_item_key a :: seen)
  end.

Definition action_items_reference `{Builtins} (drafts : list ActionItem.t)
    (insight_items : list ExtractedInsight.t) : list ActionItem.t :=
  let '(merged, seen) := insert_unseen drafts [] [] in
  let '(merged, seen) := insert_unseen (insight_action_item <$> insight_items) merged seen in
  take 10 merged.

(** The [seen] set of the code and the [seen] list of the reference hold
    the same keys. *)
Definition same_keys (seen : gset string) (seenl : list string) : Prop :=
  forall k, k ∈ seen <-> k ∈ seenl.

(** The accumulated items have pairwise distinct keys, all recorded. *)
Definition keys_recorded `{Builtins} (items : list ActionItem.t) (seen : gset string)
  : Prop :=
  NoDup (action_item_key <$> items)
  /\ forall a, a ∈ items -> action_item_key a ∈ seen.

(** The merged list without the cap, as one walk over all candidates. *)
Definition merged_candidates `{Builtins} (drafts : list ActionItem.t)
    (insight_items : list ExtractedInsight.t) : list ActionItem.t :=
  (insert_unseen (drafts ++ (insight_action_item <$> insight_items)) [] []).1.

Definition address_concern_point (concern : ExtractedInsight.t) : TalkingPoint.t :=
  {| TalkingPoint.topic :=
       "Address concern: " ++ str_take 50 (ExtractedInsight.content concern);
     TalkingPoint.context := ExtractedInsight.content concern;
     TalkingPoint.priority := "high";
     TalkingPoint.source := Some (ExtractedInsight.source concern) |}.

Definition explore_opportunity_point (opp : ExtractedInsight.t) : TalkingPoint.t :=
  {| TalkingPoint.topic :=
       "Explore opportunity: " ++ str_take 50 (ExtractedInsight.content opp);
     TalkingPoint.context := ExtractedInsight.content opp;
     TalkingPoint.priority := "medium";
     TalkingPoint.source := Some (ExtractedInsight.source opp) |}.

(** Drafts, then the points of the first 3 concerns, then those of the
    first 2 opportunities: the candidates before the cap. *)
Definition talking_point_candidates (drafts : list TalkingPoint.t)
    (insights : InsightExtractionResult.t) : list TalkingPoint.t :=
  drafts
  ++ (address_concern_point <$> take 3 (InsightExtractionResult.concerns insights))
  ++ (explore_opportunity_point <$>
        take 2 (InsightExtractionResult.opportunities insights)).

Definition talking_points_reference (drafts : list TalkingPoint.t)
    (insights : InsightExtractionResult.t) : list TalkingPoint.t :=
  take 8 (talking_point_candidates drafts insights).

Definition insight_record (type : string) (insight : ExtractedInsight.t)
  : RiskOpportunity.t :=
  {| RiskOpportunity.type := type;
     RiskOpportunity.title := str_take 50 (ExtractedInsight.content insight);
     RiskOpportunity.description := ExtractedInsight.content insight;
     RiskOpportunity.severity := ExtractedInsight.priority insight;
     RiskOpportunity.recommended_action := None |}.

Definition risks_opportunities_reference (drafts : list RiskOpportunity.t)
    (concerns opportunities : list ExtractedInsight.t) : list RiskOpportunity.t :=
  take 6 (drafts ++ (insight_record "risk" <$> concerns)
                 ++ (insight_record "opportunity" <$> opportunities)).

(** ** The gatherer as the specification words it *)

Definition nonempty {A : Type} (l : list A) : bool :=
  match l with [] => false | _ :: _ => true end.

(** A source is listed when its toggle is on and what was gathered from it
    is not empty (for the CRM: at least one contact), in the order email,
    calendar, crm. *)
Definition gathered_sources `{Builtins} (w : World) (participants : list string)
    (lookback_days : Z) (include_email include_crm include_calendar : bool)
  : list string :=
  ((if include_email && nonempty (gather_email_context w participants lookback_days)
    then ["email"] else [])
   ++ (if include_calendar
          && nonempty (gather_calendar_context w participants lookback_days)
       then ["calendar"] else [])
   ++ (if include_crm && nonempty (contacts (gather_crm_context w participants))
       then ["crm"] else []))%list.

(** ** Variations of a run's environment *)

(** The same environment with other readings of [time.time()]. *)
Definition with_clock (w : World) (t0 t1 : float) : World :=
  {| mcp := mcp w;
     chain_ainvoke := chain_ainvoke w;
     utcnow_email := utcnow_email w;
     utcnow_calendar_since := utcnow_calendar_since w;
     utcnow_calendar_until := utcnow_calendar_until w;
     utcnow_generated := utcnow_generated w;
     time_start := t0;
     time_end := t1;
     uuid4 := uuid4 w |}.

(** The same environment with other integrations. *)
Definition with_mcp (w : World) (m : Mcp) : World :=
  {| mcp := m;
     chain_ainvoke := chain_ainvoke w;
     utcnow_email := utcnow_email w;
     utcnow_calendar_since := utcnow_calendar_since w;
     utcnow_calendar_until := utcnow_calendar_until w;
     utcnow_generated := utcnow_generated w;
     time_start := time_start w;
     time_end := time_end w;
     uuid4 := uuid4 w |}.

(** The same environment with no "email", "calendar" or "crm" key in [mcp]. *)
Definition without_email (w : World) : World :=
  with_mcp w {| mcp_email := None;
                mcp_calendar := mcp_calendar (mcp w);
                mcp_crm := mcp_crm (mcp w) |}.

Definition without_calendar (w : World) : World :=
  with_mcp w {| mcp_email := mcp_email (mcp w);
                mcp_calendar := None;
                mcp_crm := mcp_crm (mcp w) |}.

Definition without_crm (w : World) : World :=
  with_mcp w {| mcp_email := mcp_email (mcp w);
                mcp_calendar := mcp_calendar (mcp w);
                mcp_crm := None |}.

(** ** Worked inputs

    A runtime for the examples: ASCII lower-casing, no lax conversion, and
    empty renderings. The examples use ASCII text and values that already
    have their field's type, and their chains do not read the prompt, so
    nothing in them depends on what is left out here. *)

Definition ascii_lower_char (c : Ascii.ascii) : Ascii.ascii :=
  let n := Ascii.nat_of_ascii c in
  if ((65 <=? n) && (n <=? 90))%nat then Ascii.ascii_of_nat (n + 32) else c.

Fixpoint ascii_lower (s : string) : string :=
  match s with
  | EmptyString => EmptyString
  | String c s' => String (ascii_lower_char c) (ascii_lower s')
  end.

Definition example_builtins : Builtins :=
  {| lower := ascii_lower;
     lax_datetime := fun _ => None;
     lax_float := fun _ => None;
     py_str := fun v => match v with VStr s => s | _ => "" end;
     json_dumps := fun _ _ => "";
     isoformat := fun _ => "";
     minus_days := fun d n => Ok (d - n * 86400000000)%Z;
     format_instructions := fun _ => "" |}.

Definition dict_of (kvs : list (string * value)) : gmap string value :=
  list_to_map kvs.

(** Draft action items: the second repeats the first in another case. *)
Definition ex_brief_items : list (gmap string value) :=
  [ dict_of [("description", VStr "Send proposal to Acme");
             ("assignee", VStr "alice"); ("status", VStr "open");
             ("source", VStr "email")];
    dict_of [("description", VStr "SEND PROPOSAL TO ACME")];
    dict_of [("description", VStr "Follow up next week")] ].

Definition ex_drafts : list ActionItem.t :=
  [ ActionItem.mk "Send proposal to Acme" (Some "alice") None "open" (Some "email");
    ActionItem.mk "SEND PROPOSAL TO ACME" None None "open" None;
    ActionItem.mk "Follow up next week" None None "open" None ].

Definition ex_insight (type content source : string) (participants : list string)
    (priority status : string) : ExtractedInsight.t :=
  {| ExtractedInsight.type := type;
     ExtractedInsight.content := content;
     ExtractedInsight.source := source;
     ExtractedInsight.source_date := None;
     ExtractedInsight.participants := participants;
     ExtractedInsight.priority := priority;
     ExtractedInsight.status := status;
     ExtractedInsight.confidence := 0x1.999999999999ap-1%float |}.

Definition ex_insight_items : list ExtractedInsight.t :=
  [ ex_insight "action_item" "send proposal to acme" "email" ["bob"] "medium" "open";
    ex_insight "action_item" "Schedule demo" "meeting" ["carol"; "dave"]
      "medium" "in_progress" ].

Definition ex_concern : ExtractedInsight.t :=
  ex_insight "concern" "Client is unhappy with pricing" "email" [] "high" "open".

Definition ex_opportunity : ExtractedInsight.t :=
  ex_insight "opportunity" "Upsell analytics add-on" "meeting" [] "low" "open".

Definition ex_insights : InsightExtractionResult.t :=
  {| InsightExtractionResult.action_items := ex_insight_items;
     InsightExtractionResult.commitments := [];
     InsightExtractionResult.decisions := [];
     InsightExtractionResult.concerns := [ex_concern];
     InsightExtractionResult.opportunities := [ex_opportunity];
     InsightExtractionResult.key_topics := [];
     InsightExtractionResult.sentiment_summary := "neutral";
     InsightExtractionResult.relationship_health := "healthy" |}.

Definition no_insights : InsightExtractionResult.t :=
  {| InsightExtractionResult.action_items := [];
     InsightExtractionResult.commitments := [];
     InsightExtractionResult.decisions := [];
     InsightExtractionResult.concerns := [];
     InsightExtractionResult.opportunities := [];
     InsightExtractionResult.key_topics := [];
     InsightExtractionResult.sentiment_summary := "neutral";
     InsightExtractionResult.relationship_health := "healthy" |}.

Definition ex_points : list (gmap string value) :=
  [ dict_of [("topic", VStr "Renewal terms"); ("context", VStr "Contract ends in May");
             ("priority", VStr "high")];
    dict_of [("topic", VStr "Timeline")] ].

Definition ex_draft_points : list TalkingPoint.t :=
  [ TalkingPoint.mk "Renewal terms" "Contract ends in May" "high" None;
    TalkingPoint.mk "Timeline" "" "medium" None ].

(** Two draft talking points whose topics differ in case only. *)
Definition dup_points : list (gmap string value) :=
  [ dict_of [("topic", VStr "Pricing")];
    dict_of [("topic", VStr "PRICING"); ("context", VStr "again")] ].

Definition ex_existing : list (gmap string value) :=
  [ dict_of [("type", VStr "risk"); ("title", VStr "Budget freeze");
             ("description", VStr "Procurement paused new spend");
             ("severity", VStr "high")] ].

Definition ex_draft_risks : list RiskOpportunity.t :=
  [ RiskOpportunity.mk "risk" "Budget freeze" "Procurement paused new spend"
      "high" None ].

(** What the three chains return in the examples. *)
Definition ex_gathered_json : value :=
  VDict (dict_of [("email_threads", VList []); ("calendar_events", VList []);
                  ("data_quality_score", VFloat 0.5%float)]).

Definition ex_extracted_json : value :=
  VDict (dict_of
    [("concerns",
      VList [VDict (dict_of [("type", VStr "concern");
                             ("content", VStr "Client is unhappy with pricing");
                             ("source", VStr "email"); ("priority", VStr "high")])])]).

Definition ex_generated_json : value :=
  VDict (dict_of
    [("meeting_objective", VStr "Agree on renewal");
     ("executive_summary", VStr "Renewal is due in May.");
     ("participant_profiles",
      VList [VDict (dict_of [("email", VStr "alice@acme.com"); ("name", VStr "Alice")])]);
     ("relationship_timeline", VList []);
     ("open_action_items", VList (VDict <$> ex_brief_items));
     ("talking_points", VList (VDict <$> ex_points));
     ("risks_opportunities", VList (VDict <$> ex_existing))]).

Definition ex_chain (gathered extracted generated : result value)
  : Agent -> gmap string value -> result value :=
  fun agent _ =>
    match agent with
    | ContextGatherer => gathered
    | InsightExtractor => extracted
    | BriefGenerator => generated
    end.

Definition no_mcp : Mcp :=
  {| mcp_email := None; mcp_calendar := None; mcp_crm := None |}.

Definition ex_world_of (m : Mcp) (gathered extracted generated : result value)
    (t0 t1 : float) : World :=
  {| mcp := m;
     chain_ainvoke := ex_chain gathered extracted generated;
     utcnow_email := 1700000000000000%Z;
     utcnow_calendar_since := 1700000000000001%Z;
     utcnow_calendar_until := 1700000000000002%Z;
     utcnow_generated := 1700000003000000%Z;
     time_start := t0;
     time_end := t1;
     uuid4 := "3f2b8c1e-0000-4000-8000-000000000001" |}.

(** No integration configured, as when the orchestrator is built without
    arguments; the run takes 3.5 seconds. *)
Definition w_plain : World :=
  ex_world_of no_mcp (Ok ex_gathered_json) (Ok ex_extracted_json)
    (Ok ex_generated_json) 100%float 103.5%float.

(** An email integration that finds one thread per participant. *)
Definition ex_email_client : EmailClient :=
  {| search_emails := fun _ _ =>
       Ok (VList [VDict (dict_of [("subject", VStr "Renewal");
                                  ("from", VStr "alice@acme.com");
                                  ("body", VStr "Can we talk about pricing?")])]) |}.

Definition email_mcp : Mcp :=
  {| mcp_email := Some {| enabled := true; client := ex_email_client |};
     mcp_calendar := None;
     mcp_crm := None |}.

(** The same chains with the email integration; the run takes 60 seconds. *)
Definition w_email : World :=
  ex_world_of email_mcp (Ok ex_gathered_json) (Ok ex_extracted_json)
    (Ok ex_generated_json) 100%float 160%float.

(** The extraction chain's output does not parse. *)
Definition w_malformed : World :=
  ex_world_of no_mcp (Ok ex_gathered_json) (Raise OutputParserException)
    (Ok ex_generated_json) 100%float 103.5%float.

(** A calendar whose fetch raises, next to the working email integration;
    the gatherer's chain answers with an event of its own. *)
Definition failing_calendar : CalendarClient :=
  {| list_events := fun _ _ => Raise (ExternalError "calendar unavailable") |}.

Definition calendar_down_mcp : Mcp :=
  {| mcp_email := Some {| enabled := true; client := ex_email_client |};
     mcp_calendar := Some {| enabled := true; client := failing_calendar |};
     mcp_crm := None |}.

Definition invented_event : gmap string value :=
  dict_of [("summary", VStr "Quarterly review")].

Definition w_calendar_down : World :=
  ex_world_of calendar_down_mcp
    (Ok (VDict (dict_of [("calendar_events", VList [VDict invented_event])])))
    (Ok ex_extracted_json) (Ok ex_generated_json) 100%float 103.5%float.

(** The gatherer's chain scores the data 2.0, or 0.25 on another run. *)
Definition w_score (x : float) : World :=
  ex_world_of no_mcp (Ok (VDict (dict_of [("data_quality_score", VFloat x)])))
    (Ok ex_extracted_json) (Ok ex_generated_json) 100%float 103.5%float.

(** The arguments of the example request. *)
Definition ex_gather (w : World) (include_email include_crm include_calendar : bool)
  : result GatheredContext.t :=
  gather (H := example_builtins) w "Acme renewal" 1700600000000000%Z
    ["alice@acme.com"] None 30%Z include_email include_crm include_calendar.

Definition ex_generate_brief (w : World) : result Brief.t :=
  generate_brief (H := example_builtins) w "m-1" "Acme renewal" 1700600000000000%Z
    ["alice@acme.com"] None true true true 30%Z.

(** The context the example chains lead to, up to the events, the score
    and the sources. *)
Definition ex_context (events : list (gmap string value)) (score : float)
    (sources : list string) : GatheredContext.t :=
  {| GatheredContext.email_threads := [];
     GatheredContext.calendar_events := events;
     GatheredContext.crm_data := ∅;
     GatheredContext.past_interactions := [];
     GatheredContext.participant_profiles := [];
     GatheredContext.data_quality_score := score;
     GatheredContext.sources_accessed := sources |}.

(** The brief the example chains lead to. *)
Definition ex_brief : Brief.t :=
  {| Brief.id := "3f2b8c1e-0000-4000-8000-000000000001";
     Brief.meeting_id := "m-1";
     Brief.title := "Brief: Acme renewal";
     Brief.meeting_objective := Some "Agree on renewal";
     Brief.executive_summary := "Renewal is due in May.";
     Brief.participant_profiles :=
       [ ParticipantProfile.mk "alice@acme.com" (Some "Alice") None None None
           [] [] None ];
     Brief.relationship_timeline := [];
     Brief.open_action_items :=
       [ ActionItem.mk "Send proposal to Acme" (Some "alice") None "open"
           (Some "email");
         ActionItem.mk "Follow up next week" None None "open" None ];
     Brief.talking_points :=
       [ TalkingPoint.mk "Renewal terms" "Contract ends in May" "high" None;
         TalkingPoint.mk "Timeline" "" "medium" None;
         TalkingPoint.mk "Address concern: Client is unhappy with pricing"
           "Client is unhappy with pricing" "high" (Some "email") ];
     Brief.risks_opportunities :=
       [ RiskOpportunity.mk "risk" "Budget freeze" "Procurement paused new spend"
           "high" None;
         RiskOpportunity.mk "risk" "Client is unhappy with pricing"
           "Client is unhappy with pricing" "high" None ];
     Brief.email_context := None;
     Brief.crm_context := None;
     Brief.previous_meetings_summary := None;
     Brief.generated_at := 1700000003000000%Z |}.

(** An email integration that answers for the first participant asked
    about and raises for any other. *)
Definition flaky_email_client : EmailClient :=
  {| search_emails := fun query _ =>
       if String.eqb query "from:alice@acme.com OR to:alice@acme.com"
       then Ok (VList [VDict (dict_of [("subject", VStr "Renewal")])])
       else Raise (ExternalError "mailbox unavailable") |}.

Definition w_flaky_email : World :=
  ex_world_of
    {| mcp_email := Some {| enabled := true; client := flaky_email_client |};
       mcp_calendar := None;
       mcp_crm := None |}
    (Ok ex_gathered_json) (Ok ex_extracted_json) (Ok ex_generated_json)
    100%float 103.5%float.

(** ** The CRM block as the specification words it *)

(** The line of one contact and the line of one deal. *)
Definition contact_line `{Builtins} (contact : gmap string value) : string :=
  "- " ++ py_str (dict_get contact "name" (VStr "Unknown")) ++ ": "
  ++ py_str (dict_get contact "title" (VStr "N/A")) ++ " at "
  ++ py_str (dict_get contact "company" (VStr "N/A")).

Definition deal_line `{Builtins} (deal : gmap string value) : string :=
  "- Deal: " ++ py_str (dict_get deal "name" (VStr "Unknown")) ++ " - "
  ++ "Stage: " ++ py_str (dict_get deal "stage" (VStr "N/A")) ++ ", Value: "
  ++ py_str (dict_get deal "value" (VStr "N/A")).

(** A validator whose only exception is the validation error. *)
Definition raises_only_ValidationError {A : Type} (f : value -> result A) : Prop :=
  forall v e, f v = Raise e -> e = ValidationError.

(** The part of a context the brief generator is given: the first 10
    threads, the first 10 events and the first 20 past interactions. *)
Definition bounded_view (context : GatheredContext.t) : GatheredContext.t :=
  {| GatheredContext.email_threads := take 10 (GatheredContext.email_threads context);
     GatheredContext.calendar_events :=
       take 10 (GatheredContext.calendar_events context);
     GatheredContext.crm_data := GatheredContext.crm_data context;
     GatheredContext.past_interactions :=
       take 20 (GatheredContext.past_interactions context);
     GatheredContext.participant_profiles :=
       GatheredContext.participant_profiles context;
     GatheredContext.data_quality_score := GatheredContext.data_quality_score context;
     GatheredContext.sources_accessed := GatheredContext.sources_accessed context |}.

(** ** api/meetings.py: the participants of a stored meeting *)

(** [create_meeting] stores each address as
    [{"email": p, "is_organizer": False}]. *)
Definition stored_participants (participants : list string) : list value :=
  (fun p => VDict (<["email" := VStr p]> (<["is_organizer" := VBool false]> ∅)))
    <$> participants.

(** [[p.get("email") for p in meeting.participants if p.get("email")]] in
    [generate_meeting_brief]. *)
Fixpoint brief_participants (stored : list value) : result (list value) :=
  match stored with
  | [] => Ok []
  | p :: rest =>
      d ← py_dict p;
      ps ← brief_participants rest;
      Ok (if truthy (dict_get d "email" VNone)
          then dict_get d "email" VNone :: ps
          else ps)
  end.

(** ** mcp/crm.py: the HubSpot integration as a CRM client *)

(** [str.strip], taken from the runtime. *)
Class Strip : Type := { strip : string -> string }.

(** The HTTP client of the integration: the decoded JSON body of a
    successful response, or the exception of the request, of
    [raise_for_status] or of the decoding. *)
Record HttpClient : Type := {
  http_post : string -> value -> result value;          (* path, json *)
  http_get : string -> option string -> result value;   (* path, params["properties"] *)
}.

Record CRMMCP : Type := {
  _connected : bool;
  _client : option HttpClient;
  provider : string;
}.

(** [v[0]]. The index error of an empty sequence is [ExternalError]. *)
Definition py_first (v : value) : result value :=
  match v with
  | VList (x :: _) => Ok x
  | VStr (String c _) => Ok (VStr (String c ""))
  | VList [] | VStr EmptyString => Raise (ExternalError "IndexError")
  | VDict _ => Raise KeyError
  | _ => Raise TypeError
  end.

Definition _parse_hubspot_contact `{Builtins} `{Strip} (data : value) : result value :=
  d ← py_dict data;
  props ← py_dict (dict_get d "properties" (VDict ∅));
  Ok (VDict
    (<["id" := dict_get d "id" VNone]>
    (<["email" := dict_get props "email" VNone]>
    (<["name" :=
         VStr (strip (py_str (dict_get props "firstname" (VStr "")) ++ " "
                      ++ py_str (dict_get props "lastname" (VStr ""))))]>
    (<["company" := dict_get props "company" VNone]>
    (<["title" := dict_get props "jobtitle" VNone]>
    (<["phone" := dict_get props "phone" VNone]>
    (<["crm_provider" := VStr "hubspot"]> ∅)))))))).

Definition _parse_hubspot_deal (data : value) : result value :=
  d ← py_dict data;
  props ← py_dict (dict_get d "properties" (VDict ∅));
  Ok (VDict
    (<["id" := dict_get d "id" VNone]>
    (<["name" := dict_get props "dealname" VNone]>
    (<["value" := dict_get props "amount" VNone]>
    (<["stage" := dict_get props "dealstage" VNone]>
    (<["close_date" := dict_get props "closedate" VNone]>
    (<["pipeline" := dict_get props "pipeline" VNone]> ∅))))))).

Definition _parse_hubspot_company (data : value) : result value :=
  d ← py_dict data;
  props ← py_dict (dict_get d "properties" (VDict ∅));
  Ok (VDict
    (<["id" := dict_get d "id" VNone]>
    (<["name" := dict_get props "name" VNone]>
    (<["domain" := dict_get props "domain" VNone]>
    (<["industry" := dict_get props "industry" VNone]>
    (<["employees" := dict_get props "numberofemployees" VNone]>
    (<["revenue" := dict_get props "annualrevenue" VNone]> ∅))))))).

(** The body of a method under its guard and its [try]: [dflt] when the
    integration is not connected or has no client, when the body raises,
    and when it ends without returning. *)
Definition guarded (m : CRMMCP) (dflt : value)
    (body : HttpClient -> result (option value)) : value :=
  match _client m with
  | Some c =>
      if _connected m then
        match body c with
        | Ok (Some v) => v
        | Ok None | Raise _ => dflt
        end
      else dflt
  | None => dflt
  end.

Definition search_body (email : string) : value :=
  VDict
    (<["filterGroups" :=
         VList [VDict
           (<["filters" :=
                VList [VDict
                  (<["propertyName" := VStr "email"]>
                  (<["operator" := VStr "EQ"]>
                  (<["value" := VStr email]> ∅)))]]> ∅)]]>
    (<["properties" :=
         str_list ["firstname"; "lastname"; "email"; "company"; "jobtitle"; "phone"]]>
       ∅)).

Definition CRMMCP_get_contact_by_email `{Builtins} `{Strip} (m : CRMMCP)
    (email : string) : value :=
  guarded m VNone (fun c =>
    if String.eqb (provider m) "hubspot" then
      data ← http_post c "/crm/v3/objects/contacts/search" (search_body email);
      d ← py_dict data;
      if truthy (dict_get d "results" VNone) then
        results ← py_getitem data "results";
        first ← py_first results;
        contact ← _parse_hubspot_contact first;
        Ok (Some contact)
      else Ok None
    else Ok None).

Definition CRMMCP_get_deal `{Builtins} (m : CRMMCP) (deal_id : value) : value :=
  guarded m VNone (fun c =>
    if String.eqb (provider m) "hubspot" then
      data ← http_get c ("/crm/v3/objects/deals/" ++ py_str deal_id)
                (Some "dealname,amount,dealstage,closedate,pipeline");
      deal ← _parse_hubspot_deal data;
      Ok (Some deal)
    else Ok None).

(** The loop of [get_contact_deals], appending to [deals]. *)
Fixpoint associated_deals `{Builtins} (m : CRMMCP) (associations deals : list value)
  : result (list value) :=
  match associations with
  | [] => Ok deals
  | assoc :: rest =>
      deal_id ← py_getitem assoc "id";
      let deal := CRMMCP_get_deal m deal_id in
      associated_deals m rest (if truthy deal then deals ++ [deal] else deals)
  end.

Definition CRMMCP_get_contact_deals `{Builtins} (m : CRMMCP) (contact_id : value)
  : value :=
  guarded m (VList []) (fun c =>
    if String.eqb (provider m) "hubspot" then
      associations ← http_get c
        ("/crm/v3/objects/contacts/" ++ py_str contact_id ++ "/associations/deals")
        None;
      d ← py_dict associations;
      results ← py_iter (dict_get d "results" (VList []));
      deals ← associated_deals m results [];
      Ok (Some (VList deals))
    else Ok None).

Definition CRMMCP_get_account `{Builtins} (m : CRMMCP) (account_id : value) : value :=
  guarded m VNone (fun c =>
    if String.eqb (provider m) "hubspot" then
      data ← http_get c ("/crm/v3/objects/companies/" ++ py_str account_id)
                (Some "name,domain,industry,numberofemployees,annualrevenue");
      company ← _parse_hubspot_company data;
      Ok (Some company)
    else Ok None).

(** The integration behind the interface the gatherer calls. *)
Definition CRMMCP_client `{Builtins} `{Strip} (m : CRMMCP) : CrmClient :=
  {| get_contact_by_email := fun email => Ok (CRMMCP_get_contact_by_email m email);
     get_contact_deals := fun contact_id => Ok (CRMMCP_get_contact_deals m contact_id);
     get_account := fun account_id => Ok (CRMMCP_get_account m account_id) |}.

(** ** Further worked inputs *)

(** Twelve draft action items with distinct descriptions. *)
Definition ex_descriptions : list string :=
  ["a1"; "a2"; "a3"; "a4"; "a5"; "a6"; "a7"; "a8"; "a9"; "a10"; "a11"; "a12"].

Definition ex_twelve_items : list (gmap string value) :=
  (fun d => dict_of [("description", VStr d)]) <$> ex_descriptions.

Definition ex_twelve_drafts : list ActionItem.t :=
  (fun d => ActionItem.mk d None None "open" None) <$> ex_descriptions.

(** A draft that repeats the first example draft and would not validate. *)
Definition ex_unvalidated_repeat : gmap string value :=
  dict_of [("description", VStr "SEND PROPOSAL TO ACME"); ("status", VNone)].

(** CRM data with four contacts and one deal, and with the deal alone. *)
Definition ex_contact (name title company : string) : gmap string value :=
  dict_of [("name", VStr name); ("title", VStr title); ("company", VStr company)].

Definition ex_deal : gmap string value :=
  dict_of [("name", VStr "Renewal 2024"); ("stage", VStr "negotiation");
           ("value", VStr "50000")].

Definition ex_crm_data : gmap string value :=
  dict_of [("contacts",
            VList (VDict <$> [ ex_contact "Alice" "CTO" "Acme";
                               ex_contact "Bob" "CFO" "Acme";
                               ex_contact "Carol" "Buyer" "Acme";
                               ex_contact "Dave" "Intern" "Acme" ]));
           ("deals", VList [VDict ex_deal])].

Definition ex_deals_only : gmap string value :=
  dict_of [("deals", VList [VDict ex_deal])].

(** Events the gatherer's chain may answer with: one whose "start" is a
    string, one whose "description" is null. *)
Definition ex_bad_start_event : gmap string value :=
  dict_of [("summary", VStr "Kickoff"); ("start", VStr "2024-05-01T10:00:00")].

Definition ex_null_description_event : gmap string value :=
  dict_of [("summary", VStr "Kickoff"); ("description", VNone)].

Definition w_event (event : gmap string value) : World :=
  ex_world_of no_mcp
    (Ok (VDict (dict_of [("calendar_events", VList [VDict event])])))
    (Ok ex_extracted_json) (Ok ex_generated_json) 100%float 103.5%float.

(** The extraction chain answers with a list, or with a concern that has
    no "source"; the generation chain answers with a draft that has no
    timeline. *)
Definition w_insights_list : World :=
  ex_world_of no_mcp (Ok ex_gathered_json) (Ok (VList []))
    (Ok ex_generated_json) 100%float 103.5%float.

Definition ex_sourceless_concern : gmap string value :=
  dict_of [("type", VStr "concern"); ("content", VStr "Pricing")].

Definition ex_sourceless_json : gmap string value :=
  dict_of [("concerns", VList [VDict ex_sourceless_concern])].

Definition w_sourceless : World :=
  ex_world_of no_mcp (Ok ex_gathered_json) (Ok (VDict ex_sourceless_json))
    (Ok ex_generated_json) 100%float 103.5%float.

Definition ex_no_timeline_json : gmap string value :=
  dict_of
    [("meeting_objective", VStr "Agree on renewal");
     ("executive_summary", VStr "Renewal is due in May.");
     ("participant_profiles", VList []);
     ("open_action_items", VList []);
     ("talking_points", VList []);
     ("risks_opportunities", VList [])].

Definition w_no_timeline : World :=
  ex_world_of no_mcp (Ok ex_gathered_json) (Ok ex_extracted_json)
    (Ok (VDict ex_no_timeline_json)) 100%float 103.5%float.

(** Two contexts that differ in their eleventh event only. *)
Definition ex_ten_events : list (gmap string value) := replicate 10 invented_event.

(** [str.strip] on ASCII text. *)
Definition ascii_space (c : Ascii.ascii) : bool :=
  let n := Ascii.nat_of_ascii c in
  ((9 <=? n) && (n <=? 13) || (28 <=? n) && (n <=? 32))%nat.

Fixpoint ascii_lstrip (s : string) : string :=
  match s with
  | EmptyString => EmptyString
  | String c s' => if ascii_space c then ascii_lstrip s' else s
  end.

Definition string_rev (s : string) : string :=
  string_of_list_ascii (rev (list_ascii_of_string s)).

Definition example_strip : Strip :=
  {| strip := fun s => string_rev (ascii_lstrip (string_rev (ascii_lstrip s))) |}.

(** A HubSpot account with one contact, Alice, who has one deal. *)
Definition ex_hubspot_contact : value :=
  VDict (dict_of
    [("id", VStr "101");
     ("properties",
      VDict (dict_of [("firstname", VStr "Alice"); ("lastname", VStr "Jones");
                      ("email", VStr "alice@acme.com"); ("company", VStr "Acme")]))]).

Definition ex_hubspot_deal : value :=
  VDict (dict_of
    [("id", VStr "7");
     ("properties",
      VDict (dict_of [("dealname", VStr "Renewal 2024"); ("amount", VStr "50000");
                      ("dealstage", VStr "negotiation")]))]).

Definition ex_hubspot_http : HttpClient :=
  {| http_post := fun _ _ => Ok (VDict (dict_of [("results", VList [ex_hubspot_contact])]));
     http_get := fun path _ =>
       if String.eqb path "/crm/v3/objects/contacts/101/associations/deals"
       then Ok (VDict (dict_of [("results", VList [VDict (dict_of [("id", VStr "7")])])]))
       else if String.eqb path "/crm/v3/objects/deals/7"
       then Ok ex_hubspot_deal
       else Raise (ExternalError "404") |}.

Definition ex_hubspot : CRMMCP :=
  {| _connected := true; _client := Some ex_hubspot_http; provider := "hubspot" |}.

Definition ex_salesforce : CRMMCP :=
  {| _connected := true; _client := Some ex_hubspot_http; provider := "salesforce" |}.

Definition ex_crm_client (m : CRMMCP) : CrmClient :=
  @CRMMCP_client example_builtins example_strip m.

Definition w_crm (m : CRMMCP) : World :=
  ex_world_of
    {| mcp_email := None;
       mcp_calendar := None;
       mcp_crm := Some {| enabled := true; client := ex_crm_client m |} |}
    (Ok ex_gathered_json) (Ok ex_extracted_json) (Ok ex_generated_json)
    100%float 103.5%float.

(** * Properties *)

Local Open Scope list_scope.

(** ** Sequencing *)

Lemma bind_Ok {A B : Type} (r : result A) (k : A -> result B) (b : B) :
  r ≫= k = Ok b -> exists a, r = Ok a /\ k a = Ok b.
Proof. destruct r as [a|e]; simpl; [eauto | discriminate]. Qed.

Lemma bind_Ok_l {A B : Type} (a : A) (k : A -> result B) : Ok a ≫= k = k a.
Proof. reflexivity. Qed.

Lemma bind_Raise_l {A B : Type} (e : exn) (k : A -> result B) :
  Raise e ≫= k = Raise e.
Proof. reflexivity. Qed.

(** Splits a hypothesis [x ← r; k = Ok b] into its two steps. *)
Ltac inv_bind Hb :=
  let a := fresh "r" in
  let Ha := fresh "Hr" in
  apply bind_Ok in Hb; destruct Hb as (a & Ha & Hb).

Section Assembler.
Context `{Builtins}.

(** ** Constructors *)

Lemma validate_str_Ok (v : value) (s : string) :
  validate_str v = Ok s -> v = VStr s.
Proof. destruct v; simpl; congruence. Qed.

Lemma ActionItem_new_description (d a dd st src : value) (ai : ActionItem.t) :
  ActionItem.new d a dd st src = Ok ai -> d = VStr (ActionItem.description ai).
Proof.
  unfold ActionItem.new. intros Hnew.
  destruct d; simpl in Hnew; try discriminate.
  destruct (validate_opt_str a); simpl in Hnew; try discriminate.
  destruct (validate_opt_datetime dd); simpl in Hnew; try discriminate.
  destruct (validate_str st); simpl in Hnew; try discriminate.
  destruct (validate_opt_str src); simpl in Hnew; try discriminate.
  by inversion Hnew.
Qed.

Lemma slice50_lower_str (s : string) :
  slice50_lower (VStr s) = Ok (dedup_key s).
Proof. reflexivity. Qed.

(** The key the first loop computes for a draft is the key of the record it
    builds from it. *)
Lemma draft_action_item_key (item : gmap string value) (a : ActionItem.t) :
  draft_action_item item = Ok a ->
  slice50_lower (dict_get item "description" (VStr "")) = Ok (action_item_key a).
Proof.
  intros Hd. apply ActionItem_new_description in Hd. rewrite Hd.
  apply slice50_lower_str.
Qed.

(** The constructor call of the second loop always validates. *)
Lemma insight_action_item_new (insight : ExtractedInsight.t) :
  ActionItem.new
    (VStr (ExtractedInsight.content insight))
    (first_participant insight)
    VNone
    (VStr (ExtractedInsight.status insight))
    (VStr (ExtractedInsight.source insight))
  = Ok (insight_action_item insight).
Proof.
  unfold ActionItem.new, first_participant, insight_action_item.
  destruct (ExtractedInsight.participants insight); reflexivity.
Qed.

(** ** Action items: the loops against the reference walk *)

Lemma same_keys_add (seen : gset string) (seenl : list string) (k : string) :
  same_keys seen seenl -> same_keys ({[k]} ∪ seen) (k :: seenl).
Proof.
  intros Hs k'. rewrite elem_of_union, elem_of_singleton, elem_of_cons, (Hs k').
  reflexivity.
Qed.

Lemma merge_brief_items_reference (brief_items : list (gmap string value))
    (drafts items : list ActionItem.t) (seen : gset string) (seenl : list string) :
  validated draft_action_item brief_items drafts ->
  same_keys seen seenl ->
  exists seen',
    merge_brief_items brief_items items seen
      = Ok ((insert_unseen drafts items seenl).1, seen')
    /\ same_keys seen' (insert_unseen drafts items seenl).2.
Proof.
  intros Hv. revert items seen seenl.
  induction Hv as [|item a brief_items drafts Hitem _ IH]; intros items seen seenl Hs.
  - exists seen. split; [reflexivity | exact Hs].
  - simpl. rewrite (draft_action_item_key _ _ Hitem). simpl.
    destruct (decide (action_item_key a ∈ seen)) as [Hin | Hnin].
    + rewrite bool_decide_eq_true_2 by (by apply Hs). by apply IH.
    + rewrite bool_decide_eq_false_2 by (by rewrite <- (Hs _)).
      unfold draft_action_item in Hitem. rewrite Hitem. simpl.
      apply IH. by apply same_keys_add.
Qed.

Lemma merge_insight_items_reference (insight_items : list ExtractedInsight.t)
    (items : list ActionItem.t) (seen : gset string) (seenl : list string) :
  same_keys seen seenl ->
  exists seen',
    merge_insight_items insight_items items seen
      = Ok ((insert_unseen (insight_action_item <$> insight_items) items seenl).1, seen')
    /\ same_keys seen'
         (insert_unseen (insight_action_item <$> insight_items) items seenl).2.
Proof.
  revert items seen seenl.
  induction insight_items as [|insight rest IH]; intros items seen seenl Hs.
  - exists seen. split; [reflexivity | exact Hs].
  - simpl. change (lower (str_take 50 (ExtractedInsight.content insight)))
      with (action_item_key (insight_action_item insight)).
    destruct (decide (action_item_key (insight_action_item insight) ∈ seen))
      as [Hin | Hnin].
    + rewrite bool_decide_eq_true_2 by (by apply Hs). by apply IH.
    + rewrite bool_decide_eq_false_2 by (by rewrite <- (Hs _)).
      rewrite insight_action_item_new. simpl.
      apply IH. by apply same_keys_add.
Qed.

Lemma insert_unseen_extends (candidates merged : list ActionItem.t)
    (seen : list string) :
  exists added,
    (insert_unseen candidates merged seen).1 = merged ++ added
    /\ added `sublist_of` candidates.
Proof.
  revert merged seen.
  induction candidates as [|a rest IH]; intros merged seen; simpl.
  - exists []. by rewrite app_nil_r.
  - case_bool_decide.
    + destruct (IH merged seen) as (added & -> & Hsub).
      exists added. split; [done | by apply sublist_cons].
    + destruct (IH (merged ++ [a]) (action_item_key a :: seen)) as (added & -> & Hsub).
      exists (a :: added). split; [by rewrite <- app_assoc | by apply sublist_skip].
Qed.

Lemma insert_unseen_app (l1 l2 merged : list ActionItem.t) (seen : list string) :
  insert_unseen (l1 ++ l2) merged seen
  = insert_unseen l2 (insert_unseen l1 merged seen).1 (insert_unseen l1 merged seen).2.
Proof.
  revert merged seen. induction l1 as [|a l1 IH]; intros merged seen; simpl.
  - reflexivity.
  - case_bool_decide; apply IH.
Qed.

(** The walk keeps one item per key, and for each key the first candidate
    that has it. *)
Lemma insert_unseen_first_occurrences (candidates merged : list ActionItem.t)
    (seen : list string) :
  (forall k, k ∈ seen <-> k ∈ action_item_key <$> merged) ->
  NoDup (action_item_key <$> merged) ->
  NoDup (action_item_key <$> (insert_unseen candidates merged seen).1)
  /\ (forall l1 a l2,
        candidates = l1 ++ a :: l2 ->
        action_item_key a ∉ seen ->
        action_item_key a ∉ action_item_key <$> l1 ->
        a ∈ (insert_unseen candidates merged seen).1)
  /\ (forall a, a ∈ candidates ->
                action_item_key a
                ∈ action_item_key <$> (insert_unseen candidates merged seen).1).
Proof.
  revert merged seen.
  induction candidates as [|c rest IH]; intros merged seen Hseen Hnd.
  - split; [exact Hnd | split].
    + intros [|? ?] ? ? ?; discriminate.
    + intros a Ha. by apply elem_of_nil in Ha.
  - cbn [insert_unseen].
    destruct (insert_unseen_extends rest merged seen) as (added & Hext & _).
    destruct (insert_unseen_extends rest (merged ++ [c]) (action_item_key c :: seen))
      as (added' & Hext' & _).
    case_bool_decide as Hc.
    + destruct (IH merged seen Hseen Hnd) as (IH1 & IH2 & IH3).
      split; [exact IH1 | split].
      * intros [|c' l1] a l2 Heq Hns Hnl; simplify_eq/=; [done |].
        eapply IH2; [reflexivity | done |].
        intros Hin. apply Hnl. by apply elem_of_cons; right.
      * intros a [-> | Ha]%elem_of_cons; [| by apply IH3].
        rewrite Hext, fmap_app. apply elem_of_app. left. by apply Hseen.
    + assert (forall k, k ∈ action_item_key c :: seen
                        <-> k ∈ action_item_key <$> (merged ++ [c])) as Hseen'.
      { intros k. rewrite fmap_app, elem_of_app, elem_of_cons, (Hseen k). simpl.
        rewrite list_elem_of_singleton. tauto. }
      assert (NoDup (action_item_key <$> (merged ++ [c]))) as Hnd'.
      { rewrite fmap_app. apply NoDup_app. split; [done | split].
        - intros k Hk Hk'. apply list_elem_of_singleton in Hk'. subst k.
          apply Hc. by apply Hseen.
        - apply NoDup_singleton. }
      destruct (IH _ _ Hseen' Hnd') as (IH1 & IH2 & IH3).
      split; [exact IH1 | split].
      * intros [|c' l1] a l2 Heq Hns Hnl; simplify_eq/=.
        -- rewrite Hext'. apply elem_of_app. left. apply elem_of_app. right.
           by apply list_elem_of_singleton.
        -- eapply IH2; [reflexivity | |].
           ++ rewrite elem_of_cons. intros [Hk | Hk]; [| done].
              apply Hnl. rewrite Hk. by apply elem_of_cons; left.
           ++ intros Hin. apply Hnl. by apply elem_of_cons; right.
      * intros a [-> | Ha]%elem_of_cons; [| by apply IH3].
        rewrite Hext', !fmap_app, !elem_of_app. left. right.
        by apply list_elem_of_singleton.
Qed.

(** The reference is the capped walk over the drafts followed by the items
    synthesized from the insights: a sublist of these candidates with
    pairwise distinct keys that keeps every first occurrence of a key. *)
Lemma action_items_reference_first_occurrences (drafts : list ActionItem.t)
    (insight_items : list ExtractedInsight.t) :
  action_items_reference drafts insight_items
  = take 10 (merged_candidates drafts insight_items)
  /\ merged_candidates drafts insight_items
     `sublist_of` drafts ++ (insight_action_item <$> insight_items)
  /\ NoDup (action_item_key <$> merged_candidates drafts insight_items)
  /\ (forall l1 a l2,
        drafts ++ (insight_action_item <$> insight_items) = l1 ++ a :: l2 ->
        action_item_key a ∉ action_item_key <$> l1 ->
        a ∈ merged_candidates drafts insight_items).
Proof.
  unfold action_items_reference, merged_candidates.
  destruct (insert_unseen_first_occurrences
              (drafts ++ (insight_action_item <$> insight_items)) [] [])
    as (Hnd & Hfirst & _); [done | constructor |].
  destruct (insert_unseen_extends
              (drafts ++ (insight_action_item <$> insight_items)) [] [])
    as (added & Hext & Hsub).
  split; [| split; [| split]].
  - rewrite insert_unseen_app.
    destruct (insert_unseen drafts [] []) as [merged seen]. simpl.
    by destruct (insert_unseen _ merged seen).
  - by rewrite Hext.
  - exact Hnd.
  - intros l1 a l2 Heq Hnl. eapply Hfirst; [exact Heq | | exact Hnl].
    by intros Hin%elem_of_nil.
Qed.

(** ** Action items: what holds of every run of the loops *)

Lemma keys_recorded_add (items : list ActionItem.t) (seen : gset string)
    (ai : ActionItem.t) :
  keys_recorded items seen ->
  action_item_key ai ∉ seen ->
  keys_recorded (items ++ [ai]) ({[action_item_key ai]} ∪ seen).
Proof.
  intros [Hnd Hrec] Hnin. split.
  - rewrite fmap_app. apply NoDup_app. split; [done | split].
    + intros k Hk Hk'. apply list_elem_of_fmap in Hk as (a & -> & Ha).
      apply list_elem_of_singleton in Hk'. apply Hnin. rewrite <- Hk'. by apply Hrec.
    + apply NoDup_singleton.
  - intros a [Ha | Ha]%elem_of_app.
    + apply elem_of_union_r. by apply Hrec.
    + apply list_elem_of_singleton in Ha as ->. apply elem_of_union_l.
      by apply elem_of_singleton.
Qed.

Lemma merge_brief_items_keys (brief_items : list (gmap string value))
    (items items' : list ActionItem.t) (seen seen' : gset string) :
  merge_brief_items brief_items items seen = Ok (items', seen') ->
  keys_recorded items seen -> keys_recorded items' seen'.
Proof.
  revert items seen.
  induction brief_items as [|item rest IH]; intros items seen Hm Hk; simpl in Hm.
  - by inversion Hm; subst.
  - inv_bind Hm. destruct (decide (r ∈ seen)) as [Hin | Hnin].
    + by eapply IH.
    + inv_bind Hm. eapply IH; [exact Hm |].
      pose proof (ActionItem_new_description _ _ _ _ _ _ Hr0) as Hd.
      rewrite Hd, slice50_lower_str in Hr. inversion Hr; subst r.
      by apply keys_recorded_add.
Qed.

Lemma merge_insight_items_keys (insight_items : list ExtractedInsight.t)
    (items items' : list ActionItem.t) (seen seen' : gset string) :
  merge_insight_items insight_items items seen = Ok (items', seen') ->
  keys_recorded items seen -> keys_recorded items' seen'.
Proof.
  revert items seen.
  induction insight_items as [|insight rest IH]; intros items seen Hm Hk;
    simpl in Hm.
  - by inversion Hm; subst.
  - destruct (decide (lower (str_take 50 (ExtractedInsight.content insight)) ∈ seen))
      as [Hin | Hnin].
    + by eapply IH.
    + rewrite insight_action_item_new in Hm. simpl in Hm.
      eapply IH; [exact Hm |].
      by apply (keys_recorded_add items seen (insight_action_item insight)).
Qed.

(** No two entries of a merged action-item list share a dedup key. *)
Lemma merge_action_items_NoDup (brief_items : list (gmap string value))
    (insight_items : list ExtractedInsight.t) (l : list ActionItem.t) :
  _merge_action_items brief_items insight_items = Ok l ->
  NoDup (action_item_key <$> l).
Proof.
  unfold _merge_action_items. intros Hm.
  inv_bind Hm. destruct r as [items seen].
  inv_bind Hm. destruct r as [items' seen'].
  inversion Hm; subst l.
  assert (keys_recorded [] ∅) as Hk0 by (split; [constructor | by inversion 1]).
  pose proof (merge_brief_items_keys _ _ _ _ _ Hr Hk0) as Hk1.
  destruct (merge_insight_items_keys _ _ _ _ _ Hr0 Hk1) as [Hnd _].
  rewrite fmap_take. exact (sublist_NoDup _ _ Hnd (sublist_take _ _)).
Qed.

(** ** Talking points and risks: the append loops *)

Lemma enhance_points_Ok (points : list (gmap string value))
    (enhanced l : list TalkingPoint.t) :
  enhance_points points enhanced = Ok l <->
  exists drafts, validated draft_talking_point points drafts /\ l = enhanced ++ drafts.
Proof.
  revert enhanced. induction points as [|point rest IH]; intros enhanced; simpl.
  - split.
    + intros [= <-]. exists []. split; [constructor | by rewrite app_nil_r].
    + intros (drafts & Hv & ->). inversion Hv; subst. by rewrite app_nil_r.
  - split.
    + intros Hm. inv_bind Hm. apply IH in Hm as (drafts & Hv & ->).
      exists (r :: drafts). split; [by constructor | by rewrite <- app_assoc].
    + intros (drafts & Hv & ->). inversion Hv as [|? tp ? drafts' Htp Hv']; subst.
      unfold draft_talking_point in Htp. rewrite Htp. simpl.
      apply IH. exists drafts'. split; [done | by rewrite <- app_assoc].
Qed.

Lemma enhance_concerns_Ok (concerns : list ExtractedInsight.t)
    (enhanced : list TalkingPoint.t) :
  enhance_concerns concerns enhanced
  = Ok (enhanced ++ (address_concern_point <$> concerns)).
Proof.
  revert enhanced. induction concerns as [|concern rest IH]; intros enhanced; simpl.
  - by rewrite app_nil_r.
  - rewrite IH. by rewrite <- app_assoc.
Qed.

Lemma enhance_opportunities_Ok (opportunities : list ExtractedInsight.t)
    (enhanced : list TalkingPoint.t) :
  enhance_opportunities opportunities enhanced
  = Ok (enhanced ++ (explore_opportunity_point <$> opportunities)).
Proof.
  revert enhanced.
  induction opportunities as [|opp rest IH]; intros enhanced; simpl.
  - by rewrite app_nil_r.
  - rewrite IH. by rewrite <- app_assoc.
Qed.

(** The merge returns exactly when every draft point validates, and then
    returns the reference list. *)
Lemma enhance_talking_points_Ok (points : list (gmap string value))
    (insights : InsightExtractionResult.t) (l : list TalkingPoint.t) :
  _enhance_talking_points points insights = Ok l <->
  exists drafts, validated draft_talking_point points drafts
                 /\ l = talking_points_reference drafts insights.
Proof.
  unfold _enhance_talking_points, talking_points_reference, talking_point_candidates.
  split.
  - intros Hm. inv_bind Hm. apply enhance_points_Ok in Hr as (drafts & Hv & ->).
    rewrite enhance_concerns_Ok in Hm. simpl in Hm.
    rewrite enhance_opportunities_Ok in Hm. simpl in Hm.
    inversion Hm; subst l. exists drafts. split; [done |]. by rewrite <- app_assoc.
  - intros (drafts & Hv & ->).
    assert (enhance_points points [] = Ok drafts) as ->
      by (apply enhance_points_Ok; by exists drafts).
    simpl. rewrite enhance_concerns_Ok. simpl.
    rewrite enhance_opportunities_Ok. simpl. by rewrite <- app_assoc.
Qed.

Lemma merge_existing_Ok (existing : list (gmap string value))
    (items l : list RiskOpportunity.t) :
  merge_existing existing items = Ok l <->
  exists drafts, validated draft_risk_opportunity existing drafts /\ l = items ++ drafts.
Proof.
  revert items. induction existing as [|item rest IH]; intros items; simpl.
  - split.
    + intros [= <-]. exists []. split; [constructor | by rewrite app_nil_r].
    + intros (drafts & Hv & ->). inversion Hv; subst. by rewrite app_nil_r.
  - split.
    + intros Hm. inv_bind Hm. apply IH in Hm as (drafts & Hv & ->).
      exists (r :: drafts). split; [by constructor | by rewrite <- app_assoc].
    + intros (drafts & Hv & ->). inversion Hv as [|? ro ? drafts' Hro Hv']; subst.
      unfold draft_risk_opportunity in Hro. rewrite Hro. simpl.
      apply IH. exists drafts'. split; [done | by rewrite <- app_assoc].
Qed.

Lemma merge_insights_as_Ok (type : string) (insights : list ExtractedInsight.t)
    (items : list RiskOpportunity.t) :
  merge_insights_as type insights items
  = Ok (items ++ (insight_record type <$> insights)).
Proof.
  revert items. induction insights as [|insight rest IH]; intros items; simpl.
  - by rewrite app_nil_r.
  - rewrite IH. by rewrite <- app_assoc.
Qed.

Lemma merge_risks_opportunities_Ok (existing : list (gmap string value))
    (concerns opportunities : list ExtractedInsight.t) (l : list RiskOpportunity.t) :
  _merge_risks_opportunities existing concerns opportunities = Ok l <->
  exists drafts, validated draft_risk_opportunity existing drafts
                 /\ l = risks_opportunities_reference drafts concerns opportunities.
Proof.
  unfold _merge_risks_opportunities, risks_opportunities_reference. split.
  - intros Hm. inv_bind Hm. apply merge_existing_Ok in Hr as (drafts & Hv & ->).
    rewrite merge_insights_as_Ok in Hm. simpl in Hm.
    rewrite merge_insights_as_Ok in Hm. simpl in Hm.
    inversion Hm; subst l. exists drafts. split; [done |]. by rewrite <- app_assoc.
  - intros (drafts & Hv & ->).
    assert (merge_existing existing [] = Ok drafts) as ->
      by (apply merge_existing_Ok; by exists drafts).
    simpl. rewrite merge_insights_as_Ok. simpl.
    rewrite merge_insights_as_Ok. simpl. by rewrite <- app_assoc.
Qed.

(** ** Caps *)

Lemma merge_action_items_length (brief_items : list (gmap string value))
    (insight_items : list ExtractedInsight.t) (l : list ActionItem.t) :
  _merge_action_items brief_items insight_items = Ok l -> length l <= 10.
Proof.
  unfold _merge_action_items. intros Hm.
  inv_bind Hm. destruct r as [items seen].
  inv_bind Hm. destruct r as [items' seen'].
  inversion Hm; subst l. rewrite length_take. lia.
Qed.

Lemma enhance_talking_points_length (points : list (gmap string value))
    (insights : InsightExtractionResult.t) (l : list TalkingPoint.t) :
  _enhance_talking_points points insights = Ok l -> length l <= 8.
Proof.
  intros Hm. apply enhance_talking_points_Ok in Hm as (drafts & _ & ->).
  unfold talking_points_reference. rewrite length_take. lia.
Qed.

Lemma merge_risks_opportunities_length (existing : list (gmap string value))
    (concerns opportunities : list ExtractedInsight.t) (l : list RiskOpportunity.t) :
  _merge_risks_opportunities existing concerns opportunities = Ok l -> length l <= 6.
Proof.
  intros Hm. apply merge_risks_opportunities_Ok in Hm as (drafts & _ & ->).
  unfold risks_opportunities_reference. rewrite length_take. lia.
Qed.

(** ** The assembler's claims *)

(** C1: for every draft brief and every insight bundle, whatever the three
    merges return obeys the caps: at most 10 action items, at most 8
    talking points, at most 6 risks/opportunities. *)
Theorem merged_lists_obey_caps (draft : GeneratedBrief.t)
    (insights : InsightExtractionResult.t) :
  (forall l, _merge_action_items (GeneratedBrief.open_action_items draft)
               (InsightExtractionResult.action_items insights) = Ok l ->
             length l <= 10)
  /\ (forall l, _enhance_talking_points (GeneratedBrief.talking_points draft) insights
                 = Ok l ->
                length l <= 8)
  /\ (forall l, _merge_risks_opportunities (GeneratedBrief.risks_opportunities draft)
                  (InsightExtractionResult.concerns insights)
                  (InsightExtractionResult.opportunities insights) = Ok l ->
                length l <= 6).
Proof.
  split; [| split]; intros l Hm.
  - by eapply merge_action_items_length.
  - by eapply enhance_talking_points_length.
  - by eapply merge_risks_opportunities_length.
Qed.

(** C2: on draft dicts that validate as action items, the action-item merge
    returns what the reference algorithm returns: walk the drafts inserting
    each item whose key (lower-cased first 50 characters of the
    description) is unseen, walk the items synthesized from the insights
    the same way, keep the first 10. The deduplicated drafts come first, so
    the cap drops insight-derived items before draft items. *)
Theorem merge_action_items_is_reference (brief_items : list (gmap string value))
    (drafts : list ActionItem.t) (insight_items : list ExtractedInsight.t) :
  validated draft_action_item brief_items drafts ->
  _merge_action_items brief_items insight_items
    = Ok (action_items_reference drafts insight_items)
  /\ exists derived,
       derived `sublist_of` (insight_action_item <$> insight_items)
       /\ action_items_reference drafts insight_items
          = take 10 ((insert_unseen drafts [] []).1 ++ derived).
Proof.
  intros Hv. unfold _merge_action_items, action_items_reference.
  destruct (merge_brief_items_reference brief_items drafts [] ∅ [] Hv)
    as (seen & Hb & Hs); [by intros k; rewrite elem_of_nil |].
  destruct (insert_unseen drafts [] []) as [merged seenl] eqn:Hd.
  simpl in Hb, Hs. rewrite Hb. simpl.
  destruct (merge_insight_items_reference insight_items merged seen seenl Hs)
    as (seen' & Hi & _).
  destruct (insert_unseen_extends (insight_action_item <$> insight_items) merged seenl)
    as (derived & Hext & Hsub).
  destruct (insert_unseen (insight_action_item <$> insight_items) merged seenl)
    as [merged' seenl'] eqn:Hd'.
  simpl in Hi, Hext. rewrite Hi. simpl. split; [reflexivity |].
  exists derived. by rewrite Hext.
Qed.

(** C3, as the code has it: the talking-point merge removes nothing by key.
    On draft points that validate, its result is the candidates cut to the
    first 8, the candidates being the drafts followed by the points of the
    first 3 concerns and of the first 2 opportunities, and nothing else is
    left out: the result has as many entries as the cap allows. So no two
    entries of the result share a dedup key when no two candidates do. The
    risk/opportunity merge appends and cuts in the same way; the
    action-item merge is the only one that removes by key, and no result of
    it holds two entries with the same key. *)
Theorem talking_points_distinct_when_candidates_distinct
    (points : list (gmap string value)) (drafts : list TalkingPoint.t)
    (insights : InsightExtractionResult.t) :
  validated draft_talking_point points drafts ->
  _enhance_talking_points points insights
    = Ok (take 8
            (drafts
             ++ (address_concern_point <$>
                   take 3 (InsightExtractionResult.concerns insights))
             ++ (explore_opportunity_point <$>
                   take 2 (InsightExtractionResult.opportunities insights))))
  /\ (forall l, _enhance_talking_points points insights = Ok l ->
        length l
        = 8 `min` (length drafts
                   + 3 `min` length (InsightExtractionResult.concerns insights)
                   + 2 `min` length (InsightExtractionResult.opportunities insights)))
  /\ (NoDup (talking_point_key <$> talking_point_candidates drafts insights) ->
      exists l, _enhance_talking_points points insights = Ok l
                /\ NoDup (talking_point_key <$> l))
  /\ (forall existing draft_risks concerns opportunities,
        validated draft_risk_opportunity existing draft_risks ->
        _merge_risks_opportunities existing concerns opportunities
        = Ok (take 6 (draft_risks
                      ++ (insight_record "risk" <$> concerns)
                      ++ (insight_record "opportunity" <$> opportunities))))
  /\ (forall brief_items insight_items items,
        _merge_action_items brief_items insight_items = Ok items ->
        NoDup (action_item_key <$> items)).
Proof.
  intros Hv.
  assert (_enhance_talking_points points insights
          = Ok (talking_points_reference drafts insights)) as Heq
    by (apply enhance_talking_points_Ok; by exists drafts).
  split; [exact Heq |].
  split; [| split; [| split]].
  - intros l Hl. rewrite Heq in Hl. inversion Hl; subst l.
    unfold talking_points_reference, talking_point_candidates.
    rewrite length_take, !length_app, !length_fmap, !length_take. lia.
  - intros Hnd. exists (talking_points_reference drafts insights).
    split; [exact Heq |].
    unfold talking_points_reference. rewrite fmap_take.
    exact (sublist_NoDup _ _ Hnd (sublist_take _ _)).
  - intros existing draft_risks concerns opportunities Hr.
    apply merge_risks_opportunities_Ok. by exists draft_risks.
  - intros brief_items insight_items items Hm.
    by eapply merge_action_items_NoDup.
Qed.

(** C4: on draft dicts that validate as talking points, the talking-point
    merge returns the drafts in order, then one point per concern among
    the first 3 with priority "high", then one point per opportunity among
    the first 2 with priority "medium", cut to the first 8. *)
Theorem enhance_talking_points_is_reference (points : list (gmap string value))
    (drafts : list TalkingPoint.t) (insights : InsightExtractionResult.t) :
  validated draft_talking_point points drafts ->
  _enhance_talking_points points insights
    = Ok (take 8
            (drafts
             ++ (address_concern_point <$>
                   take 3 (InsightExtractionResult.concerns insights))
             ++ (explore_opportunity_point <$>
                   take 2 (InsightExtractionResult.opportunities insights))))
  /\ (forall c, TalkingPoint.priority (address_concern_point c) = "high")
  /\ (forall o, TalkingPoint.priority (explore_opportunity_point o) = "medium").
Proof.
  intros Hv. split; [| by split].
  apply enhance_talking_points_Ok. by exists drafts.
Qed.

(** C5: on draft dicts that validate as risks/opportunities, the merge
    returns the drafts in order, then one "risk" record per concern, then
    one "opportunity" record per opportunity, each with the insight's
    priority as severity, cut to the first 6. *)
Theorem merge_risks_opportunities_is_reference (existing : list (gmap string value))
    (drafts : list RiskOpportunity.t) (concerns opportunities : list ExtractedInsight.t) :
  validated draft_risk_opportunity existing drafts ->
  _merge_risks_opportunities existing concerns opportunities
    = Ok (take 6
            (drafts
             ++ (insight_record "risk" <$> concerns)
             ++ (insight_record "opportunity" <$> opportunities)))
  /\ (forall ty i, RiskOpportunity.type (insight_record ty i) = ty
                   /\ RiskOpportunity.severity (insight_record ty i)
                      = ExtractedInsight.priority i).
Proof.
  intros Hv. split; [| by split].
  apply merge_risks_opportunities_Ok. by exists drafts.
Qed.

(** C10: the risk/opportunity merge does not deduplicate. It keeps
    min(6, total) entries; a concern given twice yields two equal records;
    a draft and a concern with the same title both stay. Only the
    action-item merge guarantees pairwise distinct keys. *)
Theorem risks_opportunities_not_deduplicated :
  (forall existing drafts concerns opportunities,
     validated draft_risk_opportunity existing drafts ->
     exists l, _merge_risks_opportunities existing concerns opportunities = Ok l
               /\ length l
                  = min 6 (length existing + length concerns + length opportunities))
  /\ (forall c, _merge_risks_opportunities [] [c; c] []
               = Ok [insight_record "risk" c; insight_record "risk" c])
  /\ (forall item r c,
        draft_risk_opportunity item = Ok r ->
        RiskOpportunity.title r = RiskOpportunity.title (insight_record "risk" c) ->
        _merge_risks_opportunities [item] [c] [] = Ok [r; insight_record "risk" c])
  /\ (forall brief_items insight_items l,
        _merge_action_items brief_items insight_items = Ok l ->
        NoDup (action_item_key <$> l)).
Proof.
  split; [| split; [| split]].
  - intros existing drafts concerns opportunities Hv.
    eexists. split; [apply merge_risks_opportunities_Ok; by exists drafts |].
    unfold risks_opportunities_reference.
    rewrite length_take, !length_app, !length_fmap.
    pose proof (Forall2_length _ _ _ Hv). lia.
  - intros c. apply merge_risks_opportunities_Ok. exists []. split; [constructor | done].
  - intros item r c Hr _. apply merge_risks_opportunities_Ok. exists [r].
    split; [by repeat constructor | done].
  - apply merge_action_items_NoDup.
Qed.

End Assembler.

Section Pipeline.
Context `{Builtins}.

(** ** The gatherer *)

Lemma truthy_list (l : list value) : truthy (VList l) = nonempty l.
Proof. by destruct l. Qed.

Lemma crm_dict_contacts (c : CrmData) :
  dict_get (crm_dict c) "contacts" VNone = VList (contacts c).
Proof. unfold dict_get, crm_dict. by rewrite lookup_insert_eq. Qed.

Lemma validate_each_str (l : list string) :
  validate_each validate_str (VStr <$> l) = Ok l.
Proof.
  induction l as [|s l IH]; [done |].
  rewrite fmap_cons. cbn [validate_each validate_str]. by rewrite IH.
Qed.

(** What a returned context holds: the chain's parsed dict, validated, with
    [sources_accessed] replaced by the sources gathered. *)
Lemma gather_Ok (w : World) (meeting_title : string) (meeting_date : datetime)
    (participants : list string) (meeting_description : option string)
    (lookback_days : Z) (include_email include_crm include_calendar : bool)
    (ctx : GatheredContext.t) :
  gather w meeting_title meeting_date participants meeting_description
    lookback_days include_email include_crm include_calendar = Ok ctx ->
  exists inputs d,
    chain_ainvoke w ContextGatherer inputs = Ok (VDict d)
    /\ GatheredContext.of_dict
         (<["sources_accessed" :=
              str_list (gathered_sources w participants lookback_days
                          include_email include_crm include_calendar)]> d)
       = Ok ctx.
Proof.
  unfold gather, gathered_sources. intros Hg.
  destruct include_email, include_calendar, include_crm;
    cbv beta iota zeta in Hg;
    rewrite ?crm_dict_contacts, ?truthy_list in Hg;
    cbn [andb];
    repeat match type of Hg with
           | context [nonempty ?l] => destruct (nonempty l)
           end;
    cbv beta iota zeta in Hg;
    inv_bind Hg; destruct r; try discriminate; eauto.
Qed.

Lemma field_default_insert_ne {A : Type} (f : value -> result A) (dflt : A)
    (d : gmap string value) (k k' : string) (v : value) :
  k' <> k -> field_default f dflt (<[k' := v]> d) k = field_default f dflt d k.
Proof. intros Hne. unfold field_default. by rewrite lookup_insert_ne. Qed.

(** The validated context: [sources_accessed] is the list written over the
    chain's dict; the score and the events are the chain's own. *)
Lemma GatheredContext_of_dict_sources (d : gmap string value)
    (sources : list string) (ctx : GatheredContext.t) :
  GatheredContext.of_dict (<["sources_accessed" := str_list sources]> d) = Ok ctx ->
  GatheredContext.sources_accessed ctx = sources
  /\ field_default validate_float 0%float d "data_quality_score"
     = Ok (GatheredContext.data_quality_score ctx)
  /\ field_default (validate_list validate_dict) [] d "calendar_events"
     = Ok (GatheredContext.calendar_events ctx).
Proof.
  unfold GatheredContext.of_dict. intros Hd.
  rewrite (field_default_insert_ne _ _ _ "email_threads"),
    (field_default_insert_ne _ _ _ "calendar_events"),
    (field_default_insert_ne _ _ _ "crm_data"),
    (field_default_insert_ne _ _ _ "past_interactions"),
    (field_default_insert_ne _ _ _ "participant_profiles"),
    (field_default_insert_ne _ _ _ "data_quality_score") in Hd by discriminate.
  do 6 inv_bind Hd.
  unfold field_default in Hd at 1. rewrite lookup_insert_eq in Hd.
  unfold str_list in Hd. cbn [validate_list] in Hd.
  rewrite validate_each_str in Hd. simpl in Hd. by inversion Hd.
Qed.

(** The threads of the validated context are the chain's own too. *)
Lemma GatheredContext_of_dict_threads (d : gmap string value)
    (sources : list string) (ctx : GatheredContext.t) :
  GatheredContext.of_dict (<["sources_accessed" := str_list sources]> d) = Ok ctx ->
  field_default (validate_list validate_dict) [] d "email_threads"
  = Ok (GatheredContext.email_threads ctx).
Proof.
  unfold GatheredContext.of_dict. intros Hd.
  rewrite (field_default_insert_ne _ _ _ "email_threads") in Hd by discriminate.
  do 7 inv_bind Hd. by inversion Hd.
Qed.

(** ** Fetch errors *)

Lemma gather_email_context_fetch_error (w : World) (i : Integration EmailClient)
    (participants : list string) (lookback_days : Z) :
  mcp_email (mcp w) = Some i ->
  (forall query since, exists e, search_emails (client i) query since = Raise e) ->
  gather_email_context w participants lookback_days = [].
Proof.
  intros Hi Hraise. unfold gather_email_context. rewrite Hi.
  destruct (enabled i); [| done].
  destruct (minus_days (utcnow_email w) lookback_days) as [since|]; [| done].
  destruct participants as [|p rest]; [done |]. cbn [fetch_emails].
  destruct (Hraise ("from:" ++ p ++ " OR to:" ++ p)%string (isoformat since))
    as [e ->].
  done.
Qed.

Lemma gather_calendar_context_fetch_error (w : World)
    (i : Integration CalendarClient) (participants : list string) (lookback_days : Z) :
  mcp_calendar (mcp w) = Some i ->
  (forall time_min time_max, exists e, list_events (client i) time_min time_max = Raise e) ->
  gather_calendar_context w participants lookback_days = [].
Proof.
  intros Hi Hraise. unfold gather_calendar_context. rewrite Hi.
  destruct (enabled i); [| done].
  destruct (minus_days (utcnow_calendar_since w) lookback_days) as [since|]; [| done].
  rewrite bind_Ok_l.
  destruct (Hraise (isoformat since) (isoformat (utcnow_calendar_until w))) as [e ->].
  done.
Qed.

Lemma gather_crm_context_fetch_error (w : World) (i : Integration CrmClient)
    (participants : list string) :
  mcp_crm (mcp w) = Some i ->
  (forall email, exists e, get_contact_by_email (client i) email = Raise e) ->
  gather_crm_context w participants
  = {| contacts := []; deals := []; accounts := [] |}.
Proof.
  intros Hi Hraise. unfold gather_crm_context. rewrite Hi.
  destruct (enabled i); [| done].
  destruct participants as [|p rest]; [done |]. cbn [fetch_crm]. unfold crm_step.
  destruct (Hraise p) as [e ->]. done.
Qed.

(** Membership in a list of at most two of the three source names. *)
Ltac not_listed Hs :=
  rewrite Hs;
  repeat match goal with
         | |- context [if ?c then _ else _] => destruct c
         end;
  cbn [app]; rewrite ?elem_of_cons, elem_of_nil; intros Hin;
  repeat destruct Hin as [Hin | Hin]; done.

(** C8, as the code has it: when every fetch call of a configured source
    raises, that source gathers nothing, the gatherer returns what it
    returns with the source not configured (the other sources are fetched
    and the chain is still called), and the returned context does not list
    the source. When it is the calendar that fails, with email data
    gathered and no CRM contact, the context lists exactly "email"; its
    events and its threads are the ones the chain answered with. *)
Theorem fetch_errors_are_isolated (w : World) (meeting_title : string)
    (meeting_date : datetime) (participants : list string)
    (meeting_description : option string) (lookback_days : Z)
    (include_email include_crm include_calendar : bool) :
  let run := fun w' =>
    gather w' meeting_title meeting_date participants meeting_description
      lookback_days include_email include_crm include_calendar in
  (forall i,
     mcp_email (mcp w) = Some i ->
     (forall query since, exists e, search_emails (client i) query since = Raise e) ->
     gather_email_context w participants lookback_days = []
     /\ run w = run (without_email w)
     /\ forall ctx, run w = Ok ctx -> "email" ∉ GatheredContext.sources_accessed ctx)
  /\ (forall i,
        mcp_calendar (mcp w) = Some i ->
        (forall time_min time_max,
           exists e, list_events (client i) time_min time_max = Raise e) ->
        gather_calendar_context w participants lookback_days = []
        /\ run w = run (without_calendar w)
        /\ forall ctx, run w = Ok ctx ->
             ("calendar" ∉ GatheredContext.sources_accessed ctx)
             /\ (include_email = true ->
                 nonempty (gather_email_context w participants lookback_days) = true ->
                 nonempty (contacts (gather_crm_context w participants)) = false ->
                 GatheredContext.sources_accessed ctx = ["email"])
             /\ exists inputs d,
                  chain_ainvoke w ContextGatherer inputs = Ok (VDict d)
                  /\ field_default (validate_list validate_dict) [] d "calendar_events"
                     = Ok (GatheredContext.calendar_events ctx)
                  /\ field_default (validate_list validate_dict) [] d "email_threads"
                     = Ok (GatheredContext.email_threads ctx))
  /\ (forall i,
        mcp_crm (mcp w) = Some i ->
        (forall email, exists e, get_contact_by_email (client i) email = Raise e) ->
        contacts (gather_crm_context w participants) = []
        /\ run w = run (without_crm w)
        /\ forall ctx, run w = Ok ctx -> "crm" ∉ GatheredContext.sources_accessed ctx).
Proof.
  cbv zeta. split; [| split]; intros i Hi Hraise.
  - pose proof (gather_email_context_fetch_error w i participants lookback_days
                  Hi Hraise) as Hnone.
    split; [exact Hnone | split].
    + unfold gather. rewrite Hnone. reflexivity.
    + intros ctx Hg. apply gather_Ok in Hg as (inputs & d & Hchain & Hd).
      apply GatheredContext_of_dict_sources in Hd as (Hs & _ & _).
      unfold gathered_sources in Hs. rewrite Hnone in Hs.
      rewrite andb_false_r in Hs. cbn [app] in Hs. not_listed Hs.
  - pose proof (gather_calendar_context_fetch_error w i participants lookback_days
                  Hi Hraise) as Hnone.
    split; [exact Hnone | split].
    + unfold gather. rewrite Hnone. reflexivity.
    + intros ctx Hg. apply gather_Ok in Hg as (inputs & d & Hchain & Hd).
      pose proof (GatheredContext_of_dict_threads _ _ _ Hd) as Hth.
      apply GatheredContext_of_dict_sources in Hd as (Hs & _ & Hev).
      unfold gathered_sources in Hs. rewrite Hnone in Hs.
      rewrite andb_false_r in Hs. cbn [app] in Hs.
      split; [| split].
      * not_listed Hs.
      * intros -> Hem Hcrm. rewrite Hs, Hem, Hcrm, andb_false_r. reflexivity.
      * eauto.
  - pose proof (gather_crm_context_fetch_error w i participants Hi Hraise) as Hnone.
    split; [by rewrite Hnone | split].
    + unfold gather. rewrite Hnone. reflexivity.
    + intros ctx Hg. apply gather_Ok in Hg as (inputs & d & Hchain & Hd).
      apply GatheredContext_of_dict_sources in Hd as (Hs & _ & _).
      unfold gathered_sources in Hs. rewrite Hnone in Hs.
      rewrite andb_false_r, app_nil_r in Hs. not_listed Hs.
Qed.

Lemma gather_score (w : World) (meeting_title : string)
    (meeting_date : datetime) (participants : list string)
    (meeting_description : option string) (lookback_days : Z)
    (include_email include_crm include_calendar : bool) (ctx : GatheredContext.t) :
  gather w meeting_title meeting_date participants meeting_description
    lookback_days include_email include_crm include_calendar = Ok ctx ->
  exists inputs d,
    chain_ainvoke w ContextGatherer inputs = Ok (VDict d)
    /\ field_default validate_float 0%float d "data_quality_score"
       = Ok (GatheredContext.data_quality_score ctx).
Proof.
  intros Hg. apply gather_Ok in Hg as (inputs & d & Hchain & Hd).
  apply GatheredContext_of_dict_sources in Hd as (_ & Hscore & _).
  eauto.
Qed.

(** Two runs whose gatherer chains return the same parsed value, whatever
    is asked of them, give the same score. *)
Lemma data_quality_score_same_chain_output (w1 w2 : World) (v : value)
    (title1 title2 : string) (date1 date2 : datetime) (ps1 ps2 : list string)
    (desc1 desc2 : option string) (days1 days2 : Z)
    (e1 c1 k1 e2 c2 k2 : bool) (ctx1 ctx2 : GatheredContext.t) :
  (forall inputs, chain_ainvoke w1 ContextGatherer inputs = Ok v) ->
  (forall inputs, chain_ainvoke w2 ContextGatherer inputs = Ok v) ->
  gather w1 title1 date1 ps1 desc1 days1 e1 c1 k1 = Ok ctx1 ->
  gather w2 title2 date2 ps2 desc2 days2 e2 c2 k2 = Ok ctx2 ->
  GatheredContext.data_quality_score ctx1 = GatheredContext.data_quality_score ctx2.
Proof.
  intros Hc1 Hc2 Hg1 Hg2.
  apply gather_score in Hg1 as (i1 & d1 & Hi1 & Hs1).
  apply gather_score in Hg2 as (i2 & d2 & Hi2 & Hs2).
  rewrite Hc1 in Hi1. rewrite Hc2 in Hi2.
  assert (d1 = d2) as -> by congruence. congruence.
Qed.

(** C9, as the code has it: the score of a returned context is the
    "data_quality_score" field of the dict the gatherer's chain returned,
    validated as a float (0.0 when the field is absent); nothing bounds it
    and nothing else determines it. *)
Theorem data_quality_score_is_the_chain_value (w : World) (meeting_title : string)
    (meeting_date : datetime) (participants : list string)
    (meeting_description : option string) (lookback_days : Z)
    (include_email include_crm include_calendar : bool) (ctx : GatheredContext.t) :
  gather w meeting_title meeting_date participants meeting_description
    lookback_days include_email include_crm include_calendar = Ok ctx ->
  exists inputs d,
    chain_ainvoke w ContextGatherer inputs = Ok (VDict d)
    /\ field_default validate_float 0%float d "data_quality_score"
       = Ok (GatheredContext.data_quality_score ctx).
Proof.
  intros Hg.
  destruct (gather_Ok _ _ _ _ _ _ _ _ _ _ Hg) as (inputs & d & Hchain & Hd).
  destruct (GatheredContext_of_dict_sources _ _ _ Hd) as (_ & Hscore & _).
  exists inputs, d. split; [exact Hchain | exact Hscore].
Qed.

(** ** The orchestrator *)

(** The two clock readings do not reach the returned value. *)
Lemma generate_brief_clock_irrelevant (w : World) (t0 t1 : float)
    (meeting_id meeting_title : string) (meeting_date : datetime)
    (participants : list string) (meeting_description : option string)
    (include_email include_crm include_calendar : bool) (lookback_days : Z) :
  generate_brief (with_clock w t0 t1) meeting_id meeting_title meeting_date
    participants meeting_description include_email include_crm include_calendar
    lookback_days
  = generate_brief w meeting_id meeting_title meeting_date participants
      meeting_description include_email include_crm include_calendar lookback_days.
Proof. reflexivity. Qed.

(** A model comes out of [extract] only as the validated dict of its chain. *)
Lemma extract_Model (w : World) (email_threads meeting_notes : list (gmap string value))
    (context : option string) (m : InsightExtractionResult.t) :
  extract w email_threads meeting_notes context = Ok (Model m) ->
  exists inputs d,
    chain_ainvoke w InsightExtractor inputs = Ok (VDict d)
    /\ InsightExtractionResult.of_dict d = Ok m.
Proof.
  unfold extract. intros He. do 3 inv_bind He.
  destruct r1; try discriminate.
  inv_bind He. inversion He; subst. eauto.
Qed.

Lemma extract_chain_raises (w : World)
    (email_threads meeting_notes : list (gmap string value))
    (context : option string) (e : exn) :
  (forall inputs, chain_ainvoke w InsightExtractor inputs = Raise e) ->
  exists e', extract w email_threads meeting_notes context = Raise e'.
Proof.
  intros Hraise. unfold extract.
  destruct (email_interactions _ _) as [a|]; [| by eexists].
  rewrite bind_Ok_l.
  destruct (meeting_interactions _ _) as [a'|]; [| by eexists].
  rewrite bind_Ok_l, Hraise. by eexists.
Qed.

Lemma extract_raises_chain_error (w : World)
    (email_threads meeting_notes : list (gmap string value))
    (context : option string) (e : exn) (rendered rendered' : list string) :
  email_interactions (take 15 email_threads) [] = Ok rendered ->
  meeting_interactions (take 10 meeting_notes) rendered = Ok rendered' ->
  (forall inputs, chain_ainvoke w InsightExtractor inputs = Raise e) ->
  extract w email_threads meeting_notes context = Raise e.
Proof.
  intros He Hm Hraise. unfold extract.
  rewrite He, bind_Ok_l, Hm, bind_Ok_l, Hraise. reflexivity.
Qed.

(** [generate_brief] once the context is gathered and the meeting notes are
    built: the two agents, then the attribute reads, then the assembly. *)
Lemma generate_brief_after_gather (w : World) (meeting_id meeting_title : string)
    (meeting_date : datetime) (participants : list string)
    (meeting_description : option string)
    (include_email include_crm include_calendar : bool) (lookback_days : Z)
    (context : GatheredContext.t) (meeting_notes : list (gmap string value)) :
  gather w meeting_title meeting_date participants meeting_description
    lookback_days include_email include_crm include_calendar = Ok context ->
  meeting_notes_of (GatheredContext.calendar_events context) = Ok meeting_notes ->
  generate_brief w meeting_id meeting_title meeting_date participants
    meeting_description include_email include_crm include_calendar lookback_days
  = (insights ← extract w (GatheredContext.email_threads context) meeting_notes
                  (Some ("Preparing for meeting: " ++ meeting_title)%string);
     generated ← generate w meeting_title meeting_date meeting_description context;
     generated ← py_model generated;
     insights ← py_model insights;
     action_items ← _merge_action_items
                      (GeneratedBrief.open_action_items generated)
                      (InsightExtractionResult.action_items insights);
     talking_points ← _enhance_talking_points
                        (GeneratedBrief.talking_points generated) insights;
     risks_opportunities ← _merge_risks_opportunities
                             (GeneratedBrief.risks_opportunities generated)
                             (InsightExtractionResult.concerns insights)
                             (InsightExtractionResult.opportunities insights);
     participant_profiles ← profiles_of (GeneratedBrief.participant_profiles generated);
     crm_context ← _format_crm_context (GatheredContext.crm_data context);
     Ok {| Brief.id := uuid4 w;
           Brief.meeting_id := meeting_id;
           Brief.title := ("Brief: " ++ meeting_title)%string;
           Brief.meeting_objective := Some (GeneratedBrief.meeting_objective generated);
           Brief.executive_summary := GeneratedBrief.executive_summary generated;
           Brief.participant_profiles := participant_profiles;
           Brief.relationship_timeline := GeneratedBrief.relationship_timeline generated;
           Brief.open_action_items := action_items;
           Brief.talking_points := talking_points;
           Brief.risks_opportunities := risks_opportunities;
           Brief.email_context := GeneratedBrief.email_summary generated;
           Brief.crm_context := crm_context;
           Brief.previous_meetings_summary :=
             GeneratedBrief.previous_meetings_summary generated;
           Brief.generated_at := utcnow_generated w |}).
Proof.
  intros Hg Hn. unfold generate_brief. cbv zeta.
  rewrite Hg, bind_Ok_l, Hn, bind_Ok_l. reflexivity.
Qed.

(** C7: once the context is gathered, a failure of the extraction step or
    of the synthesis step is the outcome of the whole request. An exception
    of either step is re-raised as it is, the extraction chain's own
    included; a parsed value that is not a dict makes the request raise
    AttributeError; a Brief is returned only from two validated models, and
    the insight model is the validated dict of the extraction chain, never
    a substitute. *)
Theorem extraction_failure_fails_the_request (w : World)
    (meeting_id meeting_title : string) (meeting_date : datetime)
    (participants : list string) (meeting_description : option string)
    (include_email include_crm include_calendar : bool) (lookback_days : Z)
    (context : GatheredContext.t) (meeting_notes : list (gmap string value)) :
  gather w meeting_title meeting_date participants meeting_description
    lookback_days include_email include_crm include_calendar = Ok context ->
  meeting_notes_of (GatheredContext.calendar_events context) = Ok meeting_notes ->
  let extracted :=
    extract w (GatheredContext.email_threads context) meeting_notes
      (Some ("Preparing for meeting: " ++ meeting_title)%string) in
  let generated := generate w meeting_title meeting_date meeting_description context in
  let outcome :=
    generate_brief w meeting_id meeting_title meeting_date participants
      meeting_description include_email include_crm include_calendar lookback_days in
  (forall e, extracted = Raise e -> outcome = Raise e)
  /\ (forall r e, extracted = Ok r -> generated = Raise e -> outcome = Raise e)
  /\ (forall v g, extracted = Ok (Passthrough v) -> generated = Ok g ->
                  outcome = Raise AttributeError)
  /\ (forall r v, extracted = Ok r -> generated = Ok (Passthrough v) ->
                  outcome = Raise AttributeError)
  /\ (forall e, (forall inputs, chain_ainvoke w InsightExtractor inputs = Raise e) ->
                exists e', outcome = Raise e')
  /\ (forall e rendered rendered',
        email_interactions (take 15 (GatheredContext.email_threads context)) []
        = Ok rendered ->
        meeting_interactions (take 10 meeting_notes) rendered = Ok rendered' ->
        (forall inputs, chain_ainvoke w InsightExtractor inputs = Raise e) ->
        outcome = Raise e)
  /\ (forall b, outcome = Ok b ->
                exists m g inputs d,
                  extracted = Ok (Model m) /\ generated = Ok (Model g)
                  /\ chain_ainvoke w InsightExtractor inputs = Ok (VDict d)
                  /\ InsightExtractionResult.of_dict d = Ok m).
Proof.
  intros Hg Hn. cbv zeta.
  rewrite (generate_brief_after_gather _ meeting_id _ _ _ _ _ _ _ _ _ _ Hg Hn).
  repeat split.
  - intros e ->. reflexivity.
  - intros r e -> ->. reflexivity.
  - intros v g -> ->. rewrite !bind_Ok_l. by destruct g.
  - intros r v -> ->. reflexivity.
  - intros e Hraise.
    destruct (extract_chain_raises w (GatheredContext.email_threads context)
                meeting_notes
                (Some ("Preparing for meeting: " ++ meeting_title)%string) e Hraise)
      as [e' ->].
    by exists e'.
  - intros e rendered rendered' He Hm Hraise.
    by rewrite (extract_raises_chain_error _ _ _ _ e _ _ He Hm Hraise).
  - intros b Hb.
    destruct (extract _ _ _ _) as [[m | v] | e] eqn:He; try discriminate.
    + destruct (generate _ _ _ _ _) as [[g | v] | e]; try discriminate.
      destruct (extract_Model _ _ _ _ _ He) as (inputs & d & Hchain & Hd).
      by exists m, g, inputs, d.
    + destruct (generate _ _ _ _ _) as [[g | v'] | e]; discriminate.
Qed.

(** The caps, on the returned Brief. *)
Lemma generate_brief_caps (w : World) (meeting_id meeting_title : string)
    (meeting_date : datetime) (participants : list string)
    (meeting_description : option string)
    (include_email include_crm include_calendar : bool) (lookback_days : Z)
    (b : Brief.t) :
  generate_brief w meeting_id meeting_title meeting_date participants
    meeting_description include_email include_crm include_calendar lookback_days
  = Ok b ->
  length (Brief.open_action_items b) <= 10
  /\ length (Brief.talking_points b) <= 8
  /\ length (Brief.risks_opportunities b) <= 6.
Proof.
  unfold generate_brief. cbv zeta. intros Hb.
  do 11 inv_bind Hb. inversion Hb; subst b; simpl.
  split; [| split].
  - by eapply merge_action_items_length.
  - by eapply enhance_talking_points_length.
  - by eapply merge_risks_opportunities_length.
Qed.

End Pipeline.

(** * Worked examples *)

Section Examples.
#[local] Existing Instance example_builtins.

Example str_take_3 : str_take 3 "abcdef" = "abc".
Proof. reflexivity. Qed.

Example dedup_key_case : dedup_key "Send Proposal" = "send proposal".
Proof. reflexivity. Qed.

(** The three example drafts validate; the second repeats the key of the
    first and the first insight repeats it again, so the merge keeps the
    first and third drafts and the second insight. *)
Lemma merge_action_items_is_reference_witness :
  validated draft_action_item ex_brief_items ex_drafts
  /\ _merge_action_items ex_brief_items ex_insight_items
     = Ok (action_items_reference ex_drafts ex_insight_items).
Proof.
  assert (validated draft_action_item ex_brief_items ex_drafts) as Hv
    by (repeat constructor).
  split; [exact Hv |].
  exact (proj1 (merge_action_items_is_reference
                  ex_brief_items ex_drafts ex_insight_items Hv)).
Defined.

Example merge_action_items_example :
  _merge_action_items ex_brief_items ex_insight_items
  = Ok [ ActionItem.mk "Send proposal to Acme" (Some "alice") None "open" (Some "email");
         ActionItem.mk "Follow up next week" None None "open" None;
         ActionItem.mk "Schedule demo" (Some "carol") None "in_progress"
           (Some "meeting") ].
Proof. vm_compute. reflexivity. Qed.

(** Twelve drafts with distinct descriptions: the first ten come back and
    the insight-derived item is dropped. *)
Example merge_action_items_cap :
  let descriptions :=
    ["a1"; "a2"; "a3"; "a4"; "a5"; "a6"; "a7"; "a8"; "a9"; "a10"; "a11"; "a12"] in
  _merge_action_items
    ((fun d => dict_of [("description", VStr d)]) <$> descriptions)
    ex_insight_items
  = Ok ((fun d => ActionItem.mk d None None "open" None) <$> take 10 descriptions).
Proof. vm_compute. reflexivity. Qed.

(** C3, as stated, fails: two draft talking points whose topics differ in
    case only both come back, with the same dedup key. *)
Lemma talking_points_share_a_key :
  _enhance_talking_points dup_points no_insights
  = Ok [ TalkingPoint.mk "Pricing" "" "medium" None;
         TalkingPoint.mk "PRICING" "again" "medium" None ]
  /\ talking_point_key (TalkingPoint.mk "Pricing" "" "medium" None)
     = talking_point_key (TalkingPoint.mk "PRICING" "again" "medium" None)
  /\ ~ NoDup (talking_point_key <$>
                [ TalkingPoint.mk "Pricing" "" "medium" None;
                  TalkingPoint.mk "PRICING" "again" "medium" None ]).
Proof.
  split; [vm_compute; reflexivity | split; [vm_compute; reflexivity |]].
  intros Hnd. apply NoDup_cons in Hnd as [Hnin _]. apply Hnin.
  vm_compute. constructor.
Qed.

Lemma talking_points_distinct_when_candidates_distinct_witness :
  _enhance_talking_points ex_points ex_insights
  = Ok (take 8 (ex_draft_points
                ++ [address_concern_point ex_concern]
                ++ [explore_opportunity_point ex_opportunity]))
  /\ exists l, _enhance_talking_points ex_points ex_insights = Ok l
               /\ NoDup (talking_point_key <$> l).
Proof.
  destruct (talking_points_distinct_when_candidates_distinct
              ex_points ex_draft_points ex_insights)
    as (Heq & _ & Hnd & _); [repeat constructor |].
  split; [exact Heq |].
  apply Hnd. apply (bool_decide_unpack _). vm_compute. exact I.
Defined.

Lemma enhance_talking_points_is_reference_witness :
  _enhance_talking_points ex_points ex_insights
  = Ok (take 8 (ex_draft_points
                ++ [address_concern_point ex_concern]
                ++ [explore_opportunity_point ex_opportunity])).
Proof.
  refine (proj1 (enhance_talking_points_is_reference
                   ex_points ex_draft_points ex_insights _)).
  repeat constructor.
Defined.

Lemma merge_risks_opportunities_is_reference_witness :
  _merge_risks_opportunities ex_existing [ex_concern] [ex_opportunity]
  = Ok (take 6 (ex_draft_risks
                ++ [insight_record "risk" ex_concern]
                ++ [insight_record "opportunity" ex_opportunity])).
Proof.
  refine (proj1 (merge_risks_opportunities_is_reference
                   ex_existing ex_draft_risks [ex_concern] [ex_opportunity] _)).
  repeat constructor.
Defined.

(** C6: the returned Brief carries neither the elapsed time nor the sources.
    A run that takes 3.5 seconds and accesses no source and a run that takes
    60 seconds and accesses "email" return the same Brief. *)
Theorem generate_brief_drops_time_and_sources :
  ex_generate_brief w_plain = Ok ex_brief
  /\ ex_generate_brief w_email = Ok ex_brief
  /\ PrimFloat.sub (time_end w_plain) (time_start w_plain) = 3.5%float
  /\ PrimFloat.sub (time_end w_email) (time_start w_email) = 60%float
  /\ ex_gather w_plain true true true = Ok (ex_context [] 0.5 [])
  /\ ex_gather w_email true true true = Ok (ex_context [] 0.5 ["email"]).
Proof. repeat split; vm_compute; reflexivity. Qed.

(** The extraction chain's output does not parse: the request raises the
    parser's exception. *)
Lemma extraction_failure_fails_the_request_witness :
  ex_generate_brief w_malformed = Raise OutputParserException.
Proof.
  refine (proj1 (extraction_failure_fails_the_request w_malformed
                   "m-1" "Acme renewal" 1700600000000000%Z ["alice@acme.com"] None
                   true true true 30%Z (ex_context [] 0.5 []) [] _ _)
            OutputParserException _);
    vm_compute; reflexivity.
Defined.

(** C8, as stated, fails: the calendar fetch raises and the email fetch
    returns a thread, yet the returned context holds an event, the one the
    gatherer's chain answered with. *)
Lemma calendar_events_not_empty_after_fetch_error :
  (forall time_min time_max,
     list_events failing_calendar time_min time_max
     = Raise (ExternalError "calendar unavailable"))
  /\ gather_calendar_context w_calendar_down ["alice@acme.com"] 30 = []
  /\ nonempty (gather_email_context w_calendar_down ["alice@acme.com"] 30) = true
  /\ ex_gather w_calendar_down true true true
     = Ok (ex_context [invented_event] 0 ["email"])
  /\ GatheredContext.calendar_events (ex_context [invented_event] 0 ["email"]) <> [].
Proof.
  split; [reflexivity |].
  split; [vm_compute; reflexivity |].
  split; [vm_compute; reflexivity |].
  split; [vm_compute; reflexivity | discriminate].
Qed.

Lemma fetch_errors_are_isolated_witness :
  gather_calendar_context w_calendar_down ["alice@acme.com"] 30 = []
  /\ ex_gather w_calendar_down true true true
     = ex_gather (without_calendar w_calendar_down) true true true.
Proof.
  assert (mcp_calendar (mcp w_calendar_down)
          = Some {| enabled := true; client := failing_calendar |}) as Hi
    by reflexivity.
  assert (forall time_min time_max,
            exists e, list_events failing_calendar time_min time_max = Raise e)
    as Hraise by (intros; eexists; reflexivity).
  pose proof (proj1 (proj2 (fetch_errors_are_isolated w_calendar_down
                              "Acme renewal" 1700600000000000%Z ["alice@acme.com"]
                              None 30%Z true true true))
                _ Hi Hraise) as (Hcal & Hsame & _).
  exact (conj Hcal Hsame).
Defined.

(** An email fetch that raises for the second participant: the thread found
    for the first one stays, and "email" is listed. *)
Example email_fetch_error_keeps_partial :
  search_emails flaky_email_client "from:bob@acme.com OR to:bob@acme.com" ""
  = Raise (ExternalError "mailbox unavailable")
  /\ gather_email_context w_flaky_email ["alice@acme.com"; "bob@acme.com"] 30
     = [VDict (dict_of [("subject", VStr "Renewal")])]
  /\ gather w_flaky_email "Acme renewal" 1700600000000000%Z
       ["alice@acme.com"; "bob@acme.com"] None 30 true true true
     = Ok (ex_context [] 0.5 ["email"]).
Proof. repeat split; vm_compute; reflexivity. Qed.

(** C9, as stated, fails: the chain scores the data 2.0 and the returned
    context carries 2.0, above 1; on the same request the chain scores
    0.25 on another run, and the two scores differ. *)
Lemma data_quality_score_out_of_range :
  ex_gather (w_score 2) true true true = Ok (ex_context [] 2 [])
  /\ PrimFloat.leb 2 1 = false
  /\ ex_gather (w_score 0.25) true true true = Ok (ex_context [] 0.25 [])
  /\ PrimFloat.eqb 2 0.25 = false.
Proof. repeat split; vm_compute; reflexivity. Qed.

Lemma data_quality_score_is_the_chain_value_witness :
  exists inputs d,
    chain_ainvoke (w_score 2) ContextGatherer inputs = Ok (VDict d)
    /\ field_default validate_float 0%float d "data_quality_score" = Ok 2%float.
Proof.
  refine (data_quality_score_is_the_chain_value (w_score 2)
            "Acme renewal" 1700600000000000%Z ["alice@acme.com"] None 30%Z
            true true true (ex_context [] 2 []) _).
  vm_compute. reflexivity.
Defined.

End Examples.

(** * Further properties of the assembler *)

Section AssemblerMore.
Context `{Builtins}.

(** On drafts that validate, the merge is the capped double walk. *)
Lemma merge_action_items_walk (brief_items : list (gmap string value))
    (drafts : list ActionItem.t) (insight_items : list ExtractedInsight.t) :
  validated draft_action_item brief_items drafts ->
  _merge_action_items brief_items insight_items
  = Ok (take 10
          (insert_unseen (insight_action_item <$> insight_items)
             (insert_unseen drafts [] []).1 (insert_unseen drafts [] []).2).1).
Proof.
  intros Hv. unfold _merge_action_items.
  destruct (merge_brief_items_reference brief_items drafts [] ∅ [] Hv)
    as (seen & Hb & Hs); [by intros k; rewrite elem_of_nil |].
  rewrite Hb, bind_Ok_l.
  destruct (merge_insight_items_reference insight_items
              (insert_unseen drafts [] []).1 seen (insert_unseen drafts [] []).2 Hs)
    as (seen' & Hi & _).
  by rewrite Hi.
Qed.

(** Candidates with pairwise distinct, unseen keys are all inserted. *)
Lemma insert_unseen_fresh_prefix (fresh rest merged : list ActionItem.t)
    (seen : list string) :
  NoDup (action_item_key <$> fresh) ->
  (forall a, a ∈ fresh -> action_item_key a ∉ seen) ->
  exists seen',
    insert_unseen (fresh ++ rest) merged seen = insert_unseen rest (merged ++ fresh) seen'.
Proof.
  revert merged seen.
  induction fresh as [|a fresh IH]; intros merged seen Hnd Hfresh.
  - exists seen. by rewrite app_nil_r.
  - rewrite fmap_cons in Hnd. apply NoDup_cons in Hnd as [Ha Hnd].
    cbn [app insert_unseen].
    rewrite bool_decide_eq_false_2 by (apply Hfresh; by left).
    destruct (IH (merged ++ [a]) (action_item_key a :: seen) Hnd) as [seen' ->].
    + intros b Hb [Hk | Hk]%elem_of_cons.
      * apply Ha. rewrite <- Hk. by apply list_elem_of_fmap_2.
      * eapply Hfresh; [by right | done].
    + exists seen'. by rewrite <- app_assoc.
Qed.

(** Candidates whose keys are all seen leave the walk where it is. *)
Lemma insert_unseen_all_seen (candidates merged : list ActionItem.t)
    (seen : list string) :
  (forall a, a ∈ candidates -> action_item_key a ∈ seen) ->
  insert_unseen candidates merged seen = (merged, seen).
Proof.
  induction candidates as [|a rest IH]; intros Hseen; [done |].
  cbn [insert_unseen]. rewrite bool_decide_eq_true_2 by (apply Hseen; by left).
  apply IH. intros b Hb. apply Hseen. by right.
Qed.

(** After a walk, the seen keys are the keys of the merged items. *)
Lemma insert_unseen_seen (candidates merged : list ActionItem.t) (seen : list string) :
  (forall k, k ∈ seen <-> k ∈ action_item_key <$> merged) ->
  forall k, k ∈ (insert_unseen candidates merged seen).2
            <-> k ∈ action_item_key <$> (insert_unseen candidates merged seen).1.
Proof.
  revert merged seen.
  induction candidates as [|a rest IH]; intros merged seen Hs; [done |].
  cbn [insert_unseen]. case_bool_decide; [by apply IH |].
  apply IH. intros k.
  rewrite fmap_app, elem_of_app, elem_of_cons, (Hs k). simpl.
  rewrite list_elem_of_singleton. tauto.
Qed.

(** When the first ten drafts have pairwise distinct keys, the merged list
    is exactly these ten: later drafts and every insight are left out. *)
Theorem ten_distinct_drafts_fill_the_cap (brief_items : list (gmap string value))
    (drafts : list ActionItem.t) (insight_items : list ExtractedInsight.t) :
  validated draft_action_item brief_items drafts ->
  10 <= length drafts ->
  NoDup (action_item_key <$> take 10 drafts) ->
  _merge_action_items brief_items insight_items = Ok (take 10 drafts).
Proof.
  intros Hv Hlen Hnd. rewrite (merge_action_items_walk _ _ _ Hv). f_equal.
  destruct (insert_unseen_extends (insight_action_item <$> insight_items)
              (insert_unseen drafts [] []).1 (insert_unseen drafts [] []).2)
    as (derived & -> & _).
  rewrite <- (take_drop 10 drafts) at 1.
  destruct (insert_unseen_fresh_prefix (take 10 drafts) (drop 10 drafts) [] [] Hnd)
    as [seen' ->]; [by intros a _ Hin%elem_of_nil |].
  destruct (insert_unseen_extends (drop 10 drafts) ([] ++ take 10 drafts) seen')
    as (added & -> & _).
  rewrite app_nil_l, <- !app_assoc.
  apply take_app_length'. rewrite length_take. lia.
Qed.

(** A draft whose key is seen, or is the key of an earlier draft, leaves
    the first loop where it is. *)
Lemma merge_brief_items_repeated_key (before after : list (gmap string value))
    (item : gmap string value) (k : string)
    (items : list ActionItem.t) (seen : gset string) :
  slice50_lower (dict_get item "description" (VStr "")) = Ok k ->
  k ∈ seen
  \/ (exists earlier, earlier ∈ before
        /\ slice50_lower (dict_get earlier "description" (VStr "")) = Ok k) ->
  merge_brief_items (before ++ item :: after) items seen
  = merge_brief_items (before ++ after) items seen.
Proof.
  intros Hk. revert items seen.
  induction before as [|b before IH]; intros items seen Hor.
  - destruct Hor as [Hin | (e & He & _)]; [| by apply elem_of_nil in He].
    cbn [app merge_brief_items]. rewrite Hk, bind_Ok_l.
    by destruct (decide (k ∈ seen)).
  - cbn [app merge_brief_items].
    destruct (slice50_lower (dict_get b "description" (VStr ""))) as [kb|e] eqn:Hb;
      [| done].
    rewrite !bind_Ok_l. destruct (decide (kb ∈ seen)) as [Hin | Hnin].
    + apply IH. destruct Hor as [? | (e & [-> | He]%elem_of_cons & Hek)].
      * by left.
      * left. rewrite Hb in Hek. by inversion Hek; subst.
      * right. by exists e.
    + destruct (ActionItem.new _ _ _ _ _) as [ai|e]; [| done].
      rewrite !bind_Ok_l. apply IH.
      destruct Hor as [? | (e & [-> | He]%elem_of_cons & Hek)].
      * left. by apply elem_of_union_r.
      * left. rewrite Hb in Hek. inversion Hek; subst.
        apply elem_of_union_l. by apply elem_of_singleton.
      * right. by exists e.
Qed.

(** A draft whose key was computed for an earlier draft is skipped before
    its fields are validated: removing it changes nothing, whatever it
    holds besides the description. *)
Theorem repeated_draft_is_skipped_unvalidated
    (before after : list (gmap string value)) (earlier item : gmap string value)
    (k : string) (insight_items : list ExtractedInsight.t) :
  earlier ∈ before ->
  slice50_lower (dict_get earlier "description" (VStr "")) = Ok k ->
  slice50_lower (dict_get item "description" (VStr "")) = Ok k ->
  _merge_action_items (before ++ item :: after) insight_items
  = _merge_action_items (before ++ after) insight_items.
Proof.
  intros He Hek Hk. unfold _merge_action_items.
  rewrite (merge_brief_items_repeated_key before after item k [] ∅ Hk); [done |].
  right. by exists earlier.
Qed.

(** Insights whose keys all belong to drafts add nothing. *)
Theorem insights_repeating_drafts_add_nothing (brief_items : list (gmap string value))
    (drafts : list ActionItem.t) (insight_items : list ExtractedInsight.t) :
  validated draft_action_item brief_items drafts ->
  (forall insight, insight ∈ insight_items ->
     dedup_key (ExtractedInsight.content insight) ∈ action_item_key <$> drafts) ->
  _merge_action_items brief_items insight_items = _merge_action_items brief_items [].
Proof.
  intros Hv Hrep. rewrite !(merge_action_items_walk _ _ _ Hv). do 2 f_equal.
  rewrite insert_unseen_all_seen; [done |].
  intros a (insight & -> & Hin)%list_elem_of_fmap.
  apply insert_unseen_seen; [done |].
  specialize (Hrep insight Hin).
  apply list_elem_of_fmap in Hrep as (d & Hkey & Hd).
  change (action_item_key (insight_action_item insight))
    with (dedup_key (ExtractedInsight.content insight)).
  rewrite Hkey.
  by apply (insert_unseen_first_occurrences drafts [] []); [| constructor |].
Qed.

(** ** Talking points and risks: what is read and what is kept *)

(** Only the first 3 concerns and the first 2 opportunities of the insight
    bundle are read; its other fields, and later concerns and
    opportunities, do not reach the talking points. *)
Lemma talking_points_read_bounded_insights (points : list (gmap string value))
    (insights insights' : InsightExtractionResult.t) :
  take 3 (InsightExtractionResult.concerns insights)
  = take 3 (InsightExtractionResult.concerns insights') ->
  take 2 (InsightExtractionResult.opportunities insights)
  = take 2 (InsightExtractionResult.opportunities insights') ->
  _enhance_talking_points points insights = _enhance_talking_points points insights'.
Proof.
  intros Hc Ho. unfold _enhance_talking_points. by rewrite Hc, Ho.
Qed.

Lemma take_length_take_app {A : Type} (n : nat) (front back : list A) :
  take (length front) (take n (front ++ back)) = take n front.
Proof.
  rewrite take_take. destruct (decide (n <= length front)).
  - rewrite Nat.min_r by lia. by apply take_app_le.
  - rewrite Nat.min_l by lia. rewrite take_app_length. by rewrite take_ge by lia.
Qed.

(** With 8 or more draft points, or 6 or more draft risks, the result is
    the first 8 (6) drafts and no insight-derived entry; with fewer, every
    draft is kept, in order, in front. *)
Theorem drafts_come_first (points existing : list (gmap string value))
    (draft_points : list TalkingPoint.t) (draft_risks : list RiskOpportunity.t)
    (insights : InsightExtractionResult.t)
    (concerns opportunities : list ExtractedInsight.t) :
  validated draft_talking_point points draft_points ->
  validated draft_risk_opportunity existing draft_risks ->
  (exists l, _enhance_talking_points points insights = Ok l
             /\ take (length draft_points) l = take 8 draft_points
             /\ (8 <= length draft_points -> l = take 8 draft_points))
  /\ (exists l, _merge_risks_opportunities existing concerns opportunities = Ok l
                /\ take (length draft_risks) l = take 6 draft_risks
                /\ (6 <= length draft_risks -> l = take 6 draft_risks)).
Proof.
  intros Hp Hr. split.
  - exists (talking_points_reference draft_points insights).
    split; [apply enhance_talking_points_Ok; by exists draft_points |].
    unfold talking_points_reference, talking_point_candidates.
    split; [apply take_length_take_app |].
    intros Hlen. by rewrite take_app_le.
  - exists (risks_opportunities_reference draft_risks concerns opportunities).
    split; [apply merge_risks_opportunities_Ok; by exists draft_risks |].
    unfold risks_opportunities_reference.
    split; [apply take_length_take_app |].
    intros Hlen. by rewrite take_app_le.
Qed.

Lemma str_take_length (n : nat) (s : string) : String.length (str_take n s) <= n.
Proof.
  revert s. induction n as [|n IH]; intros s; [done |].
  destruct s as [|c s].
  - change (str_take (S n) "") with "". cbn. lia.
  - change (str_take (S n) (String c s)) with (String c (str_take n s)).
    cbn. specialize (IH s). lia.
Qed.

Lemma string_app_length (s1 s2 : string) :
  String.length (s1 ++ s2)%string = String.length s1 + String.length s2.
Proof.
  induction s1 as [|c s1 IH]; [reflexivity |].
  change (S (String.length (s1 ++ s2)%string)
          = S (String.length s1) + String.length s2).
  rewrite IH. reflexivity.
Qed.

Lemma Forall_drop_take_app {A : Type} (P : A -> Prop) (n : nat) (front back : list A) :
  Forall P back -> Forall P (drop (length front) (take n (front ++ back))).
Proof.
  intros Hb. rewrite take_app. destruct (decide (length front <= n)).
  - rewrite (take_ge front) by lia. rewrite drop_app_length. by apply Forall_take.
  - rewrite drop_ge; [constructor |].
    rewrite length_app, !length_take. lia.
Qed.

(** The texts generated from insights are bounded: the topic of a point
    made from a concern or an opportunity has at most 71 characters (the
    longer prefix, 21 characters, and 50 of the content), and the title of
    a risk or opportunity record at most 50. Draft texts are not cut. *)
Theorem generated_texts_are_bounded (points existing : list (gmap string value))
    (insights : InsightExtractionResult.t)
    (concerns opportunities : list ExtractedInsight.t) :
  (forall l, _enhance_talking_points points insights = Ok l ->
     exists draft_points,
       validated draft_talking_point points draft_points
       /\ Forall (fun tp => String.length (TalkingPoint.topic tp) <= 71)
            (drop (length draft_points) l))
  /\ (forall l, _merge_risks_opportunities existing concerns opportunities = Ok l ->
       exists draft_risks,
         validated draft_risk_opportunity existing draft_risks
         /\ Forall (fun r => String.length (RiskOpportunity.title r) <= 50)
              (drop (length draft_risks) l)).
Proof.
  split; intros l Hl.
  - apply enhance_talking_points_Ok in Hl as (drafts & Hv & ->).
    exists drafts. split; [done |].
    unfold talking_points_reference, talking_point_candidates.
    apply Forall_drop_take_app, Forall_app. split; apply Forall_fmap, Forall_forall;
      intros i _; cbn; rewrite string_app_length;
      pose proof (str_take_length 50 (ExtractedInsight.content i)); cbn; lia.
  - apply merge_risks_opportunities_Ok in Hl as (drafts & Hv & ->).
    exists drafts. split; [done |].
    unfold risks_opportunities_reference.
    apply Forall_drop_take_app, Forall_app. split; apply Forall_fmap, Forall_forall;
      intros i _; cbn; apply str_take_length.
Qed.

End AssemblerMore.

(** * Further properties of the orchestrator *)

Section CrmContext.
Context `{Builtins}.

Lemma contact_lines_Ok (cs : list value) (parts parts' : list string) :
  contact_lines cs parts = Ok parts' ->
  exists ds, cs = VDict <$> ds /\ parts' = parts ++ (contact_line <$> ds).
Proof.
  revert parts. induction cs as [|c cs IH]; intros parts Hc; cbn [contact_lines] in Hc.
  - inversion Hc. exists []. by rewrite app_nil_r.
  - inv_bind Hc. destruct c; try discriminate. inversion Hr; subst r.
    apply IH in Hc as (ds & -> & ->). exists (d :: ds). by rewrite <- app_assoc.
Qed.

Lemma contact_lines_dicts (ds : list (gmap string value)) (parts : list string) :
  contact_lines (VDict <$> ds) parts = Ok (parts ++ (contact_line <$> ds)).
Proof.
  revert parts. induction ds as [|d ds IH]; intros parts.
  - by rewrite app_nil_r.
  - rewrite fmap_cons. cbn [contact_lines py_dict]. rewrite bind_Ok_l, IH.
    by rewrite <- app_assoc.
Qed.

Lemma deal_lines_Ok (cs : list value) (parts parts' : list string) :
  deal_lines cs parts = Ok parts' ->
  exists ds, cs = VDict <$> ds /\ parts' = parts ++ (deal_line <$> ds).
Proof.
  revert parts. induction cs as [|c cs IH]; intros parts Hc; cbn [deal_lines] in Hc.
  - inversion Hc. exists []. by rewrite app_nil_r.
  - inv_bind Hc. destruct c; try discriminate. inversion Hr; subst r.
    apply IH in Hc as (ds & -> & ->). exists (d :: ds). by rewrite <- app_assoc.
Qed.

Lemma deal_lines_dicts (ds : list (gmap string value)) (parts : list string) :
  deal_lines (VDict <$> ds) parts = Ok (parts ++ (deal_line <$> ds)).
Proof.
  revert parts. induction ds as [|d ds IH]; intros parts.
  - by rewrite app_nil_r.
  - rewrite fmap_cons. cbn [deal_lines py_dict]. rewrite bind_Ok_l, IH.
    by rewrite <- app_assoc.
Qed.

(** A truthy value that takes a slice and iterates has a first element. *)
Lemma truthy_slice_iter (v v' : value) (l : list value) :
  truthy v = true -> py_slice 3 v = Ok v' -> py_iter v' = Ok l -> l <> [].
Proof.
  intros Ht Hs Hi. destruct v; try discriminate; cbn in Hs; inversion Hs; subst v'.
  - destruct s as [|c s]; [discriminate |].
    change (str_take 3 (String c s)) with (String c (str_take 2 s)) in Hi.
    cbn in Hi. by inversion Hi.
  - destruct l0 as [|x l0]; [discriminate |]. cbn in Hi. by inversion Hi.
Qed.

(** The CRM block is absent exactly when [crm_data] holds no contacts:
    deals alone give no block, and contacts always give one. *)
Theorem format_crm_context_none_iff (crm_data : gmap string value)
    (block : option string) :
  _format_crm_context crm_data = Ok block ->
  (block = None <-> truthy (dict_get crm_data "contacts" VNone) = false).
Proof.
  unfold _format_crm_context. intros Hf.
  destruct (truthy (dict_get crm_data "contacts" VNone)) eqn:Hc.
  - destruct (truthy (VDict crm_data)) eqn:Hd.
    + cbn [negb orb] in Hf. do 6 inv_bind Hf.
      replace (dict_get crm_data "contacts" (VList []))
        with (dict_get crm_data "contacts" VNone) in Hr.
      2:{ unfold dict_get in *. by destruct (crm_data !! "contacts"). }
      pose proof (truthy_slice_iter _ _ _ Hc Hr Hr0) as Hne.
      apply contact_lines_Ok in Hr1 as (cs & -> & ->).
      apply deal_lines_Ok in Hr4 as (ds & -> & ->).
      destruct cs as [|c cs]; [done |].
      rewrite bool_decide_eq_false_2 in Hf by done.
      inversion Hf. split; discriminate.
    + cbn in Hd. apply negb_false_iff, bool_decide_eq_true in Hd. subst crm_data.
      unfold dict_get in Hc. by rewrite lookup_empty in Hc.
  - rewrite orb_true_r in Hf. by inversion Hf.
Qed.

(** With a non-empty contact list whose first three entries are dicts, and
    a deal list (empty when the key is absent) whose first three entries
    are dicts, the block is the contact lines followed by the deal lines,
    one per line; entries after the third are not read. *)
Theorem format_crm_context_block (crm_data : gmap string value)
    (cs ds : list value) (contacts3 deals3 : list (gmap string value)) :
  crm_data !! "contacts" = Some (VList cs) ->
  dict_get crm_data "deals" (VList []) = VList ds ->
  cs <> [] ->
  take 3 cs = VDict <$> contacts3 ->
  take 3 ds = VDict <$> deals3 ->
  _format_crm_context crm_data
  = Ok (Some (str_join nl ((contact_line <$> contacts3) ++ (deal_line <$> deals3)))).
Proof.
  intros Hc Hd Hne Hc3 Hd3. unfold _format_crm_context. rewrite Hd.
  unfold dict_get. rewrite Hc. cbn [default id].
  assert (truthy (VDict crm_data) = true) as ->.
  { cbn. apply negb_true_iff, bool_decide_eq_false. intros ->.
    by rewrite lookup_empty in Hc. }
  assert (truthy (VList cs) = true) as -> by (by destruct cs).
  cbn [negb orb py_slice py_iter]. rewrite !bind_Ok_l, Hc3, Hd3.
  cbn [py_iter]. rewrite bind_Ok_l, contact_lines_dicts, !bind_Ok_l.
  cbn [py_iter]. rewrite bind_Ok_l, deal_lines_dicts, bind_Ok_l. cbn [app].
  destruct contacts3 as [|c contacts3]; [by destruct cs |].
  by rewrite bool_decide_eq_false_2.
Qed.

End CrmContext.

(** * Further properties of the context gatherer *)

(** ** Validation raises the validation error only *)

Lemma bind_Raise {A B : Type} (r : result A) (k : A -> result B) (e : exn) :
  r ≫= k = Raise e -> r = Raise e \/ exists a, r = Ok a /\ k a = Raise e.
Proof. destruct r as [a|e']; cbn; [eauto | intros [= ->]; by left]. Qed.

Lemma validate_str_raises : raises_only_ValidationError validate_str.
Proof. intros v e. destruct v; cbn; congruence. Qed.

Lemma validate_opt_str_raises : raises_only_ValidationError validate_opt_str.
Proof. intros v e. destruct v; cbn; congruence. Qed.

Lemma validate_dict_raises : raises_only_ValidationError validate_dict.
Proof. intros v e. destruct v; cbn; congruence. Qed.

Lemma validate_float_raises `{Builtins} : raises_only_ValidationError validate_float.
Proof. intros v e. destruct v; cbn; try destruct (lax_float _); congruence. Qed.

Lemma validate_each_raises {A : Type} (f : value -> result A) (l : list value)
    (e : exn) :
  raises_only_ValidationError f ->
  validate_each f l = Raise e -> e = ValidationError.
Proof.
  intros Hf. induction l as [|v l IH]; cbn [validate_each]; [done |].
  intros [Hv | (a & _ & Hr)]%bind_Raise; [by eapply Hf |].
  apply bind_Raise in Hr as [Hr | (r & _ & Hr)]; [by apply IH | done].
Qed.

Lemma validate_list_raises {A : Type} (f : value -> result A) :
  raises_only_ValidationError f -> raises_only_ValidationError (validate_list f).
Proof.
  intros Hf v e. destruct v; cbn; try congruence. by apply validate_each_raises.
Qed.

Lemma field_default_raises {A : Type} (f : value -> result A) (dflt : A)
    (d : gmap string value) (k : string) (e : exn) :
  raises_only_ValidationError f ->
  field_default f dflt d k = Raise e -> e = ValidationError.
Proof. intros Hf. unfold field_default. destruct (d !! k); [apply Hf | done]. Qed.

Lemma field_required_raises {A : Type} (f : value -> result A)
    (d : gmap string value) (k : string) (e : exn) :
  raises_only_ValidationError f ->
  field_required f d k = Raise e -> e = ValidationError.
Proof.
  intros Hf. unfold field_required. destruct (d !! k); [apply Hf | congruence].
Qed.

(** Peels the fields of a model's validation off a failure. *)
Ltac validation_raises He :=
  repeat (apply bind_Raise in He as [He | (? & _ & He)];
          [ first [ eapply field_default_raises in He
                  | eapply field_required_raises in He ];
            [ exact He
            | eauto using validate_str_raises, validate_opt_str_raises,
                validate_dict_raises, validate_float_raises, validate_list_raises ]
          | ]);
  try discriminate.

Section GathererMore.
Context `{Builtins}.

(** With the three toggles off no integration is consulted: the outcome
    is the same whatever integrations are configured, and a returned
    context lists no source. *)
Theorem gather_all_toggles_off (w : World) (m : Mcp) (meeting_title : string)
    (meeting_date : datetime) (participants : list string)
    (meeting_description : option string) (lookback_days : Z) :
  gather w meeting_title meeting_date participants meeting_description
    lookback_days false false false
  = gather (with_mcp w m) meeting_title meeting_date participants
      meeting_description lookback_days false false false
  /\ forall ctx,
       gather w meeting_title meeting_date participants meeting_description
         lookback_days false false false = Ok ctx ->
       GatheredContext.sources_accessed ctx = [].
Proof.
  split; [reflexivity |].
  intros ctx Hg. apply gather_Ok in Hg as (inputs & d & _ & Hd).
  by apply GatheredContext_of_dict_sources in Hd as (Hs & _ & _).
Qed.

(** The sources a returned context lists, whatever the chain wrote under
    "sources_accessed": each source is listed exactly when its toggle is on
    and its gatherer found something, and the list is a sublist of
    email, calendar, crm in this order. *)
Theorem sources_accessed_characterised (w : World) (meeting_title : string)
    (meeting_date : datetime) (participants : list string)
    (meeting_description : option string) (lookback_days : Z)
    (include_email include_crm include_calendar : bool) (ctx : GatheredContext.t) :
  gather w meeting_title meeting_date participants meeting_description
    lookback_days include_email include_crm include_calendar = Ok ctx ->
  ("email" ∈ GatheredContext.sources_accessed ctx
   <-> include_email = true
       /\ gather_email_context w participants lookback_days <> [])
  /\ ("calendar" ∈ GatheredContext.sources_accessed ctx
      <-> include_calendar = true
          /\ gather_calendar_context w participants lookback_days <> [])
  /\ ("crm" ∈ GatheredContext.sources_accessed ctx
      <-> include_crm = true
          /\ contacts (gather_crm_context w participants) <> [])
  /\ GatheredContext.sources_accessed ctx `sublist_of` ["email"; "calendar"; "crm"].
Proof.
  intros Hg. apply gather_Ok in Hg as (inputs & d & _ & Hd).
  apply GatheredContext_of_dict_sources in Hd as (-> & _ & _).
  unfold gathered_sources.
  destruct include_email, include_calendar, include_crm;
    destruct (gather_email_context w participants lookback_days);
    destruct (gather_calendar_context w participants lookback_days);
    destruct (contacts (gather_crm_context w participants));
    cbn [andb nonempty app];
    (split; [| split; [| split]]);
    try (split; [intros Hin | intros [? ?]]; try done;
         repeat match goal with
                | Hin : _ ∈ _ :: _ |- _ => apply elem_of_cons in Hin as [Hin | Hin]
                | Hin : _ ∈ [] |- _ => by apply elem_of_nil in Hin
                end; try done;
         rewrite ?elem_of_cons; auto);
    repeat first [ apply sublist_nil_l | apply sublist_skip | apply sublist_cons ].
Qed.

(** A source name is not in a list made of the other two names. *)
Ltac source_not_listed Hs :=
  rewrite Hs;
  repeat match goal with
         | |- context [if ?c then _ else _] => destruct c
         end;
  cbn [app]; rewrite ?elem_of_cons, elem_of_nil; intros Hin;
  repeat destruct Hin as [Hin | Hin]; done.

(** An integration that is absent or not enabled is never consulted, and
    its source is never listed; with no integration at all, as when the
    orchestrator is built without arguments, no source is ever listed. *)
Theorem unconfigured_sources_are_not_listed (w : World) (meeting_title : string)
    (meeting_date : datetime) (participants : list string)
    (meeting_description : option string) (lookback_days : Z)
    (include_email include_crm include_calendar : bool) (ctx : GatheredContext.t) :
  gather w meeting_title meeting_date participants meeting_description
    lookback_days include_email include_crm include_calendar = Ok ctx ->
  (from_option enabled false (mcp_email (mcp w)) = false ->
   "email" ∉ GatheredContext.sources_accessed ctx)
  /\ (from_option enabled false (mcp_calendar (mcp w)) = false ->
      "calendar" ∉ GatheredContext.sources_accessed ctx)
  /\ (from_option enabled false (mcp_crm (mcp w)) = false ->
      "crm" ∉ GatheredContext.sources_accessed ctx)
  /\ (mcp w = {| mcp_email := None; mcp_calendar := None; mcp_crm := None |} ->
      GatheredContext.sources_accessed ctx = []).
Proof.
  intros Hg. apply gather_Ok in Hg as (inputs & d & _ & Hd).
  apply GatheredContext_of_dict_sources in Hd as (Hs & _ & _).
  unfold gathered_sources in Hs.
  split; [| split; [| split]].
  - intros Hoff.
    assert (gather_email_context w participants lookback_days = []) as Hnone.
    { unfold gather_email_context.
      destruct (mcp_email (mcp w)) as [i|]; [| done]. cbn in Hoff. by rewrite Hoff. }
    rewrite Hnone, andb_false_r in Hs. cbn [app] in Hs. source_not_listed Hs.
  - intros Hoff.
    assert (gather_calendar_context w participants lookback_days = []) as Hnone.
    { unfold gather_calendar_context.
      destruct (mcp_calendar (mcp w)) as [i|]; [| done]. cbn in Hoff. by rewrite Hoff. }
    rewrite Hnone, andb_false_r in Hs. cbn [app] in Hs. source_not_listed Hs.
  - intros Hoff.
    assert (contacts (gather_crm_context w participants) = []) as Hnone.
    { unfold gather_crm_context.
      destruct (mcp_crm (mcp w)) as [i|]; [| done]. cbn in Hoff. by rewrite Hoff. }
    rewrite Hnone, andb_false_r, app_nil_r in Hs. source_not_listed Hs.
  - intros Hm. rewrite Hs. unfold gather_email_context,
      gather_calendar_context, gather_crm_context. rewrite Hm. cbn.
    by rewrite !andb_false_r.
Qed.

(** ** The three gatherers *)

Lemma fetch_emails_extends (c : EmailClient) (since : string)
    (participants : list string) (email_threads : list value) :
  email_threads `prefix_of` fetch_emails c since participants email_threads.
Proof.
  revert email_threads.
  induction participants as [|p rest IH]; intros email_threads; cbn [fetch_emails].
  - done.
  - destruct (_ ≫= _) as [threads|]; [| done].
    etrans; [| apply IH]. by apply prefix_app_r.
Qed.

Lemma fetch_emails_app (c : EmailClient) (since : string)
    (first more : list string) (email_threads : list value) :
  fetch_emails c since first email_threads
  `prefix_of` fetch_emails c since (first ++ more) email_threads.
Proof.
  revert email_threads.
  induction first as [|p rest IH]; intros email_threads; cbn [app fetch_emails].
  - apply fetch_emails_extends.
  - destruct (_ ≫= _) as [threads|]; [apply IH | done].
Qed.

(** Asking about more participants never loses a thread: what is gathered
    for a list of participants is a prefix of what is gathered when
    further participants follow them. *)
Theorem email_context_grows_with_participants (w : World)
    (first more : list string) (lookback_days : Z) :
  gather_email_context w first lookback_days
  `prefix_of` gather_email_context w (first ++ more) lookback_days.
Proof.
  unfold gather_email_context.
  destruct (mcp_email (mcp w)) as [i|]; [| done].
  destruct (enabled i); [| done].
  destruct (minus_days _ _); [| done].
  apply fetch_emails_app.
Qed.

Lemma attendee_emails_Ok (attendees : list value) (emails : list string) :
  attendee_emails attendees = Ok emails ->
  forall e, e ∈ emails ->
    exists a d, a ∈ attendees /\ a = VDict d
                /\ py_lower (dict_get d "email" (VStr "")) = Ok e.
Proof.
  revert emails. induction attendees as [|a rest IH]; intros emails Ha e He;
    cbn [attendee_emails] in Ha.
  - inversion Ha; subst. by apply elem_of_nil in He.
  - do 3 inv_bind Ha. inversion Ha; subst emails.
    destruct a; try discriminate. inversion Hr; subst r.
    apply elem_of_cons in He as [-> | He].
    + exists (VDict d), d. split; [by left | done].
    + destruct (IH _ Hr1 e He) as (a' & d' & Hin & -> & Hl).
      exists (VDict d'), d'. split; [by right | done].
Qed.

Lemma filter_events_kept (participants : list string)
    (calendar_events events : list value) :
  Forall (fun ev => event_matches participants ev = Ok true) events ->
  Forall (fun ev => event_matches participants ev = Ok true)
    (filter_events participants calendar_events events).
Proof.
  revert events. induction calendar_events as [|ev rest IH]; intros events Hev;
    cbn [filter_events]; [done |].
  destruct (event_matches participants ev) as [[|]|] eqn:Hm; [| by apply IH | done].
  apply IH, Forall_app. split; [done | by constructor].
Qed.

(** Every calendar event kept is a dict with an attendee dict whose
    lower-cased "email" is the lower-cased address of a participant; with
    no participant, no event is kept. *)
Theorem calendar_context_matches_participants (w : World)
    (participants : list string) (lookback_days : Z) :
  (forall ev, ev ∈ gather_calendar_context w participants lookback_days ->
     exists d attendees a ad p,
       ev = VDict d
       /\ py_iter (dict_get d "attendees" (VList [])) = Ok attendees
       /\ a ∈ attendees /\ a = VDict ad /\ p ∈ participants
       /\ py_lower (dict_get ad "email" (VStr "")) = Ok (lower p))
  /\ (participants = [] ->
      gather_calendar_context w participants lookback_days = []).
Proof.
  assert (Forall (fun ev => event_matches participants ev = Ok true)
            (gather_calendar_context w participants lookback_days)) as Hall.
  { unfold gather_calendar_context.
    destruct (mcp_calendar (mcp w)) as [i|]; [| constructor].
    destruct (enabled i); [| constructor].
    destruct (_ ≫= _); [| constructor].
    apply filter_events_kept. constructor. }
  split.
  - intros ev Hev. rewrite Forall_forall in Hall. specialize (Hall ev Hev).
    unfold event_matches in Hall. do 3 inv_bind Hall.
    destruct ev; try discriminate. inversion Hr; subst r.
    injection Hall as Hany. unfold any_participant in Hany.
    apply existsb_exists in Hany as (p & Hp & Hin).
    apply bool_decide_eq_true in Hin. apply list_elem_of_In in Hp.
    destruct (attendee_emails_Ok _ _ Hr1 _ Hin) as (a & ad & Ha & -> & Hl).
    by exists d, r0, (VDict ad), ad, p.
  - intros ->. destruct (gather_calendar_context w [] lookback_days) as [|ev l]; [done |].
    apply Forall_cons in Hall as [Hev _].
    unfold event_matches in Hev. do 3 inv_bind Hev. discriminate.
Qed.

Lemma crm_step_counts (c : CrmClient) (participant : string) (crm_data : CrmData) :
  let out := (crm_step c participant crm_data).1 in
  length (contacts out) <= S (length (contacts crm_data))
  /\ length (accounts out) - length (accounts crm_data)
     <= length (contacts out) - length (contacts crm_data)
  /\ length (accounts crm_data) <= length (accounts out)
  /\ length (contacts crm_data) <= length (contacts out)
  /\ (Forall (fun v => truthy v = true) (contacts crm_data) ->
      Forall (fun v => truthy v = true) (contacts out)).
Proof.
  unfold crm_step. destruct (get_contact_by_email c participant) as [contact|].
  2:{ cbn. repeat split; try lia; done. }
  destruct (truthy contact) eqn:Ht.
  2:{ cbn. repeat split; try lia; done. }
  assert (Forall (fun v => truthy v = true) (contacts crm_data) ->
          Forall (fun v => truthy v = true) (contacts crm_data ++ [contact])) as Hall.
  { intros Hc. apply Forall_app. split; [done | by constructor]. }
  repeat match goal with
         | |- context [match ?r with Ok _ => _ | Raise _ => _ end] => destruct r
         | |- context [if truthy ?v then _ else _] => destruct (truthy v)
         end;
    cbn; rewrite ?length_app; cbn; repeat split; try lia; done.
Qed.

(** What the CRM gatherer collects: at most one contact per participant,
    at most one account per contact, and only contacts that are truthy. *)
Theorem crm_context_counts (w : World) (participants : list string) :
  let crm_data := gather_crm_context w participants in
  length (contacts crm_data) <= length participants
  /\ length (accounts crm_data) <= length (contacts crm_data)
  /\ Forall (fun v => truthy v = true) (contacts crm_data).
Proof.
  cbv zeta.
  assert (forall c ps crm_data,
            length (contacts (fetch_crm c ps crm_data))
            <= length (contacts crm_data) + length ps
            /\ length (accounts (fetch_crm c ps crm_data)) - length (accounts crm_data)
               <= length (contacts (fetch_crm c ps crm_data))
                  - length (contacts crm_data)
            /\ length (accounts crm_data) <= length (accounts (fetch_crm c ps crm_data))
            /\ length (contacts crm_data) <= length (contacts (fetch_crm c ps crm_data))
            /\ (Forall (fun v => truthy v = true) (contacts crm_data) ->
                Forall (fun v => truthy v = true)
                  (contacts (fetch_crm c ps crm_data)))) as Hfetch.
  { intros c ps. induction ps as [|p ps IH]; intros crm_data; cbn [fetch_crm].
    - cbn. repeat split; try lia; done.
    - pose proof (crm_step_counts c p crm_data) as Hstep. cbv zeta in Hstep.
      destruct (crm_step c p crm_data) as [crm_data' [|]]; cbn [fst] in Hstep.
      + specialize (IH crm_data'). cbn [length].
        destruct Hstep as (? & ? & ? & ? & ?), IH as (? & ? & ? & ? & ?).
        repeat split; try lia; auto.
      + cbn [length]. destruct Hstep as (? & ? & ? & ? & ?).
        repeat split; try lia; auto. }
  unfold gather_crm_context.
  destruct (mcp_crm (mcp w)) as [i|]; [| cbn; repeat split; try lia; constructor].
  destruct (enabled i); [| cbn; repeat split; try lia; constructor].
  destruct (Hfetch (client i) participants
              {| contacts := []; deals := []; accounts := [] |})
    as (Hc & Ha & _ & _ & Ht).
  cbn in Hc, Ha. repeat split; [lia | lia | apply Ht; constructor].
Qed.

End GathererMore.

(** * Further properties of the agents and of [generate_brief] *)

Section OrchestratorMore.
Context `{Builtins}.

(** The extractor reads the first 15 threads and the first 10 notes only:
    later records, well-formed or not, do not change its outcome. *)
Theorem extract_reads_bounded_input (w : World)
    (email_threads meeting_notes more_threads more_notes : list (gmap string value))
    (context : option string) :
  15 <= length email_threads ->
  10 <= length meeting_notes ->
  extract w (email_threads ++ more_threads) (meeting_notes ++ more_notes) context
  = extract w email_threads meeting_notes context.
Proof.
  intros Ht Hn. unfold extract.
  by rewrite (take_app_le email_threads), (take_app_le meeting_notes) by lia.
Qed.

(** The brief generator depends on the context through its bounded view:
    two contexts with the same view give the same outcome. *)
Theorem generate_reads_bounded_view (w : World) (meeting_title : string)
    (meeting_date : datetime) (meeting_description : option string)
    (context context' : GatheredContext.t) :
  bounded_view context = bounded_view context' ->
  generate w meeting_title meeting_date meeting_description context
  = generate w meeting_title meeting_date meeting_description context'.
Proof.
  intros Hv. unfold generate. injection Hv as He Hc Hd Hp Hpp Hs Hsa.
  by rewrite He, Hc, Hd, Hp, Hpp, Hs, Hsa.
Qed.

(** ** Meeting notes and profiles *)

Lemma attendee_values_raises (attendees : list value) (e : exn) :
  attendee_values attendees = Raise e -> e = AttributeError.
Proof.
  induction attendees as [|a rest IH]; cbn [attendee_values]; [done |].
  intros [Ha | (d & _ & Hr)]%bind_Raise.
  - destruct a; cbn in Ha; congruence.
  - apply bind_Raise in Hr as [Hr | (? & _ & Hr)]; [by apply IH | done].
Qed.

Lemma meeting_note_raises (event : gmap string value) (e : exn) :
  meeting_note event = Raise e -> e = AttributeError \/ e = TypeError.
Proof.
  unfold meeting_note.
  intros [Hs | (start & _ & Hr)]%bind_Raise.
  - left. destruct (dict_get event "start" (VDict ∅)); cbn in Hs; congruence.
  - apply bind_Raise in Hr as [Hi | (attendees & _ & Hr)].
    + right. destruct (dict_get event "attendees" (VList [])); cbn in Hi; congruence.
    + apply bind_Raise in Hr as [Ha | (? & _ & Hr)]; [| done].
      left. by eapply attendee_values_raises.
Qed.

Lemma meeting_notes_of_raises (events : list (gmap string value))
    (event : gmap string value) (e : exn) :
  event ∈ events -> meeting_note event = Raise e ->
  exists e', meeting_notes_of events = Raise e'
             /\ (e' = AttributeError \/ e' = TypeError).
Proof.
  intros Hin He. induction events as [|ev rest IH]; [by apply elem_of_nil in Hin |].
  cbn [meeting_notes_of].
  destruct (meeting_note ev) as [note|e0] eqn:Hev.
  - apply elem_of_cons in Hin as [-> | Hin]; [congruence |].
    destruct (IH Hin) as (e' & -> & He'). rewrite bind_Ok_l. by exists e'.
  - exists e0. split; [done | by eapply meeting_note_raises].
Qed.

(** A note is built for every event of the gathered context before any
    agent is called: an event, at any position, whose "start" is present
    and not a dict makes the whole request raise. *)
Theorem malformed_event_fails_the_request (w : World)
    (meeting_id meeting_title : string) (meeting_date : datetime)
    (participants : list string) (meeting_description : option string)
    (include_email include_crm include_calendar : bool) (lookback_days : Z)
    (context : GatheredContext.t) (event : gmap string value) (start : value) :
  gather w meeting_title meeting_date participants meeting_description
    lookback_days include_email include_crm include_calendar = Ok context ->
  event ∈ GatheredContext.calendar_events context ->
  event !! "start" = Some start ->
  (forall d, start <> VDict d) ->
  exists e,
    generate_brief w meeting_id meeting_title meeting_date participants
      meeting_description include_email include_crm include_calendar lookback_days
    = Raise e
    /\ (e = AttributeError \/ e = TypeError).
Proof.
  intros Hg Hin Hs Hnd.
  assert (meeting_note event = Raise AttributeError) as Hnote.
  { unfold meeting_note, dict_get. rewrite Hs. cbn [default id].
    destruct start; try done. by destruct (Hnd d). }
  destruct (meeting_notes_of_raises _ _ _ Hin Hnote) as (e & He & Hkind).
  exists e. split; [| done].
  unfold generate_brief. cbv zeta. by rewrite Hg, bind_Ok_l, He.
Qed.

Lemma ParticipantProfile_of_dict_raises (p : gmap string value) (e : exn) :
  ParticipantProfile.of_dict p = Raise e -> e = ValidationError.
Proof. unfold ParticipantProfile.of_dict. intros He. validation_raises He. Qed.

Lemma profiles_of_raises (ps : list (gmap string value)) (e : exn) :
  profiles_of ps = Raise e -> e = ValidationError.
Proof.
  induction ps as [|p ps IH]; cbn [profiles_of]; [done |].
  intros [Hp | (prof & _ & Hr)]%bind_Raise;
    [by eapply ParticipantProfile_of_dict_raises |].
  apply bind_Raise in Hr as [Hr | (? & _ & Hr)]; [by apply IH | done].
Qed.

(** Profiles are built for all draft profiles or for none: a profile dict
    without "email" fails the whole list with the validation error, and a
    built list has one profile per dict, with that dict's "email". *)
Theorem profiles_all_or_nothing (ps : list (gmap string value)) :
  (forall p, p ∈ ps -> p !! "email" = None ->
             profiles_of ps = Raise ValidationError)
  /\ (forall profiles, profiles_of ps = Ok profiles ->
       Forall2 (fun p profile =>
                  p !! "email" = Some (VStr (ParticipantProfile.email profile)))
         ps profiles).
Proof.
  split.
  - intros p Hin Hnone.
    destruct (profiles_of ps) as [profiles|e] eqn:Hps;
      [| by rewrite (profiles_of_raises _ _ Hps)].
    exfalso. revert profiles Hps.
    induction ps as [|q ps IH]; intros profiles Hps;
      [by apply elem_of_nil in Hin |].
    cbn [profiles_of] in Hps. do 2 inv_bind Hps.
    apply elem_of_cons in Hin as [<- | Hin]; [| by eapply IH].
    unfold ParticipantProfile.of_dict, field_required in Hr.
    by rewrite Hnone in Hr.
  - induction ps as [|q ps IH]; intros profiles Hps; cbn [profiles_of] in Hps.
    + inversion Hps. constructor.
    + do 2 inv_bind Hps. inversion Hps; subst profiles.
      constructor; [| by apply IH].
      unfold ParticipantProfile.of_dict in Hr. inv_bind Hr.
      unfold field_required in Hr1. destruct (q !! "email") as [v|]; [| done].
      apply validate_str_Ok in Hr1 as ->.
      do 7 inv_bind Hr. by inversion Hr.
Qed.

(** What a returned Brief holds besides the merged lists: the identifier
    and the timestamp of the run, the meeting's identifier and title, the
    draft's objective, summaries and timeline, and the CRM block formatted
    from the [crm_data] of the gathered context, which is the chain's. *)
Theorem brief_carries_the_draft (w : World) (meeting_id meeting_title : string)
    (meeting_date : datetime) (participants : list string)
    (meeting_description : option string)
    (include_email include_crm include_calendar : bool) (lookback_days : Z)
    (b : Brief.t) :
  generate_brief w meeting_id meeting_title meeting_date participants
    meeting_description include_email include_crm include_calendar lookback_days
  = Ok b ->
  exists context draft,
    gather w meeting_title meeting_date participants meeting_description
      lookback_days include_email include_crm include_calendar = Ok context
    /\ generate w meeting_title meeting_date meeting_description context
       = Ok (Model draft)
    /\ Brief.id b = uuid4 w
    /\ Brief.meeting_id b = meeting_id
    /\ Brief.title b = ("Brief: " ++ meeting_title)%string
    /\ Brief.meeting_objective b = Some (GeneratedBrief.meeting_objective draft)
    /\ Brief.executive_summary b = GeneratedBrief.executive_summary draft
    /\ Brief.relationship_timeline b = GeneratedBrief.relationship_timeline draft
    /\ Brief.email_context b = GeneratedBrief.email_summary draft
    /\ Brief.previous_meetings_summary b
       = GeneratedBrief.previous_meetings_summary draft
    /\ Brief.generated_at b = utcnow_generated w
    /\ _format_crm_context (GatheredContext.crm_data context)
       = Ok (Brief.crm_context b).
Proof.
  unfold generate_brief. cbv zeta. intros Hb.
  do 11 inv_bind Hb. inversion Hb; subst b; cbn.
  destruct r2 as [draft | v]; [| discriminate]. inversion Hr3; subst r3.
  exists r, draft. by repeat split.
Qed.

End OrchestratorMore.

(** * The callers and the CRM integration *)

Section Callers.
Context `{Builtins} `{Strip}.

(** The participants stored by [create_meeting] come back from
    [generate_meeting_brief] in their order, without the empty addresses. *)
Theorem stored_participants_come_back (participants : list string) :
  brief_participants (stored_participants participants)
  = Ok (VStr <$> filter (fun p => p <> ""%string) participants).
Proof.
  induction participants as [|p ps IH]; [done |].
  unfold stored_participants in *. rewrite fmap_cons.
  cbn [brief_participants py_dict]. rewrite bind_Ok_l, IH, bind_Ok_l.
  unfold dict_get. rewrite lookup_insert_eq. cbn [default id truthy].
  rewrite filter_cons. destruct (decide (p <> ""%string)) as [Hne | Heq].
  - by rewrite (proj2 (String.eqb_neq p "") Hne).
  - assert (p = ""%string) as -> by (by destruct (decide (p = ""%string))).
    done.
Qed.

Lemma parse_hubspot_contact_shape (data v : value) :
  _parse_hubspot_contact data = Ok v ->
  exists d, v = VDict d /\ d !! "account_id" = None /\ is_Some (d !! "id").
Proof.
  unfold _parse_hubspot_contact. intros Hp. do 2 inv_bind Hp. inversion Hp.
  eexists. split; [reflexivity | split].
  - by rewrite !lookup_insert_ne, lookup_empty by discriminate.
  - rewrite lookup_insert_eq. by eexists.
Qed.

Lemma CRMMCP_contact_shape (m : CRMMCP) (email : string) :
  CRMMCP_get_contact_by_email m email = VNone
  \/ exists d, CRMMCP_get_contact_by_email m email = VDict d
               /\ d !! "account_id" = None /\ is_Some (d !! "id").
Proof.
  unfold CRMMCP_get_contact_by_email, guarded.
  destruct (_client m) as [c|]; [| by left].
  destruct (_connected m); [| by left].
  destruct (String.eqb (provider m) "hubspot"); [| by left].
  destruct (_ ≫= _) as [[v|]|] eqn:Hb; [| by left | by left].
  right. do 2 inv_bind Hb. destruct (truthy _); [| discriminate].
  do 3 inv_bind Hb. inversion Hb; subst v.
  by apply parse_hubspot_contact_shape in Hr3.
Qed.

Lemma CRMMCP_step_accounts (m : CRMMCP) (participant : string) (crm_data : CrmData) :
  accounts (crm_step (CRMMCP_client m) participant crm_data).1 = accounts crm_data
  /\ (Forall (fun c => exists d, c = VDict d /\ d !! "account_id" = None)
        (contacts crm_data) ->
      Forall (fun c => exists d, c = VDict d /\ d !! "account_id" = None)
        (contacts (crm_step (CRMMCP_client m) participant crm_data).1)).
Proof.
  unfold crm_step. cbn [CRMMCP_client get_contact_by_email get_contact_deals].
  destruct (CRMMCP_contact_shape m participant) as [-> | (d & -> & Hacc & Hid)].
  - by cbn.
  - destruct Hid as [cid Hid].
    assert (truthy (VDict d) = true) as ->.
    { cbn. apply negb_true_iff, bool_decide_eq_false. intros ->.
      by rewrite lookup_empty in Hid. }
    cbn [py_getitem]. rewrite Hid, !bind_Ok_l.
    assert (forall l : list value,
              Forall (fun c => exists d, c = VDict d /\ d !! "account_id" = None) l ->
              Forall (fun c => exists d, c = VDict d /\ d !! "account_id" = None)
                (l ++ [VDict d])) as Hall.
    { intros l Hl. apply Forall_app. split; [done |]. constructor; [| done]. by exists d. }
    destruct (py_iter _) as [ds|]; [| by cbn; auto].
    cbn [py_dict]. rewrite bind_Ok_l. unfold dict_get. rewrite Hacc.
    by cbn; auto.
Qed.

(** With the repository's CRM integration behind the gatherer, no account
    is ever fetched: the contacts it parses carry no "account_id", so
    [get_account] is never called and "accounts" stays empty. *)
Theorem hubspot_accounts_are_never_fetched (w : World) (m : CRMMCP)
    (on : bool) (participants : list string) :
  mcp_crm (mcp w) = Some {| enabled := on; client := CRMMCP_client m |} ->
  accounts (gather_crm_context w participants) = []
  /\ Forall (fun c => exists d, c = VDict d /\ d !! "account_id" = None)
       (contacts (gather_crm_context w participants)).
Proof.
  intros Hm. unfold gather_crm_context. rewrite Hm. cbn [enabled client].
  destruct on; [| by split; [| constructor]].
  assert (forall ps crm_data,
            accounts (fetch_crm (CRMMCP_client m) ps crm_data) = accounts crm_data
            /\ (Forall (fun c => exists d, c = VDict d /\ d !! "account_id" = None)
                  (contacts crm_data) ->
                Forall (fun c => exists d, c = VDict d /\ d !! "account_id" = None)
                  (contacts (fetch_crm (CRMMCP_client m) ps crm_data)))) as Hfetch.
  { induction ps as [|p ps IH]; intros crm_data; cbn [fetch_crm]; [done |].
    destruct (CRMMCP_step_accounts m p crm_data) as [Ha Hc].
    destruct (crm_step (CRMMCP_client m) p crm_data) as [crm_data' [|]];
      cbn [fst] in Ha, Hc; [| done].
    destruct (IH crm_data') as [Ha' Hc']. split; [congruence | auto]. }
  destruct (Hfetch participants {| contacts := []; deals := []; accounts := [] |})
    as [Ha Hc].
  split; [exact Ha | apply Hc; constructor].
Qed.

(** An integration that is not connected, has no client or is not of
    provider "hubspot" yields no CRM data at all. *)
Theorem only_connected_hubspot_yields_crm_data (w : World) (m : CRMMCP)
    (on : bool) (participants : list string) :
  mcp_crm (mcp w) = Some {| enabled := on; client := CRMMCP_client m |} ->
  _connected m = false \/ _client m = None \/ provider m <> "hubspot"%string ->
  gather_crm_context w participants
  = {| contacts := []; deals := []; accounts := [] |}.
Proof.
  intros Hm Hoff. unfold gather_crm_context. rewrite Hm. cbn [enabled client].
  destruct on; [| done].
  assert (forall email, CRMMCP_get_contact_by_email m email = VNone) as Hnone.
  { intros email. unfold CRMMCP_get_contact_by_email, guarded.
    destruct (_client m) as [c|]; [| done].
    destruct (_connected m); [| done].
    destruct Hoff as [? | [? | Hp]]; try done.
    apply String.eqb_neq in Hp. by rewrite Hp. }
  induction participants as [|p ps IH]; [done |].
  cbn [fetch_crm]. unfold crm_step.
  cbn [CRMMCP_client get_contact_by_email]. rewrite Hnone. cbn [truthy]. exact IH.
Qed.

End Callers.

(** * Validation at the boundaries *)

Section ValidationMore.
Context `{Builtins}.

Lemma enhance_points_raises (points : list (gmap string value))
    (enhanced : list TalkingPoint.t) (e : exn) :
  enhance_points points enhanced = Raise e -> e = ValidationError.
Proof.
  revert enhanced. induction points as [|p rest IH]; intros enhanced;
    cbn [enhance_points]; [done |].
  intros [Hp | (tp & _ & Hr)]%bind_Raise; [| by eapply IH].
  unfold TalkingPoint.new in Hp.
  repeat (apply bind_Raise in Hp as [Hp | (? & _ & Hp)];
          [first [by eapply validate_str_raises | by eapply validate_opt_str_raises] |]).
  done.
Qed.

Lemma merge_existing_raises (existing : list (gmap string value))
    (items : list RiskOpportunity.t) (e : exn) :
  merge_existing existing items = Raise e -> e = ValidationError.
Proof.
  revert items. induction existing as [|p rest IH]; intros items;
    cbn [merge_existing]; [done |].
  intros [Hp | (ro & _ & Hr)]%bind_Raise; [| by eapply IH].
  unfold RiskOpportunity.new in Hp.
  repeat (apply bind_Raise in Hp as [Hp | (? & _ & Hp)];
          [first [by eapply validate_str_raises | by eapply validate_opt_str_raises] |]).
  done.
Qed.

(** A text field that is present and null is not a missing field: the
    default does not apply and the model's validation fails. One such
    draft talking point or risk, at any position, fails its merge with the
    validation error; so does a first draft action item with a null
    status. *)
Theorem null_text_field_fails_the_merge :
  (forall points point k insights,
     point ∈ points -> k ∈ ["topic"; "context"; "priority"] ->
     point !! k = Some VNone ->
     _enhance_talking_points points insights = Raise ValidationError)
  /\ (forall existing item k concerns opportunities,
       item ∈ existing -> k ∈ ["type"; "title"; "description"; "severity"] ->
       item !! k = Some VNone ->
       _merge_risks_opportunities existing concerns opportunities
       = Raise ValidationError)
  /\ (forall item rest description insight_items,
       dict_get item "description" (VStr "") = VStr description ->
       item !! "status" = Some VNone ->
       _merge_action_items (item :: rest) insight_items = Raise ValidationError).
Proof.
  split; [| split].
  - intros points point k insights Hin Hk Hnull.
    destruct (_enhance_talking_points points insights) as [l|e] eqn:Hm.
    + exfalso. apply enhance_talking_points_Ok in Hm as (drafts & Hv & _).
      unfold validated in Hv. apply list_elem_of_lookup in Hin as [i Hi].
      destruct (Forall2_lookup_l _ _ _ _ _ Hv Hi) as (tp & _ & Htp).
      unfold draft_talking_point, TalkingPoint.new, dict_get in Htp.
      repeat (apply elem_of_cons in Hk as [-> | Hk]);
        [ | | | by apply elem_of_nil in Hk];
        rewrite Hnull in Htp; cbn in Htp; try discriminate;
        repeat (destruct (validate_str _); cbn in Htp; try discriminate).
    + f_equal. unfold _enhance_talking_points in Hm.
      apply bind_Raise in Hm as [Hm | (l & _ & Hm)];
        [by eapply enhance_points_raises |].
      rewrite enhance_concerns_Ok, bind_Ok_l, enhance_opportunities_Ok in Hm.
      discriminate.
  - intros existing item k concerns opportunities Hin Hk Hnull.
    destruct (_merge_risks_opportunities existing concerns opportunities)
      as [l|e] eqn:Hm.
    + exfalso. apply merge_risks_opportunities_Ok in Hm as (drafts & Hv & _).
      unfold validated in Hv. apply list_elem_of_lookup in Hin as [i Hi].
      destruct (Forall2_lookup_l _ _ _ _ _ Hv Hi) as (ro & _ & Hro).
      unfold draft_risk_opportunity, RiskOpportunity.new, dict_get in Hro.
      repeat (apply elem_of_cons in Hk as [-> | Hk]);
        [ | | | | by apply elem_of_nil in Hk];
        rewrite Hnull in Hro; cbn in Hro; try discriminate;
        repeat (destruct (validate_str _); cbn in Hro; try discriminate).
    + f_equal. unfold _merge_risks_opportunities in Hm.
      apply bind_Raise in Hm as [Hm | (l & _ & Hm)];
        [by eapply merge_existing_raises |].
      rewrite merge_insights_as_Ok, bind_Ok_l, merge_insights_as_Ok in Hm.
      discriminate.
  - intros item rest description insight_items Hd Hnull.
    unfold _merge_action_items. cbn [merge_brief_items].
    rewrite Hd, slice50_lower_str, bind_Ok_l.
    destruct (decide _) as [Hin | _]; [by apply elem_of_empty in Hin |].
    unfold ActionItem.new, dict_get. rewrite Hnull.
    cbn [validate_str default id]. rewrite bind_Ok_l.
    destruct (validate_opt_str (default VNone (item !! "assignee")))
      as [a|e] eqn:Ha.
    2:{ apply validate_opt_str_raises in Ha as ->. reflexivity. }
    rewrite bind_Ok_l.
    destruct (validate_opt_datetime (default VNone (item !! "due_date")))
      as [dd|e] eqn:Hdd; [reflexivity |].
    unfold validate_opt_datetime in Hdd.
    destruct (default VNone (item !! "due_date")); try destruct (lax_datetime _);
      by inversion Hdd.
Qed.

End ValidationMore.

(** * What the agents hand back *)

Section AgentsMore.
Context `{Builtins}.

Lemma py_slice_raises (n : nat) (v : value) (e : exn) :
  py_slice n v = Raise e -> e = TypeError.
Proof. destruct v; cbn; congruence. Qed.

Lemma email_interactions_raises (threads : list (gmap string value))
    (all_interactions : list string) (e : exn) :
  email_interactions threads all_interactions = Raise e -> e = TypeError.
Proof.
  revert all_interactions.
  induction threads as [|t rest IH]; intros acc; cbn [email_interactions]; [done |].
  intros [Hs | (b & _ & Hr)]%bind_Raise; [by eapply py_slice_raises | by eapply IH].
Qed.

Lemma meeting_interactions_raises (notes : list (gmap string value))
    (all_interactions : list string) (e : exn) :
  meeting_interactions notes all_interactions = Raise e -> e = TypeError.
Proof.
  revert all_interactions.
  induction notes as [|n rest IH]; intros acc; cbn [meeting_interactions]; [done |].
  intros [Hs | (b & _ & Hr)]%bind_Raise; [by eapply py_slice_raises | by eapply IH].
Qed.

Lemma email_interactions_null_body (threads : list (gmap string value))
    (all_interactions : list string) (thread : gmap string value) :
  thread ∈ threads -> thread !! "body" = Some VNone ->
  email_interactions threads all_interactions = Raise TypeError.
Proof.
  intros Hin Hb. revert all_interactions.
  induction threads as [|t rest IH]; intros acc; [by apply elem_of_nil in Hin |].
  cbn [email_interactions].
  destruct (py_slice 800 (dict_get t "body" (VStr ""))) as [b|e] eqn:Hs.
  - rewrite bind_Ok_l. apply elem_of_cons in Hin as [-> | Hin]; [| by apply IH].
    unfold dict_get in Hs. rewrite Hb in Hs. discriminate.
  - by apply py_slice_raises in Hs as ->.
Qed.

Lemma meeting_interactions_null_notes (notes : list (gmap string value))
    (all_interactions : list string) (note : gmap string value) :
  note ∈ notes -> note !! "notes" = Some VNone ->
  meeting_interactions notes all_interactions = Raise TypeError.
Proof.
  intros Hin Hb. revert all_interactions.
  induction notes as [|n rest IH]; intros acc; [by apply elem_of_nil in Hin |].
  cbn [meeting_interactions].
  destruct (py_slice 1000 (dict_get n "notes" (VStr ""))) as [b|e] eqn:Hs.
  - rewrite bind_Ok_l. apply elem_of_cons in Hin as [-> | Hin]; [| by apply IH].
    unfold dict_get in Hs. rewrite Hb in Hs. discriminate.
  - by apply py_slice_raises in Hs as ->.
Qed.

Lemma extract_null_notes (w : World)
    (email_threads meeting_notes : list (gmap string value))
    (context : option string) (note : gmap string value) :
  note ∈ take 10 meeting_notes -> note !! "notes" = Some VNone ->
  extract w email_threads meeting_notes context = Raise TypeError.
Proof.
  intros Hin Hn. unfold extract.
  destruct (email_interactions (take 15 email_threads) []) as [acc|e] eqn:He.
  - by rewrite bind_Ok_l, (meeting_interactions_null_notes _ _ _ Hin Hn).
  - by apply email_interactions_raises in He as ->.
Qed.

(** A text that is present and null cannot be cut: a thread among the
    first 15 with a null "body", or a note among the first 10 with null
    "notes", makes the extractor raise TypeError before its chain is
    called. *)
Theorem null_text_fails_the_extraction (w : World)
    (email_threads meeting_notes : list (gmap string value))
    (context : option string) :
  (forall thread, thread ∈ take 15 email_threads ->
     thread !! "body" = Some VNone ->
     extract w email_threads meeting_notes context = Raise TypeError)
  /\ (forall note, note ∈ take 10 meeting_notes ->
        note !! "notes" = Some VNone ->
        extract w email_threads meeting_notes context = Raise TypeError).
Proof.
  split.
  - intros thread Hin Hb. unfold extract.
    by rewrite (email_interactions_null_body _ _ _ Hin Hb).
  - intros note Hin Hn. by eapply extract_null_notes.
Qed.

Lemma meeting_notes_of_raises_kind (events : list (gmap string value)) (e : exn) :
  meeting_notes_of events = Raise e -> e = AttributeError \/ e = TypeError.
Proof.
  induction events as [|ev rest IH]; cbn [meeting_notes_of]; [done |].
  intros [Hn | (note & _ & Hr)]%bind_Raise; [by eapply meeting_note_raises |].
  apply bind_Raise in Hr as [Hr | (? & _ & Hr)]; [by apply IH | done].
Qed.

Lemma meeting_notes_of_Ok (events notes : list (gmap string value)) :
  meeting_notes_of events = Ok notes ->
  Forall2 (fun event note => meeting_note event = Ok note) events notes.
Proof.
  revert notes. induction events as [|ev rest IH]; intros notes Hn;
    cbn [meeting_notes_of] in Hn.
  - inversion Hn. constructor.
  - do 2 inv_bind Hn. inversion Hn; subst notes. constructor; [done | by apply IH].
Qed.

Lemma meeting_note_notes (event note : gmap string value) :
  meeting_note event = Ok note ->
  note !! "notes" = Some (dict_get event "description" (VStr "")).
Proof.
  unfold meeting_note. intros Hn. do 3 inv_bind Hn. inversion Hn.
  rewrite !lookup_insert_ne by discriminate. by rewrite lookup_insert_eq.
Qed.

(** The description of an event becomes the notes the extractor cuts: an
    event among the first ten of the gathered context whose "description"
    is present and null makes the whole request raise. *)
Theorem null_description_fails_the_request (w : World)
    (meeting_id meeting_title : string) (meeting_date : datetime)
    (participants : list string) (meeting_description : option string)
    (include_email include_crm include_calendar : bool) (lookback_days : Z)
    (context : GatheredContext.t) (event : gmap string value) :
  gather w meeting_title meeting_date participants meeting_description
    lookback_days include_email include_crm include_calendar = Ok context ->
  event ∈ take 10 (GatheredContext.calendar_events context) ->
  event !! "description" = Some VNone ->
  exists e,
    generate_brief w meeting_id meeting_title meeting_date participants
      meeting_description include_email include_crm include_calendar lookback_days
    = Raise e
    /\ (e = AttributeError \/ e = TypeError).
Proof.
  intros Hg Hin Hd. unfold generate_brief. cbv zeta. rewrite Hg, bind_Ok_l.
  destruct (meeting_notes_of (GatheredContext.calendar_events context))
    as [notes|e] eqn:Hn.
  - exists TypeError. split; [| by right]. rewrite bind_Ok_l.
    apply meeting_notes_of_Ok in Hn.
    apply list_elem_of_lookup in Hin as [i Hi].
    destruct (Forall2_lookup_l _ _ _ _ _ (Forall2_take _ _ _ 10 Hn) Hi)
      as (note & Hnote & Hev).
    apply meeting_note_notes in Hev. unfold dict_get in Hev. rewrite Hd in Hev.
    by rewrite (extract_null_notes w _ notes _ note
                  (list_elem_of_lookup_2 _ _ _ Hnote) Hev).
  - exists e. split; [done | by eapply meeting_notes_of_raises_kind].
Qed.

Lemma GeneratedBrief_of_dict_raises (d : gmap string value) (e : exn) :
  GeneratedBrief.of_dict d = Raise e -> e = ValidationError.
Proof. unfold GeneratedBrief.of_dict. intros He. validation_raises He. Qed.

(** The draft must be a complete JSON object: when the generation chain
    answers with a dict that lacks one of the seven required fields, the
    generator raises the validation error; when it answers with a value
    that is not a dict, the generator hands that value back as it is. *)
Theorem draft_must_be_a_complete_dict (w : World) (meeting_title : string)
    (meeting_date : datetime) (meeting_description : option string)
    (context : GatheredContext.t) :
  (forall d k,
     (forall inputs, chain_ainvoke w BriefGenerator inputs = Ok (VDict d)) ->
     k ∈ ["meeting_objective"; "executive_summary"; "participant_profiles";
          "relationship_timeline"; "open_action_items"; "talking_points";
          "risks_opportunities"]%string ->
     d !! k = None ->
     generate w meeting_title meeting_date meeting_description context
     = Raise ValidationError)
  /\ (forall v,
        (forall inputs, chain_ainvoke w BriefGenerator inputs = Ok v) ->
        (forall d, v <> VDict d) ->
        generate w meeting_title meeting_date meeting_description context
        = Ok (Passthrough v)).
Proof.
  split.
  - intros d k Hc Hk Hnone. unfold generate. rewrite Hc, bind_Ok_l.
    destruct (GeneratedBrief.of_dict d) as [m|e] eqn:Hd.
    + exfalso. unfold GeneratedBrief.of_dict in Hd. do 9 inv_bind Hd.
      unfold field_required in *.
      repeat (apply elem_of_cons in Hk as [-> | Hk]);
        [ | | | | | | | by apply elem_of_nil in Hk];
        rewrite Hnone in *; discriminate.
    + by apply GeneratedBrief_of_dict_raises in Hd as ->.
  - intros v Hc Hnd. unfold generate. rewrite Hc, bind_Ok_l.
    destruct v; try done. by destruct (Hnd d).
Qed.

(** When either agent hands back a value that is not its model, the
    request raises AttributeError at the first attribute read off it. *)
Theorem passthrough_fails_the_request (w : World)
    (meeting_id meeting_title : string) (meeting_date : datetime)
    (participants : list string) (meeting_description : option string)
    (include_email include_crm include_calendar : bool) (lookback_days : Z)
    (context : GatheredContext.t) (notes : list (gmap string value))
    (insights : returned InsightExtractionResult.t)
    (generated : returned GeneratedBrief.t) :
  gather w meeting_title meeting_date participants meeting_description
    lookback_days include_email include_crm include_calendar = Ok context ->
  meeting_notes_of (GatheredContext.calendar_events context) = Ok notes ->
  extract w (GatheredContext.email_threads context) notes
    (Some ("Preparing for meeting: " ++ meeting_title)%string) = Ok insights ->
  generate w meeting_title meeting_date meeting_description context = Ok generated ->
  (exists v, insights = Passthrough v) \/ (exists v, generated = Passthrough v) ->
  generate_brief w meeting_id meeting_title meeting_date participants
    meeting_description include_email include_crm include_calendar lookback_days
  = Raise AttributeError.
Proof.
  intros Hg Hn He Hd Hp. unfold generate_brief. cbv zeta.
  rewrite Hg, bind_Ok_l, Hn, bind_Ok_l, He, bind_Ok_l, Hd, bind_Ok_l.
  destruct generated as [draft|v]; [| done].
  destruct Hp as [[v ->] | [v Hv]]; [done | discriminate].
Qed.

Lemma ExtractedInsight_of_value_raises :
  raises_only_ValidationError ExtractedInsight.of_value.
Proof.
  intros v e. unfold ExtractedInsight.of_value.
  intros [Hv | (d & _ & Hd)]%bind_Raise; [by eapply validate_dict_raises |].
  unfold ExtractedInsight.of_dict in Hd. validation_raises Hd.
Qed.

Lemma InsightExtractionResult_of_dict_raises (d : gmap string value) (e : exn) :
  InsightExtractionResult.of_dict d = Raise e -> e = ValidationError.
Proof.
  unfold InsightExtractionResult.of_dict. intros He.
  repeat (apply bind_Raise in He as [He | (? & _ & He)];
          [ eapply field_default_raises in He;
            [ exact He
            | eauto using validate_str_raises, validate_list_raises,
                ExtractedInsight_of_value_raises ]
          | ]);
  discriminate.
Qed.

Lemma validate_each_elem {A : Type} (f : value -> result A) (l : list value)
    (r : list A) (v : value) :
  validate_each f l = Ok r -> v ∈ l -> exists a, f v = Ok a.
Proof.
  revert r. induction l as [|x l IH]; intros r Hl Hin; [by apply elem_of_nil in Hin |].
  cbn [validate_each] in Hl. do 2 inv_bind Hl.
  apply elem_of_cons in Hin as [-> | Hin]; [by eexists | by eapply IH].
Qed.

Lemma insight_list_elem (d m : gmap string value) (k : string) (l : list value)
    (r : list ExtractedInsight.t) (f : string) :
  field_default (validate_list ExtractedInsight.of_value) [] d k = Ok r ->
  d !! k = Some (VList l) -> VDict m ∈ l ->
  f ∈ ["type"; "content"; "source"]%string -> m !! f = None -> False.
Proof.
  unfold field_default. intros Hr Hk Hin Hf Hnone. rewrite Hk in Hr. cbn in Hr.
  destruct (validate_each_elem _ _ _ _ Hr Hin) as [a Ha].
  unfold ExtractedInsight.of_value in Ha. cbn in Ha.
  unfold ExtractedInsight.of_dict in Ha. do 8 inv_bind Ha.
  unfold field_required in *.
  repeat (apply elem_of_cons in Hf as [-> | Hf]);
    [ | | | by apply elem_of_nil in Hf]; rewrite Hnone in *; discriminate.
Qed.

(** Every insight of the five lists must carry "type", "content" and
    "source": when the extraction chain answers with a dict one of whose
    lists holds an insight that lacks one of them, the extractor raises,
    with the validation error unless cutting a text raised before the
    chain was called. *)
Theorem malformed_insight_fails_the_extraction (w : World)
    (email_threads meeting_notes : list (gmap string value))
    (context : option string) (d m : gmap string value) (k f : string)
    (l : list value) :
  (forall inputs, chain_ainvoke w InsightExtractor inputs = Ok (VDict d)) ->
  k ∈ ["action_items"; "commitments"; "decisions"; "concerns";
       "opportunities"]%string ->
  d !! k = Some (VList l) ->
  VDict m ∈ l ->
  f ∈ ["type"; "content"; "source"]%string ->
  m !! f = None ->
  exists e,
    extract w email_threads meeting_notes context = Raise e
    /\ (e = ValidationError \/ e = TypeError)
    /\ (e = TypeError ->
        forall acc, email_interactions (take 15 email_threads) [] = Ok acc ->
                    meeting_interactions (take 10 meeting_notes) acc
                    = Raise TypeError).
Proof.
  intros Hc Hk Hl Hin Hf Hnone. unfold extract.
  destruct (email_interactions (take 15 email_threads) []) as [acc|e] eqn:He.
  2:{ apply email_interactions_raises in He as ->. exists TypeError.
      split; [done | split; [by right | intros _ acc0 Hx; discriminate Hx]]. }
  rewrite bind_Ok_l.
  destruct (meeting_interactions (take 10 meeting_notes) acc) as [acc'|e] eqn:Hm.
  2:{ pose proof (meeting_interactions_raises _ _ _ Hm) as ->. exists TypeError.
      split; [done | split; [by right |]].
      intros _ acc0 Hx. by injection Hx as <-. }
  rewrite bind_Ok_l, Hc, bind_Ok_l.
  destruct (InsightExtractionResult.of_dict d) as [r|e] eqn:Hd.
  - exfalso. unfold InsightExtractionResult.of_dict in Hd. do 8 inv_bind Hd.
    repeat (apply elem_of_cons in Hk as [-> | Hk]);
      [ | | | | | by apply elem_of_nil in Hk];
      (eapply insight_list_elem;
         [| exact Hl | exact Hin | exact Hf | exact Hnone]; eassumption).
  - apply InsightExtractionResult_of_dict_raises in Hd as ->.
    exists ValidationError. split; [done | split; [by left | discriminate]].
Qed.

End AgentsMore.

(** * Further worked examples *)

Section MoreExamples.
#[local] Existing Instance example_builtins.
#[local] Existing Instance example_strip.

(** Twelve distinct drafts and two insights: the first ten drafts. *)
Lemma ten_distinct_drafts_fill_the_cap_witness :
  _merge_action_items ex_twelve_items ex_insight_items = Ok (take 10 ex_twelve_drafts).
Proof.
  apply (ten_distinct_drafts_fill_the_cap ex_twelve_items ex_twelve_drafts
           ex_insight_items).
  - repeat constructor.
  - cbn. lia.
  - apply (bool_decide_unpack _). vm_compute. exact I.
Defined.

(** A draft with a null status would not validate on its own; placed after
    a draft with the same key it is skipped, and the merge succeeds. *)
Lemma repeated_draft_is_skipped_unvalidated_witness :
  draft_action_item ex_unvalidated_repeat = Raise ValidationError
  /\ _merge_action_items
       (take 1 ex_brief_items ++ ex_unvalidated_repeat :: drop 2 ex_brief_items)
       ex_insight_items
     = _merge_action_items (take 1 ex_brief_items ++ drop 2 ex_brief_items)
         ex_insight_items.
Proof.
  split; [vm_compute; reflexivity |].
  apply (repeated_draft_is_skipped_unvalidated
           (take 1 ex_brief_items) (drop 2 ex_brief_items)
           (dict_of [("description", VStr "Send proposal to Acme");
                     ("assignee", VStr "alice"); ("status", VStr "open");
                     ("source", VStr "email")])
           ex_unvalidated_repeat "send proposal to acme" ex_insight_items).
  - constructor.
  - vm_compute. reflexivity.
  - vm_compute. reflexivity.
Defined.

(** The first example insight repeats the first draft. *)
Lemma insights_repeating_drafts_add_nothing_witness :
  _merge_action_items ex_brief_items (take 1 ex_insight_items)
  = _merge_action_items ex_brief_items [].
Proof.
  apply (insights_repeating_drafts_add_nothing ex_brief_items ex_drafts
           (take 1 ex_insight_items)).
  - repeat constructor.
  - intros insight Hin. apply list_elem_of_singleton in Hin. rewrite Hin.
    apply (bool_decide_unpack _). vm_compute. exact I.
Defined.

(** Two draft points and one draft risk: both lists start with them. *)
Lemma drafts_come_first_witness :
  (exists l, _enhance_talking_points ex_points ex_insights = Ok l
             /\ take (length ex_draft_points) l = take 8 ex_draft_points
             /\ (8 <= length ex_draft_points -> l = take 8 ex_draft_points))
  /\ (exists l, _merge_risks_opportunities ex_existing [ex_concern] [ex_opportunity]
                = Ok l
                /\ take (length ex_draft_risks) l = take 6 ex_draft_risks
                /\ (6 <= length ex_draft_risks -> l = take 6 ex_draft_risks)).
Proof.
  apply (drafts_come_first ex_points ex_existing ex_draft_points ex_draft_risks
           ex_insights [ex_concern] [ex_opportunity]); repeat constructor.
Defined.

(** Deals without contacts give no block. *)
Lemma format_crm_context_none_iff_witness :
  _format_crm_context ex_deals_only = Ok None
  /\ (@None string = None
      <-> truthy (dict_get ex_deals_only "contacts" VNone) = false).
Proof.
  assert (_format_crm_context ex_deals_only = Ok None) as Hf
    by (vm_compute; reflexivity).
  split; [exact Hf |].
  exact (format_crm_context_none_iff ex_deals_only None Hf).
Defined.

(** Four contacts and a deal: three contact lines and the deal line. *)
Lemma format_crm_context_block_witness :
  _format_crm_context ex_crm_data
  = Ok (Some (str_join nl
                ((contact_line <$> [ ex_contact "Alice" "CTO" "Acme";
                                     ex_contact "Bob" "CFO" "Acme";
                                     ex_contact "Carol" "Buyer" "Acme" ])
                 ++ (deal_line <$> [ex_deal])))).
Proof.
  apply (format_crm_context_block ex_crm_data
           (VDict <$> [ ex_contact "Alice" "CTO" "Acme";
                        ex_contact "Bob" "CFO" "Acme";
                        ex_contact "Carol" "Buyer" "Acme";
                        ex_contact "Dave" "Intern" "Acme" ])
           [VDict ex_deal]).
  - vm_compute. reflexivity.
  - vm_compute. reflexivity.
  - discriminate.
  - reflexivity.
  - reflexivity.
Defined.

Example format_crm_context_text :
  _format_crm_context ex_crm_data
  = Ok (Some ("- Alice: CTO at Acme" ++ nl ++ "- Bob: CFO at Acme" ++ nl
              ++ "- Carol: Buyer at Acme" ++ nl
              ++ "- Deal: Renewal 2024 - Stage: negotiation, Value: 50000")%string).
Proof. vm_compute. reflexivity. Qed.

(** With the email integration alone, "email" is the source listed. *)
Lemma sources_accessed_characterised_witness :
  ex_gather w_email true true true = Ok (ex_context [] 0.5 ["email"])
  /\ ("email" ∈ GatheredContext.sources_accessed (ex_context [] 0.5 ["email"])
      <-> true = true /\ gather_email_context w_email ["alice@acme.com"] 30 <> []).
Proof.
  assert (ex_gather w_email true true true = Ok (ex_context [] 0.5 ["email"])) as Hg
    by (vm_compute; reflexivity).
  split; [exact Hg |].
  exact (proj1 (sources_accessed_characterised w_email "Acme renewal"
                  1700600000000000%Z ["alice@acme.com"] None 30%Z true true true
                  _ Hg)).
Defined.

(** With no integration, no source is listed. *)
Lemma unconfigured_sources_are_not_listed_witness :
  ex_gather w_plain true true true = Ok (ex_context [] 0.5 [])
  /\ GatheredContext.sources_accessed (ex_context [] 0.5 []) = [].
Proof.
  assert (ex_gather w_plain true true true = Ok (ex_context [] 0.5 [])) as Hg
    by (vm_compute; reflexivity).
  split; [exact Hg |].
  refine (proj2 (proj2 (proj2 (unconfigured_sources_are_not_listed w_plain
                                 "Acme renewal" 1700600000000000%Z
                                 ["alice@acme.com"] None 30%Z true true true
                                 _ Hg))) _).
  reflexivity.
Defined.

(** A sixteenth thread and an eleventh note with null texts are not read. *)
Lemma extract_reads_bounded_input_witness :
  extract w_plain (replicate 15 ∅ ++ [dict_of [("body", VNone)]])
    (replicate 10 ∅ ++ [dict_of [("notes", VNone)]]) None
  = extract w_plain (replicate 15 ∅) (replicate 10 ∅) None.
Proof.
  apply (extract_reads_bounded_input w_plain (replicate 15 ∅) (replicate 10 ∅)
           [dict_of [("body", VNone)]] [dict_of [("notes", VNone)]] None).
  - cbn. lia.
  - cbn. lia.
Defined.

(** An eleventh event does not reach the generator. *)
Lemma generate_reads_bounded_view_witness :
  generate w_plain "Acme renewal" 1700600000000000%Z None
    (ex_context (ex_ten_events ++ [ex_bad_start_event]) 0.5 [])
  = generate w_plain "Acme renewal" 1700600000000000%Z None
      (ex_context ex_ten_events 0.5 []).
Proof.
  apply (generate_reads_bounded_view w_plain "Acme renewal" 1700600000000000%Z None
           (ex_context (ex_ten_events ++ [ex_bad_start_event]) 0.5 [])
           (ex_context ex_ten_events 0.5 [])).
  reflexivity.
Defined.

(** The gatherer's chain answers with an event whose "start" is a string. *)
Lemma malformed_event_fails_the_request_witness :
  exists e, ex_generate_brief (w_event ex_bad_start_event) = Raise e
            /\ (e = AttributeError \/ e = TypeError).
Proof.
  refine (malformed_event_fails_the_request (w_event ex_bad_start_event)
            "m-1" "Acme renewal" 1700600000000000%Z ["alice@acme.com"] None
            true true true 30%Z (ex_context [ex_bad_start_event] 0 [])
            ex_bad_start_event (VStr "2024-05-01T10:00:00") _ _ _ _).
  - vm_compute. reflexivity.
  - constructor.
  - vm_compute. reflexivity.
  - intros d. discriminate.
Defined.

Example malformed_event_raises_AttributeError :
  ex_generate_brief (w_event ex_bad_start_event) = Raise AttributeError.
Proof. vm_compute. reflexivity. Qed.

(** The gatherer's chain answers with an event whose "description" is null. *)
Lemma null_description_fails_the_request_witness :
  exists e, ex_generate_brief (w_event ex_null_description_event) = Raise e
            /\ (e = AttributeError \/ e = TypeError).
Proof.
  refine (null_description_fails_the_request (w_event ex_null_description_event)
            "m-1" "Acme renewal" 1700600000000000%Z ["alice@acme.com"] None
            true true true 30%Z (ex_context [ex_null_description_event] 0 [])
            ex_null_description_event _ _ _).
  - vm_compute. reflexivity.
  - constructor.
  - vm_compute. reflexivity.
Defined.

Example null_description_raises_TypeError :
  ex_generate_brief (w_event ex_null_description_event) = Raise TypeError.
Proof. vm_compute. reflexivity. Qed.

(** The example brief and the draft it was made from. *)
Lemma brief_carries_the_draft_witness :
  exists context draft,
    ex_gather w_plain true true true = Ok context
    /\ generate w_plain "Acme renewal" 1700600000000000%Z None context
       = Ok (Model draft)
    /\ Brief.executive_summary ex_brief = GeneratedBrief.executive_summary draft
    /\ _format_crm_context (GatheredContext.crm_data context)
       = Ok (Brief.crm_context ex_brief).
Proof.
  assert (ex_generate_brief w_plain = Ok ex_brief) as Hb by (vm_compute; reflexivity).
  destruct (brief_carries_the_draft w_plain "m-1" "Acme renewal" 1700600000000000%Z
              ["alice@acme.com"] None true true true 30%Z ex_brief Hb)
    as (context & draft & Hg & Hd & _ & _ & _ & _ & Hs & _ & _ & _ & _ & Hc).
  exists context, draft. exact (conj Hg (conj Hd (conj Hs Hc))).
Defined.

(** The HubSpot integration finds Alice and her deal, and no account. *)
Lemma hubspot_accounts_are_never_fetched_witness :
  accounts (gather_crm_context (w_crm ex_hubspot) ["alice@acme.com"]) = []
  /\ Forall (fun c => exists d, c = VDict d /\ d !! "account_id" = None)
       (contacts (gather_crm_context (w_crm ex_hubspot) ["alice@acme.com"])).
Proof.
  apply (hubspot_accounts_are_never_fetched (w_crm ex_hubspot) ex_hubspot true
           ["alice@acme.com"]).
  reflexivity.
Defined.

Example hubspot_crm_context :
  gather_crm_context (w_crm ex_hubspot) ["alice@acme.com"]
  = {| contacts :=
         [VDict (dict_of [("id", VStr "101"); ("email", VStr "alice@acme.com");
                          ("name", VStr "Alice Jones"); ("company", VStr "Acme");
                          ("title", VNone); ("phone", VNone);
                          ("crm_provider", VStr "hubspot")])];
       deals :=
         [VDict (dict_of [("id", VStr "7"); ("name", VStr "Renewal 2024");
                          ("value", VStr "50000"); ("stage", VStr "negotiation");
                          ("close_date", VNone); ("pipeline", VNone)])];
       accounts := [] |}.
Proof. vm_compute. reflexivity. Qed.

(** The same integration with provider "salesforce" finds nothing. *)
Lemma only_connected_hubspot_yields_crm_data_witness :
  gather_crm_context (w_crm ex_salesforce) ["alice@acme.com"]
  = {| contacts := []; deals := []; accounts := [] |}.
Proof.
  apply (only_connected_hubspot_yields_crm_data (w_crm ex_salesforce) ex_salesforce
           true ["alice@acme.com"]).
  - reflexivity.
  - right. right. discriminate.
Defined.

(** The extraction chain answers with a list. *)
Lemma passthrough_fails_the_request_witness :
  ex_generate_brief w_insights_list = Raise AttributeError.
Proof.
  eapply (passthrough_fails_the_request w_insights_list
            "m-1" "Acme renewal" 1700600000000000%Z ["alice@acme.com"] None
            true true true 30%Z (ex_context [] 0.5 []) []
            (Passthrough (VList []))).
  - vm_compute. reflexivity.
  - reflexivity.
  - vm_compute. reflexivity.
  - vm_compute. reflexivity.
  - left. eexists. reflexivity.
Defined.

(** The extraction chain answers with a concern that has no "source". *)
Lemma malformed_insight_fails_the_extraction_witness :
  extract w_sourceless [] [] None = Raise ValidationError.
Proof.
  destruct (malformed_insight_fails_the_extraction w_sourceless [] [] None
              ex_sourceless_json ex_sourceless_concern "concerns" "source"
              [VDict ex_sourceless_concern])
    as (e & He & [He' | He'] & Htype).
  - intros inputs. reflexivity.
  - apply (bool_decide_unpack _). vm_compute. exact I.
  - vm_compute. reflexivity.
  - constructor.
  - apply (bool_decide_unpack _). vm_compute. exact I.
  - vm_compute. reflexivity.
  - rewrite <- He'. exact He.
  - specialize (Htype He' [] eq_refl). discriminate Htype.
Defined.

(** A draft without "relationship_timeline". *)
Lemma draft_must_be_a_complete_dict_witness :
  generate w_no_timeline "Acme renewal" 1700600000000000%Z None (ex_context [] 0.5 [])
  = Raise ValidationError.
Proof.
  apply (proj1 (draft_must_be_a_complete_dict w_no_timeline "Acme renewal"
                  1700600000000000%Z None (ex_context [] 0.5 []))
           ex_no_timeline_json "relationship_timeline").
  - intros inputs. reflexivity.
  - apply (bool_decide_unpack _). vm_compute. exact I.
  - vm_compute. reflexivity.
Defined.

(** A null body in the first thread. *)
Lemma null_text_fails_the_extraction_witness :
  extract w_plain [dict_of [("body", VNone)]] [] None = Raise TypeError.
Proof.
  apply (proj1 (null_text_fails_the_extraction w_plain
                  [dict_of [("body", VNone)]] [] None)
           (dict_of [("body", VNone)])).
  - constructor.
  - vm_compute. reflexivity.
Defined.

(** A draft talking point with a null context, after a well-formed one. *)
Lemma null_text_field_fails_the_merge_witness :
  _enhance_talking_points
    (ex_points ++ [dict_of [("topic", VStr "Budget"); ("context", VNone)]])
    ex_insights
  = Raise ValidationError.
Proof.
  apply (proj1 null_text_field_fails_the_merge
           (ex_points ++ [dict_of [("topic", VStr "Budget"); ("context", VNone)]])
           (dict_of [("topic", VStr "Budget"); ("context", VNone)])
           "context" ex_insights).
  - apply elem_of_app. right. constructor.
  - apply (bool_decide_unpack _). vm_compute. exact I.
  - vm_compute. reflexivity.
Defined.

(** A draft profile without "email", after a well-formed one. *)
Lemma profiles_all_or_nothing_witness :
  profiles_of [dict_of [("email", VStr "alice@acme.com")]; dict_of [("name", VStr "Bob")]]
  = Raise ValidationError.
Proof.
  apply (proj1 (profiles_all_or_nothing
                  [dict_of [("email", VStr "alice@acme.com")];
                   dict_of [("name", VStr "Bob")]])
           (dict_of [("name", VStr "Bob")])).
  - do 2 constructor.
  - vm_compute. reflexivity.
Defined.

(** Empty addresses are stored and do not come back. *)
Example stored_participants_example :
  brief_participants (stored_participants ["alice@acme.com"; ""; "bob@acme.com"])
  = Ok [VStr "alice@acme.com"; VStr "bob@acme.com"].
Proof. vm_compute. reflexivity. Qed.

End MoreExamples.
